(** * tiempo-reports: the aggregation and comparison core

    A shallow embedding of [scripts/generate_report.py] (the HTML and chat
    variant) and [scripts/newsletter_report.py] (the CSV and console variant),
    with the properties their specification states about the fetcher, the post
    normaliser, the aggregator, the comparator and the report builders.

    Modelling conventions.
    - Python [int] is [Z].  Python [float] is idealised: a sign bit and an
      exact rational magnitude, with no overflow and no NaN; the sign bit
      follows the IEEE-754 rules, so that the negative zero Python prints as
      [-0.0] is kept apart from [0.0].
    - The relative change [((current - previous) / previous) * 100] of
      [calc_change] and [fmt_change] is evaluated as binary64 evaluates it:
      each of its three operations rounds a float result to the nearest
      double (53 significant bits, a tie to the even significand); a
      difference of ints stays an int, and a quotient of ints is the double
      nearest to the exact quotient.  One printed decimal shows this: from 80 to 29 the
      value is -63.74999999999999 and prints as [-63.7%], where -63.75 would
      print as [-63.8%].  The operands are taken at their value, so the
      result is the one of binary64 for the counts, which are ints, and for
      floats that are doubles.  All other float arithmetic (sums, rates,
      means, differences in percentage points) is exact.
    - True division raises [ZeroDivisionError] on a zero divisor, for ints and
      floats alike; functions that divide live in the [result] monad.
    - A JSON object read with [d.get(key, default)] is a record of [option]
      fields; [get] supplies the default.
    - HTTP, the clock and the file system are inputs: the server is a function
      from the request parameters to a response, and period boundaries are
      Unix timestamps.
    - The HTML page, the Slack message and the console summaries are
      described by what is interpolated into them (the cells of a table, the
      items of the totals, the sections of a message), not by their markup. *)

From Stdlib Require Import ZArith QArith Qround Qabs Qpower Lqa String Ascii List Sorted Permutation Lia
  DecimalString OrdersEx.
From stdpp Require Import gmap strings list fin_maps.

Local Open Scope Z_scope.

(* ===================================================================== *)
(** * Python values                                                       *)
(* ===================================================================== *)

Module Py.

(** ** Exceptions and the result monad *)

Inductive exn : Type :=
| ZeroDivisionError
| KeyError (key : string).

Inductive result (A : Type) : Type :=
| Ok (a : A)
| Raise (e : exn).
Arguments Ok {A} a.
Arguments Raise {A} e.

#[export] Instance result_ret : MRet result := fun _ a => Ok a.
#[export] Instance result_bind : MBind result := fun _ _ f m =>
  match m with
  | Ok a => f a
  | Raise e => Raise e
  end.

(** [for x in xs: acc = body(acc, x)], stopping at the first exception. *)
Fixpoint for_each {A S : Type} (body : S -> A -> result S) (xs : list A) (acc : S)
  : result S :=
  match xs with
  | [] => Ok acc
  | x :: xs' => acc' ← body acc x; for_each body xs' acc'
  end.

(** [[f(x) for x in xs]] *)
Fixpoint comprehension {A B : Type} (f : A -> result B) (xs : list A) : result (list B) :=
  match xs with
  | [] => Ok []
  | x :: xs' => y ← f x; ys ← comprehension f xs'; mret (y :: ys)
  end.

(** ** Numbers *)

(** An idealised float: IEEE sign bit and exact magnitude.  The magnitude is
    the absolute value of the stored rational, so every record is a float. *)
Record pyfloat : Type := MkFloat { fneg : bool; fmag : Q }.

Definition magnitude (f : pyfloat) : Q := Qabs (fmag f).

Inductive pynum : Type :=
| PyInt (z : Z)
| PyFloat (f : pyfloat).

Definition float_Q (f : pyfloat) : Q :=
  if fneg f then (- magnitude f)%Q else magnitude f.

(** The rational a number denotes. *)
Definition py_Q (x : pynum) : Q :=
  match x with
  | PyInt z => inject_Z z
  | PyFloat f => float_Q f
  end.

(** The sign bit a number has once converted to float ([float(0)] is [+0.0]). *)
Definition py_sign (x : pynum) : bool :=
  match x with
  | PyInt z => z <? 0
  | PyFloat f => fneg f
  end.

Definition Qlt_bool (x y : Q) : bool := negb (Qle_bool y x).

(** The float whose exact value is [q]; [zero_sign] is the sign bit IEEE-754
    gives the result when it is zero. *)
Definition exact (zero_sign : bool) (q : Q) : pyfloat :=
  {| fneg := if Qeq_bool q 0 then zero_sign else Qlt_bool q 0;
     fmag := Qred (Qabs q) |}.

(** A float literal such as [46.85]. *)
Definition float_lit (q : Q) : pynum := PyFloat (exact false q).

(** [x + y]: int + int stays an int, anything else is a float; a zero sum is
    [-0.0] only when both operands are negative zeros. *)
Definition py_add (x y : pynum) : pynum :=
  match x, y with
  | PyInt a, PyInt b => PyInt (a + b)
  | _, _ => PyFloat (exact (py_sign x && py_sign y) (py_Q x + py_Q y))
  end.

(** [x - y] is [x + (-y)]. *)
Definition py_sub (x y : pynum) : pynum :=
  match x, y with
  | PyInt a, PyInt b => PyInt (a - b)
  | _, _ => PyFloat (exact (py_sign x && negb (py_sign y)) (py_Q x - py_Q y))
  end.

(** [x * y]: the sign of a float product is the xor of the signs. *)
Definition py_mul (x y : pynum) : pynum :=
  match x, y with
  | PyInt a, PyInt b => PyInt (a * b)
  | _, _ => PyFloat (exact (xorb (py_sign x) (py_sign y)) (py_Q x * py_Q y))
  end.

(** [x / y]: true division, always a float; raises on a zero divisor. *)
Definition py_truediv (x y : pynum) : result pynum :=
  if Qeq_bool (py_Q y) 0 then Raise ZeroDivisionError
  else Ok (PyFloat (exact (xorb (py_sign x) (py_sign y)) (py_Q x / py_Q y))).

(** Comparisons are by value: [0 == 0.0 == -0.0]. *)
Definition py_eq (x y : pynum) : bool := Qeq_bool (py_Q x) (py_Q y).
Definition py_ge (x y : pynum) : bool := Qle_bool (py_Q y) (py_Q x).
Definition py_gt (x y : pynum) : bool := Qlt_bool (py_Q y) (py_Q x).

(** [int(x)]: truncation toward zero. *)
Definition py_int (x : pynum) : Z :=
  match x with
  | PyInt z => z
  | PyFloat f => if fneg f then - Qfloor (magnitude f) else Qfloor (magnitude f)
  end.

(** [sum(xs)]: starts from the int [0] and adds from the left. *)
Definition py_sum (xs : list pynum) : pynum := fold_left py_add xs (PyInt 0).

(** [sum] over ints. *)
Definition sum_int (xs : list Z) : Z := fold_left Z.add xs 0.

(** ** Rounding and formatting *)

(** Nearest integer, ties to the even neighbour. *)
Definition round_half_even (q : Q) : Z :=
  let f := Qfloor q in
  match (q - inject_Z f ?= 1 # 2)%Q with
  | Lt => f
  | Gt => f + 1
  | Eq => if Z.even f then f else f + 1
  end.

(** The [e] with [2 ^ e <= q < 2 ^ (e + 1)], for [q > 0]. *)
Definition binade (q : Q) : Z :=
  let k := (Z.log2 (Qnum q) - Z.log2 (Zpos (Qden q)))%Z in
  if Qle_bool (2 ^ k) q then k else (k - 1)%Z.

(** The double nearest to a magnitude: 53 significant bits, a tie going to
    the even significand.  The exponent range is not bounded. *)
Definition nearest_double (q : Q) : Q :=
  if Qle_bool q 0 then 0
  else
    let e := (binade q - 52)%Z in
    Qred (inject_Z (round_half_even (q / 2 ^ e)) * 2 ^ e).

(** A float result as binary64 stores it; an int is kept as it is. *)
Definition binary64 (x : pynum) : pynum :=
  match x with
  | PyInt z => PyInt z
  | PyFloat f => PyFloat {| fneg := fneg f; fmag := nearest_double (magnitude f) |}
  end.

(** [stored] is within [2 ^ -53] of [exact_value], relative to it. *)
Definition rounded (exact_value stored : Q) : Prop :=
  (Qabs (stored - exact_value) <= Qabs exact_value * (1 # 2 ^ 53))%Q.

(** [x - y], [x * y] and [x / y] with the result rounded to a double, as
    the float operations round it; the quotient of two ints is the double
    nearest to the exact quotient. *)
Definition float_sub (x y : pynum) : pynum := binary64 (py_sub x y).

Definition float_mul (x y : pynum) : pynum := binary64 (py_mul x y).

Definition float_truediv (x y : pynum) : result pynum :=
  quotient ← py_truediv x y;
  mret (binary64 quotient).

Definition pow10 (d : nat) : Z := 10 ^ Z.of_nat d.

(** [round(x, d)]: an int is returned as it is, a float keeps its sign. *)
Definition py_round (x : pynum) (d : nat) : pynum :=
  match x with
  | PyInt z => PyInt z
  | PyFloat f =>
      PyFloat {| fneg := fneg f;
                 fmag := Qred (round_half_even (magnitude f * inject_Z (pow10 d))
                               # Z.to_pos (pow10 d)) |}
  end.

Definition digit (k : Z) : string :=
  String (ascii_of_nat (48 + Z.to_nat k)) EmptyString.

(** The [d] low-order decimal digits of [n], most significant first. *)
Fixpoint digits (d : nat) (n : Z) : string :=
  match d with
  | O => EmptyString
  | S d' => digits d' (n / 10) +:+ digit (n mod 10)
  end.

(** A natural number in decimal, no leading zeros. *)
Definition decimal (n : Z) : string :=
  NilZero.string_of_uint (N.to_uint (Z.to_N n)).

(** A non-negative magnitude with [d >= 1] decimals, as [.df] prints it. *)
Definition format_fixed (d : nat) (m : Q) : string :=
  let n := round_half_even (m * inject_Z (pow10 d)) in
  decimal (n / pow10 d) +:+ "." +:+ digits d (n mod pow10 d).

(** [f"{x:+.df}"]: the sign is the sign bit, also of a value that rounds to
    zero and of negative zero. *)
Definition format_signed (d : nat) (x : pynum) : string :=
  (if py_sign x then "-" else "+") +:+ format_fixed d (Qabs (py_Q x)).

(** [d.get(key, default)] on a field that may be absent. *)
Definition get {A : Type} (field : option A) (dflt : A) : A := default dflt field.

(** [f"{x:.df}"]: as [format_signed], without the plus sign. *)
Definition format_plain (d : nat) (x : pynum) : string :=
  (if py_sign x then "-" else "") +:+ format_fixed d (Qabs (py_Q x)).

(** [str(z)] on an int. *)
Definition py_str (z : Z) : string :=
  if z <? 0 then "-" +:+ decimal (- z) else decimal z.

(** Decimal digits with a comma before every group of three that is not the
    first; [n] is the number of digits. *)
Fixpoint group_thousands (digits : string) : string :=
  match digits with
  | EmptyString => EmptyString
  | String c rest =>
      String c (if (0 <? String.length rest)%nat && (String.length rest mod 3 =? 0)%nat
                then "," +:+ group_thousands rest
                else group_thousands rest)
  end.

(** [f"{z:,}"] on an int. *)
Definition format_thousands (z : Z) : string :=
  if z <? 0 then "-" +:+ group_thousands (decimal (- z))
  else group_thousands (decimal z).

(** [sub in s] on strings. *)
Definition py_in (sub s : string) : bool :=
  match String.index 0 sub s with
  | Some _ => true
  | None => false
  end.

(** [d[key]] on a dict. *)
Definition getitem_dict {V : Type} (d : gmap string V) (key : string) : result V :=
  match d !! key with
  | Some v => Ok v
  | None => Raise (KeyError key)
  end.

End Py.
Export Py.

(* ===================================================================== *)
(** * The publishing platform's API                                       *)
(* ===================================================================== *)

Module Api.

(** One entry of a post's [clicks] list. *)
Record RawClick : Type := {
  click_url : option string;
  click_description : option string;
  click_total_clicks : option Z;
  click_total_unique_clicks : option Z
}.

(** [post["stats"]["email"]] *)
Record EmailStats : Type := {
  email_recipients : option Z;
  email_opens : option Z;
  email_unique_opens : option Z;
  email_clicks : option Z;
  email_unique_clicks : option Z;
  email_unsubscribes : option Z
}.

(** [post["stats"]["web"]] *)
Record WebStats : Type := { web_views : option Z }.

Record Stats : Type := {
  stats_email : option EmailStats;
  stats_web : option WebStats
}.

(** A post as the listing endpoint returns it. *)
Record RawPost : Type := {
  post_id : option string;
  post_title : option string;
  post_publish_date : option Z;
  post_stats : option Stats;
  post_clicks : option (list RawClick)
}.

(** The empty objects that [.get(key, {})] falls back to. *)
Definition empty_email : EmailStats :=
  {| email_recipients := None; email_opens := None; email_unique_opens := None;
     email_clicks := None; email_unique_clicks := None; email_unsubscribes := None |}.
Definition empty_web : WebStats := {| web_views := None |}.
Definition empty_stats : Stats := {| stats_email := None; stats_web := None |}.

(** Query parameters of the listing request; [expand] is the [expand[]] key. *)
Record Params : Type := {
  status : string;
  limit : Z;
  page : Z;
  expand : option (list string)
}.

Record Request : Type := {
  req_url : string;
  req_headers : list (string * string);
  req_params : Params
}.

(** The response: its status code and the fields read from its JSON body. *)
Record Response : Type := {
  status_code : Z;
  body_data : option (list RawPost);
  body_total_pages : option Z
}.

Definition BEEHIIV_API_BASE : string := "https://api.beehiiv.com/v2".

(** How a call that talks to the outside ends. *)
Inductive outcome (A : Type) : Type :=
| Returned (a : A)
| SysExit (code : Z)
| OutOfFuel.
Arguments Returned {A} a.
Arguments SysExit {A} code.
Arguments OutOfFuel {A}.

Section Fetcher.

(** The credential read from the environment and the HTTP client. *)
Variable BEEHIIV_API_KEY : string.
Variable requests_get : Request -> Response.

(** [get_headers()]: [None] is [sys.exit(1)]. *)
Definition get_headers : option (list (string * string)) :=
  if String.eqb BEEHIIV_API_KEY "" then None
  else Some [("Authorization", "Bearer " +:+ BEEHIIV_API_KEY);
             ("Content-Type", "application/json")].

(** [start_ts <= publish_date <= end_ts], with [post.get("publish_date", 0)]. *)
Definition in_window (start_ts end_ts : Z) (post : RawPost) : bool :=
  let publish_date := get (post_publish_date post) 0 in
  (start_ts <=? publish_date) && (publish_date <=? end_ts).

(** The [while True] loop both scripts' [fetch_posts] run; they differ only in
    the [expand] parameter.  The state is the page counter, the posts kept so
    far and the requests sent so far. *)
Fixpoint fetch_loop (fuel : nat) (url : string) (expand : option (list string))
    (start_ts end_ts : Z) (page : Z) (all_posts : list RawPost) (sent : list Request)
  : list Request * outcome (list RawPost) :=
  match fuel with
  | O => (sent, OutOfFuel)
  | S fuel' =>
      let params := {| status := "confirmed"; limit := 100; page := page; expand := expand |} in
      match get_headers with
      | None => (sent, SysExit 1)
      | Some headers =>
          let request := {| req_url := url; req_headers := headers; req_params := params |} in
          let sent := sent ++ [request] in
          let response := requests_get request in
          if negb (status_code response =? 200) then (sent, Returned all_posts)
          else
            let posts := get (body_data response) [] in
            match posts with
            | [] => (sent, Returned all_posts)
            | _ :: _ =>
                let all_posts := all_posts ++ List.filter (in_window start_ts end_ts) posts in
                if page >=? get (body_total_pages response) 1 then (sent, Returned all_posts)
                else fetch_loop fuel' url expand start_ts end_ts (page + 1) all_posts sent
            end
      end
  end.

Definition posts_url (publication_id : string) : string :=
  BEEHIIV_API_BASE +:+ "/publications/" +:+ publication_id +:+ "/posts".

End Fetcher.

End Api.
Export Api.

(** [sorted(xs, key=key, reverse=True)]: descending, elements with equal keys
    keep their original order. *)
Fixpoint insert_desc {A : Type} (key : A -> Q) (x : A) (sorted : list A) : list A :=
  match sorted with
  | [] => [x]
  | y :: rest => if Qlt_bool (key x) (key y) then y :: insert_desc key x rest
                 else x :: sorted
  end.

Definition sorted_reverse {A : Type} (key : A -> Q) (xs : list A) : list A :=
  fold_right (insert_desc key) [] xs.

(** [sorted(xs, key=key)] on string keys: ascending, elements with equal keys
    keep their original order. *)
Fixpoint insert_asc {A : Type} (key : A -> string) (x : A) (sorted : list A) : list A :=
  match sorted with
  | [] => [x]
  | y :: rest => if String.ltb (key y) (key x) then y :: insert_asc key x rest
                 else x :: sorted
  end.

Definition sorted_by_string {A : Type} (key : A -> string) (xs : list A) : list A :=
  fold_right (insert_asc key) [] xs.

(** [a < b] on pairs of strings, as Python compares tuples: by the first
    components when they differ, else by the second. *)
Definition pair_ltb (a b : string * string) : bool :=
  String.ltb a.1 b.1 || (String.eqb a.1 b.1 && String.ltb a.2 b.2).

(** [sorted(xs, key=key)] on keys that are pairs of strings. *)
Fixpoint insert_asc_pair {A : Type} (key : A -> string * string) (x : A) (sorted : list A)
  : list A :=
  match sorted with
  | [] => [x]
  | y :: rest => if pair_ltb (key y) (key x) then y :: insert_asc_pair key x rest
                 else x :: sorted
  end.

Definition sorted_by_pair {A : Type} (key : A -> string * string) (xs : list A) : list A :=
  fold_right (insert_asc_pair key) [] xs.

(** Naive datetimes, in seconds from the midnight that starts day 0:
    [strptime(s, "%Y-%m-%d")] is the midnight that starts the day [s] names. *)
Definition strptime_date (day : Z) : Z := day * 86400.

(** [timedelta(days=n)] *)
Definition timedelta_days (n : Z) : Z := n * 86400.

(** [t.replace(hour=23, minute=59, second=59)] *)
Definition replace_235959 (t : Z) : Z := t - t mod 86400 + (23 * 3600 + 59 * 60 + 59).

(* ===================================================================== *)
(** * scripts/generate_report.py                                          *)
(* ===================================================================== *)

Module GenerateReport.

(** ** API helpers *)

(** [fetch_posts(publication_id, start_date, end_date)]; the two dates are
    taken as the timestamps [int(start_date.timestamp())] and
    [int(end_date.timestamp())]. *)
Definition fetch_posts (BEEHIIV_API_KEY : string) (requests_get : Request -> Response)
    (fuel : nat) (publication_id : string) (start_ts end_ts : Z)
  : list Request * outcome (list RawPost) :=
  fetch_loop BEEHIIV_API_KEY requests_get fuel (posts_url publication_id)
    (Some ["stats"; "clicks"]) start_ts end_ts 1 [] [].

(** ** Post normaliser *)

(** An entry of [top_clicks]; [post_title] is the key the report builders add
    later. *)
Module Click.
Record t : Type := {
  url : string;
  description : string;
  clicks : Z;
  unique_clicks : Z;
  post_title : option string
}.
End Click.

(** The dict [process_post] returns; [date] is kept as the timestamp that
    [datetime.fromtimestamp] receives. *)
Module Post.
Record t : Type := {
  title : string;
  date : Z;
  recipients : Z;
  opens : Z;
  unique_opens : Z;
  open_rate : pynum;
  clicks : Z;
  unique_clicks : Z;
  click_rate : pynum;
  unsubscribes : Z;
  web_views : Z;
  impressions : Z;
  top_clicks : list Click.t
}.
End Post.

(** The dict appended to [clicks_data] for one click. *)
Definition process_click (click : RawClick) : Click.t :=
  {| Click.url := get (click_url click) "";
     Click.description :=
       get (click_description click) (substring 0 50 (get (click_url click) ""));
     Click.clicks := get (click_total_clicks click) 0;
     Click.unique_clicks := get (click_total_unique_clicks click) 0;
     Click.post_title := None |}.

(** [process_post(post)] *)
Definition process_post (post : RawPost) : result Post.t :=
  let stats := get (post_stats post) empty_stats in
  let email := get (stats_email stats) empty_email in
  let web := get (stats_web stats) empty_web in
  let recipients := get (email_recipients email) 0 in
  let unique_opens := get (email_unique_opens email) 0 in
  let unique_clicks := get (email_unique_clicks email) 0 in
  let opens := get (email_opens email) 0 in
  let web_views := get (Api.web_views web) 0 in
  let clicks_data := map process_click (take 5 (get (post_clicks post) [])) in
  open_rate ←
    (if recipients >? 0 then
       ratio ← py_truediv (PyInt unique_opens) (PyInt recipients);
       mret (py_mul ratio (PyInt 100))
     else mret (PyInt 0));
  click_rate ←
    (if recipients >? 0 then
       ratio ← py_truediv (PyInt unique_clicks) (PyInt recipients);
       mret (py_mul ratio (PyInt 100))
     else mret (PyInt 0));
  mret {| Post.title := get (post_title post) "";
          Post.date := get (post_publish_date post) 0;
          Post.recipients := recipients;
          Post.opens := opens;
          Post.unique_opens := unique_opens;
          Post.open_rate := open_rate;
          Post.clicks := get (email_clicks email) 0;
          Post.unique_clicks := unique_clicks;
          Post.click_rate := click_rate;
          Post.unsubscribes := get (email_unsubscribes email) 0;
          Post.web_views := web_views;
          Post.impressions := opens + web_views;
          Post.top_clicks := clicks_data |}.

(** ** Aggregator *)

(** The dict [calc_metrics] returns for a non-empty list. *)
Module Metrics.
Record t : Type := {
  posts_sent : Z;
  avg_sent : Z;
  impressions : Z;
  avg_unique_opens : Z;
  avg_open_rate : pynum;
  total_clicks : Z;
  avg_unique_clicks : Z;
  avg_click_rate : pynum;
  unsubscribes : Z;
  top_posts : list Post.t
}.
End Metrics.

(** [calc_metrics(posts)]; [None] is Python's [None]. *)
Definition calc_metrics (posts : list Post.t) : result (option Metrics.t) :=
  match posts with
  | [] => mret None
  | _ :: _ =>
      let count := Z.of_nat (length posts) in
      avg_sent ← py_truediv (PyInt (sum_int (map Post.recipients posts))) (PyInt count);
      avg_unique_opens ←
        py_truediv (PyInt (sum_int (map Post.unique_opens posts))) (PyInt count);
      avg_open_rate ← py_truediv (py_sum (map Post.open_rate posts)) (PyInt count);
      avg_unique_clicks ←
        py_truediv (PyInt (sum_int (map Post.unique_clicks posts))) (PyInt count);
      avg_click_rate ← py_truediv (py_sum (map Post.click_rate posts)) (PyInt count);
      mret (Some
        {| Metrics.posts_sent := count;
           Metrics.avg_sent := py_int avg_sent;
           Metrics.impressions := sum_int (map Post.impressions posts);
           Metrics.avg_unique_opens := py_int avg_unique_opens;
           Metrics.avg_open_rate := avg_open_rate;
           Metrics.total_clicks := sum_int (map Post.clicks posts);
           Metrics.avg_unique_clicks := py_int avg_unique_clicks;
           Metrics.avg_click_rate := avg_click_rate;
           Metrics.unsubscribes := sum_int (map Post.unsubscribes posts);
           Metrics.top_posts :=
             take 3 (sorted_reverse (fun x => py_Q (Post.open_rate x)) posts) |})
  end.

(** ** Comparator *)

Record ChangeResult : Type := {
  value : pynum;
  display : string;
  positive : bool
}.

(** [calc_change(current, previous, is_percentage=False)]; the operations of
    the relative change round as floats do. *)
Definition calc_change (current previous : pynum) (is_percentage : bool)
  : result ChangeResult :=
  if py_eq previous (PyInt 0) then
    mret {| value := PyInt 0; display := "N/A"; positive := true |}
  else if is_percentage then
    let diff := py_sub current previous in
    mret {| value := diff;
            display := format_signed 2 diff +:+ "pp";
            positive := py_ge diff (PyInt 0) |}
  else
    quotient ← float_truediv (float_sub current previous) previous;
    let pct_change := float_mul quotient (PyInt 100) in
    mret {| value := pct_change;
            display := format_signed 1 pct_change +:+ "%";
            positive := py_ge pct_change (PyInt 0) |}.

(** ** Report builders *)

Record PubInfo : Type := {
  id : string;
  display_name : string;
  color : string
}.

Definition PUBLICATIONS : list (string * PubInfo) :=
  [("ETL Daily", {| id := "pub_88b8ccea-c311-4381-a49c-91848583ba9e";
                    display_name := "El Tiempo Latino"; color := "#1a73e8" |});
   ("EP Daily", {| id := "pub_2dd3324c-fa75-40a2-acf2-df2acff63d10";
                   display_name := "El Planeta"; color := "#ea4335" |})].

(** [report_data['totals']['current']] and [['previous']]; [avg_open_rate] is
    absent until the loop over the publications has ended. *)
Module Totals.
Record t : Type := {
  posts : Z;
  impressions : Z;
  clicks : Z;
  open_rates : list pynum;
  avg_open_rate : option pynum
}.
End Totals.

(** [report_data['publications'][pub_key]] *)
Module Entry.
Record t : Type := {
  current : Metrics.t;
  previous : option Metrics.t;
  changes : gmap string ChangeResult;
  top_clicks : list Click.t
}.
End Entry.

(** [report_data]; [totals_changes] is [report_data['totals']['changes']]. *)
Module Report.
Record t : Type := {
  current_period : string;
  previous_period : string;
  publications : gmap string Entry.t;
  totals_current : Totals.t;
  totals_previous : Totals.t;
  totals_changes : gmap string ChangeResult
}.
End Report.

(** [metrics[key]] for the keys that hold a number. *)
Definition getitem (metrics : Metrics.t) (key : string) : result pynum :=
  if String.eqb key "posts_sent" then mret (PyInt (Metrics.posts_sent metrics))
  else if String.eqb key "avg_sent" then mret (PyInt (Metrics.avg_sent metrics))
  else if String.eqb key "impressions" then mret (PyInt (Metrics.impressions metrics))
  else if String.eqb key "avg_unique_opens" then
    mret (PyInt (Metrics.avg_unique_opens metrics))
  else if String.eqb key "avg_open_rate" then mret (Metrics.avg_open_rate metrics)
  else if String.eqb key "total_clicks" then mret (PyInt (Metrics.total_clicks metrics))
  else if String.eqb key "avg_unique_clicks" then
    mret (PyInt (Metrics.avg_unique_clicks metrics))
  else if String.eqb key "avg_click_rate" then mret (Metrics.avg_click_rate metrics)
  else if String.eqb key "unsubscribes" then mret (PyInt (Metrics.unsubscribes metrics))
  else Raise (KeyError key).

Definition count_keys : list string :=
  ["posts_sent"; "avg_sent"; "impressions"; "avg_unique_opens"; "total_clicks";
   "avg_unique_clicks"; "unsubscribes"].

Definition rate_keys : list string := ["avg_open_rate"; "avg_click_rate"].

(** One round of either [for key in [...]] loop:
    [prev_val = prev_metrics[key] if prev_metrics else 0] and
    [changes[key] = calc_change(curr_metrics[key], prev_val, is_percentage)]. *)
Definition change_step (curr_metrics : Metrics.t) (prev_metrics : option Metrics.t)
    (is_percentage : bool) (changes : gmap string ChangeResult) (key : string)
  : result (gmap string ChangeResult) :=
  prev_val ← match prev_metrics with
             | Some metrics => getitem metrics key
             | None => mret (PyInt 0)
             end;
  curr_val ← getitem curr_metrics key;
  change ← calc_change curr_val prev_val is_percentage;
  mret (<[key := change]> changes).

(** The two loops under [# Calculate changes]. *)
Definition calc_changes (curr_metrics : Metrics.t) (prev_metrics : option Metrics.t)
  : result (gmap string ChangeResult) :=
  changes ← for_each (change_step curr_metrics prev_metrics false) count_keys ∅;
  for_each (change_step curr_metrics prev_metrics true) rate_keys changes.

(** [click['post_title'] = post['title']] for every click of [post]; the
    click dicts are shared with the post, so the post sees the new key. *)
Definition with_post_title (post : Post.t) : Post.t :=
  {| Post.title := Post.title post; Post.date := Post.date post;
     Post.recipients := Post.recipients post; Post.opens := Post.opens post;
     Post.unique_opens := Post.unique_opens post; Post.open_rate := Post.open_rate post;
     Post.clicks := Post.clicks post; Post.unique_clicks := Post.unique_clicks post;
     Post.click_rate := Post.click_rate post; Post.unsubscribes := Post.unsubscribes post;
     Post.web_views := Post.web_views post; Post.impressions := Post.impressions post;
     Post.top_clicks :=
       map (fun click =>
              {| Click.url := Click.url click; Click.description := Click.description click;
                 Click.clicks := Click.clicks click;
                 Click.unique_clicks := Click.unique_clicks click;
                 Click.post_title := Some (Post.title post) |})
           (Post.top_clicks post) |}.

(** [curr_metrics] as the report holds it: its [top_posts] are the same post
    dicts, seen after their clicks were given a title. *)
Definition with_post_titles (metrics : Metrics.t) : Metrics.t :=
  {| Metrics.posts_sent := Metrics.posts_sent metrics;
     Metrics.avg_sent := Metrics.avg_sent metrics;
     Metrics.impressions := Metrics.impressions metrics;
     Metrics.avg_unique_opens := Metrics.avg_unique_opens metrics;
     Metrics.avg_open_rate := Metrics.avg_open_rate metrics;
     Metrics.total_clicks := Metrics.total_clicks metrics;
     Metrics.avg_unique_clicks := Metrics.avg_unique_clicks metrics;
     Metrics.avg_click_rate := Metrics.avg_click_rate metrics;
     Metrics.unsubscribes := Metrics.unsubscribes metrics;
     Metrics.top_posts := map with_post_title (Metrics.top_posts metrics) |}.

(** [# Add to totals] *)
Definition add_to_totals (totals : Totals.t) (metrics : Metrics.t) : Totals.t :=
  {| Totals.posts := Totals.posts totals + Metrics.posts_sent metrics;
     Totals.impressions := Totals.impressions totals + Metrics.impressions metrics;
     Totals.clicks := Totals.clicks totals + Metrics.total_clicks metrics;
     Totals.open_rates := Totals.open_rates totals ++ [Metrics.avg_open_rate metrics];
     Totals.avg_open_rate := Totals.avg_open_rate totals |}.

(** [sum(rates) / len(rates) if rates else 0] *)
Definition mean_or_zero (rates : list pynum) : result pynum :=
  match rates with
  | [] => mret (PyInt 0)
  | _ :: _ => py_truediv (py_sum rates) (PyInt (Z.of_nat (length rates)))
  end.

Definition empty_totals : Totals.t :=
  {| Totals.posts := 0; Totals.impressions := 0; Totals.clicks := 0;
     Totals.open_rates := []; Totals.avg_open_rate := None |}.

Section Builders.

(** The posts [fetch_posts(publication_id, start, end)] returns.  A fatal exit
    inside it ends the run before any report exists, so the builders are
    described for the calls that return. *)
Variable fetch : string -> Z -> Z -> list RawPost.

(** The period boundaries, as timestamps, and the two period labels. *)
Variables curr_start curr_end prev_start prev_end : Z.
Variables current_label previous_label : string.

(** The body of [for pub_key, pub_info in PUBLICATIONS.items()]. *)
Definition publication_step (report_data : Report.t) (pub : string * PubInfo)
  : result Report.t :=
  let pub_key := pub.1 in
  let pub_info := pub.2 in
  let curr_posts := fetch (id pub_info) curr_start curr_end in
  curr_processed ← comprehension process_post curr_posts;
  let prev_posts := fetch (id pub_info) prev_start prev_end in
  prev_processed ← comprehension process_post prev_posts;
  curr_metrics ← calc_metrics curr_processed;
  prev_metrics ← calc_metrics prev_processed;
  match curr_metrics with
  | None => mret report_data
  | Some curr_metrics =>
      let all_clicks :=
        flat_map (fun post => Post.top_clicks (with_post_title post)) curr_processed in
      let all_clicks := sorted_reverse (fun x => inject_Z (Click.clicks x)) all_clicks in
      changes ← calc_changes curr_metrics prev_metrics;
      let entry := {| Entry.current := with_post_titles curr_metrics;
                      Entry.previous := prev_metrics;
                      Entry.changes := changes;
                      Entry.top_clicks := take 5 all_clicks |} in
      mret {| Report.current_period := Report.current_period report_data;
              Report.previous_period := Report.previous_period report_data;
              Report.publications := <[pub_key := entry]> (Report.publications report_data);
              Report.totals_current :=
                add_to_totals (Report.totals_current report_data) curr_metrics;
              Report.totals_previous :=
                match prev_metrics with
                | Some prev_metrics =>
                    add_to_totals (Report.totals_previous report_data) prev_metrics
                | None => Report.totals_previous report_data
                end;
              Report.totals_changes := Report.totals_changes report_data |}
  end.

(** [# Calculate total averages and changes] *)
Definition finish_totals (report_data : Report.t) : result Report.t :=
  let curr_t := Report.totals_current report_data in
  let prev_t := Report.totals_previous report_data in
  curr_avg ← mean_or_zero (Totals.open_rates curr_t);
  prev_avg ← mean_or_zero (Totals.open_rates prev_t);
  posts ← calc_change (PyInt (Totals.posts curr_t)) (PyInt (Totals.posts prev_t)) false;
  impressions ←
    calc_change (PyInt (Totals.impressions curr_t)) (PyInt (Totals.impressions prev_t)) false;
  clicks ← calc_change (PyInt (Totals.clicks curr_t)) (PyInt (Totals.clicks prev_t)) false;
  avg_open_rate ← calc_change curr_avg prev_avg true;
  mret {| Report.current_period := Report.current_period report_data;
          Report.previous_period := Report.previous_period report_data;
          Report.publications := Report.publications report_data;
          Report.totals_current :=
            {| Totals.posts := Totals.posts curr_t;
               Totals.impressions := Totals.impressions curr_t;
               Totals.clicks := Totals.clicks curr_t;
               Totals.open_rates := Totals.open_rates curr_t;
               Totals.avg_open_rate := Some curr_avg |};
          Report.totals_previous :=
            {| Totals.posts := Totals.posts prev_t;
               Totals.impressions := Totals.impressions prev_t;
               Totals.clicks := Totals.clicks prev_t;
               Totals.open_rates := Totals.open_rates prev_t;
               Totals.avg_open_rate := Some prev_avg |};
          Report.totals_changes :=
            <["avg_open_rate" := avg_open_rate]>
              (<["clicks" := clicks]>
                 (<["impressions" := impressions]> (<["posts" := posts]> ∅))) |}.

(** The [report_data] both builders hand to the HTML generator: the initial
    dict, the loop over the publication table, the totals. *)
Definition build_report_data (publications : list (string * PubInfo)) : result Report.t :=
  let report_data :=
    {| Report.current_period := current_label;
       Report.previous_period := previous_label;
       Report.publications := ∅;
       Report.totals_current := empty_totals;
       Report.totals_previous := empty_totals;
       Report.totals_changes := ∅ |} in
  report_data ← for_each publication_step publications report_data;
  finish_totals report_data.

(** [generate_weekly_report]: the week starting at [curr_start] against the
    week before it. *)
Definition generate_weekly_report : result Report.t := build_report_data PUBLICATIONS.

(** [generate_monthly_report]: the calendar month starting at [curr_start]
    against the comparison month; the loop and the totals are the weekly ones. *)
Definition generate_monthly_report : result Report.t := build_report_data PUBLICATIONS.

End Builders.

(** ** Period boundaries of the weekly report *)

(** The four naive datetimes [generate_weekly_report(start_date_str)]
    computes: [(curr_start, curr_end, prev_start, prev_end)]. *)
Definition weekly_bounds (start_day : Z) : Z * Z * Z * Z :=
  let curr_start := strptime_date start_day in
  let curr_end := curr_start + timedelta_days 6 in
  let curr_end := replace_235959 curr_end in
  let prev_start := curr_start - timedelta_days 7 in
  let prev_end := prev_start + timedelta_days 6 in
  let prev_end := replace_235959 prev_end in
  (curr_start, curr_end, prev_start, prev_end).

(** ** HTML report: what is interpolated into a publication's section *)

(** [chg_class(change_data, invert=False)] *)
Definition chg_class (change_data : ChangeResult) (invert : bool) : string :=
  let positive := positive change_data in
  let positive := if invert then negb positive else positive in
  if positive then "change-positive" else "change-negative".

(** [fmt_prev(val)], that is [fmt_type='number']; it is called on ints. *)
Definition fmt_prev_number (prev : option Metrics.t) (val : Z) : string :=
  match prev with
  | None => "-"
  | Some _ => format_thousands val
  end.

(** [fmt_prev(val, 'percent')] *)
Definition fmt_prev_percent (prev : option Metrics.t) (val : pynum) : string :=
  match prev with
  | None => "-"
  | Some _ => format_plain 2 val +:+ "%"
  end.

(** One [<tr>] of the comparison table: the metric name and the four
    interpolated cells. *)
Module TableRow.
Record t : Type := {
  metric_name : string;
  current : string;
  previous : string;
  change_class : string;
  change_display : string
}.
End TableRow.

(** The eight rows of a publication's comparison table, top to bottom. *)
Definition table_rows (pub_data : Entry.t) : result (list TableRow.t) :=
  let curr := Entry.current pub_data in
  let prev := Entry.previous pub_data in
  let changes := Entry.changes pub_data in
  let prev_int := fun field : Metrics.t -> Z =>
                    match prev with Some metrics => field metrics | None => 0 end in
  let prev_num := fun field : Metrics.t -> pynum =>
                    match prev with Some metrics => field metrics | None => PyInt 0 end in
  posts_sent ← getitem_dict changes "posts_sent";
  avg_sent ← getitem_dict changes "avg_sent";
  impressions ← getitem_dict changes "impressions";
  avg_unique_opens ← getitem_dict changes "avg_unique_opens";
  avg_open_rate ← getitem_dict changes "avg_open_rate";
  total_clicks ← getitem_dict changes "total_clicks";
  avg_click_rate ← getitem_dict changes "avg_click_rate";
  unsubscribes ← getitem_dict changes "unsubscribes";
  mret
    [{| TableRow.metric_name := "Posts Sent";
        TableRow.current := py_str (Metrics.posts_sent curr);
        TableRow.previous :=
          match prev with Some metrics => py_str (Metrics.posts_sent metrics) | None => "-" end;
        TableRow.change_class := chg_class posts_sent false;
        TableRow.change_display := display posts_sent |};
     {| TableRow.metric_name := "Avg Sent";
        TableRow.current := format_thousands (Metrics.avg_sent curr);
        TableRow.previous := fmt_prev_number prev (prev_int Metrics.avg_sent);
        TableRow.change_class := chg_class avg_sent false;
        TableRow.change_display := display avg_sent |};
     {| TableRow.metric_name := "Impressions";
        TableRow.current := format_thousands (Metrics.impressions curr);
        TableRow.previous := fmt_prev_number prev (prev_int Metrics.impressions);
        TableRow.change_class := chg_class impressions false;
        TableRow.change_display := display impressions |};
     {| TableRow.metric_name := "Avg Unique Opens";
        TableRow.current := format_thousands (Metrics.avg_unique_opens curr);
        TableRow.previous := fmt_prev_number prev (prev_int Metrics.avg_unique_opens);
        TableRow.change_class := chg_class avg_unique_opens false;
        TableRow.change_display := display avg_unique_opens |};
     {| TableRow.metric_name := "Avg Open Rate";
        TableRow.current := format_plain 2 (Metrics.avg_open_rate curr) +:+ "%";
        TableRow.previous := fmt_prev_percent prev (prev_num Metrics.avg_open_rate);
        TableRow.change_class := chg_class avg_open_rate false;
        TableRow.change_display := display avg_open_rate |};
     {| TableRow.metric_name := "Total Clicks";
        TableRow.current := format_thousands (Metrics.total_clicks curr);
        TableRow.previous := fmt_prev_number prev (prev_int Metrics.total_clicks);
        TableRow.change_class := chg_class total_clicks false;
        TableRow.change_display := display total_clicks |};
     {| TableRow.metric_name := "Avg Click Rate";
        TableRow.current := format_plain 2 (Metrics.avg_click_rate curr) +:+ "%";
        TableRow.previous := fmt_prev_percent prev (prev_num Metrics.avg_click_rate);
        TableRow.change_class := chg_class avg_click_rate false;
        TableRow.change_display := display avg_click_rate |};
     {| TableRow.metric_name := "Unsubscribes";
        TableRow.current := py_str (Metrics.unsubscribes curr);
        TableRow.previous :=
          match prev with Some metrics => py_str (Metrics.unsubscribes metrics) | None => "-" end;
        TableRow.change_class := chg_class unsubscribes true;
        TableRow.change_display := display unsubscribes |}].

(** The metric names of the table's rows, top to bottom. *)
Definition metric_names : list string :=
  ["Posts Sent"; "Avg Sent"; "Impressions"; "Avg Unique Opens"; "Avg Open Rate";
   "Total Clicks"; "Avg Click Rate"; "Unsubscribes"].

(** [post['title'][:50] + ('...' if len(post['title']) > 50 else '')] *)
Definition shown_title (title : string) : string :=
  substring 0 50 title +:+ (if (50 <? String.length title)%nat then "..." else "").

(** [link['description'][:60] if link['description'] else link['url'][:60]] *)
Definition link_label (link : Click.t) : string :=
  if negb (String.eqb (Click.description link) "")
  then substring 0 60 (Click.description link)
  else substring 0 60 (Click.url link).

(** The publication sections of [generate_weekly_html], in page order: the
    loop runs over the two keys written in the function, skips a key the
    report has no entry for, and fills the table of the others. *)
Definition html_sections (report_data : Report.t)
  : result (list (string * list TableRow.t)) :=
  for_each (fun sections pub_key =>
              match Report.publications report_data !! pub_key with
              | None => mret sections
              | Some pub_data =>
                  rows ← table_rows pub_data;
                  mret (sections ++ [(pub_key, rows)])
              end)
           ["ETL Daily"; "EP Daily"] [].

(** ** HTML report: the combined totals *)

(** [tot_chg_class(key)] *)
Definition tot_chg_class (totals_changes : gmap string ChangeResult) (key : string)
  : result string :=
  change ← getitem_dict totals_changes key;
  mret (if positive change then "change-positive" else "change-negative").

(** One item of the Combined Totals grid: its value, its label, and the
    class and the text of its change. *)
Module TotalItem.
Record t : Type := {
  value : string;
  label : string;
  change_class : string;
  change_display : string
}.
End TotalItem.

(** The four items of the Combined Totals grid, left to right, read in the
    order the f-string reads them.  The report always has its [totals], a
    dict with keys, so [if totals:] holds. *)
Definition totals_items (report_data : Report.t) : result (list TotalItem.t) :=
  let current := Report.totals_current report_data in
  let changes := Report.totals_changes report_data in
  posts_class ← tot_chg_class changes "posts";
  posts ← getitem_dict changes "posts";
  impressions_class ← tot_chg_class changes "impressions";
  impressions ← getitem_dict changes "impressions";
  avg_open_rate ← match Totals.avg_open_rate current with
                  | Some rate => mret rate
                  | None => Raise (KeyError "avg_open_rate")
                  end;
  avg_open_rate_class ← tot_chg_class changes "avg_open_rate";
  avg_open_rate_change ← getitem_dict changes "avg_open_rate";
  clicks_class ← tot_chg_class changes "clicks";
  clicks ← getitem_dict changes "clicks";
  mret
    [{| TotalItem.value := py_str (Totals.posts current);
        TotalItem.label := "Total Posts";
        TotalItem.change_class := posts_class;
        TotalItem.change_display := display posts |};
     {| TotalItem.value := format_thousands (Totals.impressions current);
        TotalItem.label := "Total Impressions";
        TotalItem.change_class := impressions_class;
        TotalItem.change_display := display impressions |};
     {| TotalItem.value := format_plain 1 avg_open_rate +:+ "%";
        TotalItem.label := "Avg Open Rate";
        TotalItem.change_class := avg_open_rate_class;
        TotalItem.change_display := display avg_open_rate_change |};
     {| TotalItem.value := format_thousands (Totals.clicks current);
        TotalItem.label := "Total Clicks";
        TotalItem.change_class := clicks_class;
        TotalItem.change_display := display clicks |}].

(** ** Slack *)

(** What is interpolated into a publication's section of the Slack message;
    [blue] says which circle stands before the name: the blue one when
    ["ETL"] is in the key, else the red one. *)
Module SlackSummary.
Record t : Type := {
  blue : bool;
  name : string;
  posts : string;
  posts_change : string;
  impressions : string;
  impressions_change : string;
  open_rate : string;
  open_rate_change : string;
  clicks : string;
  clicks_change : string
}.
End SlackSummary.

(** What is interpolated into the blocks of the message: the header says
    Weekly when [report_type == 'weekly'], else Monthly. *)
Module SlackMessage.
Record t : Type := {
  weekly : bool;
  current_period : string;
  previous_period : string;
  summaries : list SlackSummary.t;
  full_report : string
}.
End SlackMessage.

(** [PUBLICATIONS.get(pub_key, {}).get('display_name', pub_key)] *)
Definition display_name_of (pub_key : string) : string :=
  match List.find (fun pub : string * PubInfo => String.eqb pub.1 pub_key) PUBLICATIONS with
  | Some pub => display_name pub.2
  | None => pub_key
  end.

(** The section appended for [pub_key]. *)
Definition slack_summary (pub_key : string) (pub_data : Entry.t) : result SlackSummary.t :=
  let curr := Entry.current pub_data in
  let chg := Entry.changes pub_data in
  posts_sent ← getitem_dict chg "posts_sent";
  impressions ← getitem_dict chg "impressions";
  avg_open_rate ← getitem_dict chg "avg_open_rate";
  total_clicks ← getitem_dict chg "total_clicks";
  mret {| SlackSummary.blue := py_in "ETL" pub_key;
          SlackSummary.name := display_name_of pub_key;
          SlackSummary.posts := py_str (Metrics.posts_sent curr);
          SlackSummary.posts_change := display posts_sent;
          SlackSummary.impressions := format_thousands (Metrics.impressions curr);
          SlackSummary.impressions_change := display impressions;
          SlackSummary.open_rate := format_plain 1 (Metrics.avg_open_rate curr) +:+ "%";
          SlackSummary.open_rate_change := display avg_open_rate;
          SlackSummary.clicks := format_thousands (Metrics.total_clicks curr);
          SlackSummary.clicks_change := display total_clicks |}.

Section Slack.

(** The webhook read from the environment, [""] when it is not set, and
    [requests.post(url, json={"blocks": blocks})]: the status code of the
    response, or [None] when the call raises. *)
Variable SLACK_WEBHOOK_URL : string.
Variable requests_post : string -> SlackMessage.t -> option Z.

(** [post_to_slack(report_data, html_file_path, report_type)]: the posts
    attempted, and the value returned. *)
Definition post_to_slack (report_data : Report.t) (html_file_path report_type : string)
  : result (list (string * SlackMessage.t) * bool) :=
  if String.eqb SLACK_WEBHOOK_URL "" then mret ([], false)
  else
    summaries ←
      for_each (fun summaries pub_key =>
                  match Report.publications report_data !! pub_key with
                  | None => mret summaries
                  | Some pub_data =>
                      summary ← slack_summary pub_key pub_data;
                      mret (summaries ++ [summary])
                  end)
               ["ETL Daily"; "EP Daily"] [];
    let message := {| SlackMessage.weekly := String.eqb report_type "weekly";
                      SlackMessage.current_period := Report.current_period report_data;
                      SlackMessage.previous_period := Report.previous_period report_data;
                      SlackMessage.summaries := summaries;
                      SlackMessage.full_report := html_file_path |} in
    match requests_post SLACK_WEBHOOK_URL message with
    | Some status_code => mret ([(SLACK_WEBHOOK_URL, message)], status_code =? 200)
    | None => mret ([(SLACK_WEBHOOK_URL, message)], false)
    end.

End Slack.

End GenerateReport.

(* ===================================================================== *)
(** * scripts/newsletter_report.py                                        *)
(* ===================================================================== *)

Module NewsletterReport.

Definition PUBLICATIONS : list (string * string) :=
  [("ETL Daily", "pub_88b8ccea-c311-4381-a49c-91848583ba9e");
   ("EP Daily", "pub_2dd3324c-fa75-40a2-acf2-df2acff63d10")].

(** [fetch_posts(publication_id, start_date, end_date, expand=None)]: the
    [expand[]] parameter is sent only when [expand] is a non-empty list. *)
Definition fetch_posts (BEEHIIV_API_KEY : string) (requests_get : Request -> Response)
    (fuel : nat) (publication_id : string) (start_ts end_ts : Z)
    (expand : option (list string))
  : list Request * outcome (list RawPost) :=
  fetch_loop BEEHIIV_API_KEY requests_get fuel (posts_url publication_id)
    (match expand with
     | Some ((_ :: _) as fields) => Some fields
     | _ => None
     end) start_ts end_ts 1 [] [].

(** A row of the posts CSV. *)
Module Row.
Record t : Type := {
  publication : string;
  post_id : string;
  title : string;
  date : string;
  month : string;
  recipients : Z;
  opens : Z;
  unique_opens : Z;
  open_rate : pynum;
  clicks : Z;
  unique_clicks : Z;
  click_rate : pynum;
  unsubscribes : Z;
  web_views : Z;
  impressions : Z
}.
End Row.

(** A row of the clicks CSV. *)
Module ClickRow.
Record t : Type := {
  publication : string;
  post_title : string;
  link_url : string;
  link_description : string;
  clicks : Z;
  unique_clicks : Z
}.
End ClickRow.

Section Processing.

(** [datetime.fromtimestamp(ts).strftime(fmt)], in the local time zone. *)
Variable strftime : string -> Z -> string.

(** [process_post_data(post, publication_name)] *)
Definition process_post_data (post : RawPost) (publication_name : string)
  : result Row.t :=
  let stats := get (post_stats post) empty_stats in
  let email_stats := get (stats_email stats) empty_email in
  let web_stats := get (stats_web stats) empty_web in
  let recipients := get (email_recipients email_stats) 0 in
  let opens := get (email_opens email_stats) 0 in
  let unique_opens := get (email_unique_opens email_stats) 0 in
  let clicks := get (email_clicks email_stats) 0 in
  let unique_clicks := get (email_unique_clicks email_stats) 0 in
  let unsubscribes := get (email_unsubscribes email_stats) 0 in
  let web_views := get (Api.web_views web_stats) 0 in
  open_rate ←
    (if recipients >? 0 then
       ratio ← py_truediv (PyInt unique_opens) (PyInt recipients);
       mret (py_mul ratio (PyInt 100))
     else mret (PyInt 0));
  click_rate ←
    (if recipients >? 0 then
       ratio ← py_truediv (PyInt unique_clicks) (PyInt recipients);
       mret (py_mul ratio (PyInt 100))
     else mret (PyInt 0));
  let impressions := opens + web_views in
  let publish_ts := get (post_publish_date post) 0 in
  mret {| Row.publication := publication_name;
          Row.post_id := get (Api.post_id post) "";
          Row.title := get (Api.post_title post) "";
          Row.date := strftime "%Y-%m-%d" publish_ts;
          Row.month := strftime "%Y-%m" publish_ts;
          Row.recipients := recipients;
          Row.opens := opens;
          Row.unique_opens := unique_opens;
          Row.open_rate := py_round open_rate 2;
          Row.clicks := clicks;
          Row.unique_clicks := unique_clicks;
          Row.click_rate := py_round click_rate 2;
          Row.unsubscribes := unsubscribes;
          Row.web_views := web_views;
          Row.impressions := impressions |}.

End Processing.

(** The dict [process_clicks_data] appends for one click. *)
Definition click_row (post : RawPost) (publication_name : string) (click : RawClick)
  : ClickRow.t :=
  {| ClickRow.publication := publication_name;
     ClickRow.post_title := get (Api.post_title post) "";
     ClickRow.link_url := get (click_url click) "";
     ClickRow.link_description :=
       get (click_description click) (substring 0 50 (get (click_url click) ""));
     ClickRow.clicks := get (click_total_clicks click) 0;
     ClickRow.unique_clicks := get (click_total_unique_clicks click) 0 |}.

(** [process_clicks_data(post, publication_name)] *)
Definition process_clicks_data (post : RawPost) (publication_name : string)
  : list ClickRow.t :=
  let post_clicks := get (Api.post_clicks post) [] in
  map (click_row post publication_name) post_clicks.

(** The figures [print_weekly_summary] computes under [# Calculate metrics]. *)
Module Summary.
Record t : Type := {
  post_count : Z;
  avg_sent : pynum;
  total_impressions : Z;
  avg_unique_opens : pynum;
  avg_open_rate : pynum;
  total_clicks : Z;
  avg_unique_clicks : pynum;
  avg_click_rate : pynum;
  total_unsubs : Z
}.
End Summary.

(** One publication's block of [print_weekly_summary]: [None] is the
    [continue] taken when the publication has no post. *)
Definition weekly_summary_metrics (pub_posts : list Row.t) : result (option Summary.t) :=
  match pub_posts with
  | [] => mret None
  | _ :: _ =>
      let post_count := Z.of_nat (length pub_posts) in
      avg_sent ← py_truediv (PyInt (sum_int (map Row.recipients pub_posts))) (PyInt post_count);
      let total_impressions := sum_int (map Row.impressions pub_posts) in
      avg_unique_opens ←
        py_truediv (PyInt (sum_int (map Row.unique_opens pub_posts))) (PyInt post_count);
      avg_open_rate ← py_truediv (py_sum (map Row.open_rate pub_posts)) (PyInt post_count);
      let total_clicks := sum_int (map Row.clicks pub_posts) in
      avg_unique_clicks ←
        py_truediv (PyInt (sum_int (map Row.unique_clicks pub_posts))) (PyInt post_count);
      avg_click_rate ← py_truediv (py_sum (map Row.click_rate pub_posts)) (PyInt post_count);
      let total_unsubs := sum_int (map Row.unsubscribes pub_posts) in
      mret (Some
        {| Summary.post_count := post_count;
           Summary.avg_sent := avg_sent;
           Summary.total_impressions := total_impressions;
           Summary.avg_unique_opens := avg_unique_opens;
           Summary.avg_open_rate := avg_open_rate;
           Summary.total_clicks := total_clicks;
           Summary.avg_unique_clicks := avg_unique_clicks;
           Summary.avg_click_rate := avg_click_rate;
           Summary.total_unsubs := total_unsubs |})
  end.

(** The metric blocks [print_weekly_summary(posts, ...)] prints, one per
    publication of the table that has a post, in table order. *)
Definition print_weekly_summary (posts : list Row.t)
  : result (list (string * Summary.t)) :=
  for_each (fun printed pub_name =>
              let pub_posts :=
                List.filter (fun p => String.eqb (Row.publication p) pub_name) posts in
              metrics ← weekly_summary_metrics pub_posts;
              match metrics with
              | None => mret printed
              | Some metrics => mret (printed ++ [(pub_name, metrics)])
              end)
           (map fst PUBLICATIONS) [].

(** [generate_weekly_report(start_date, end_date=None)], up to the CSV
    files: the rows of the posts CSV sorted by date and the rows of the clicks
    CSV sorted by clicks, descending.  [fetch] stands for the posts that
    [fetch_posts(pub_id, start_date, end_date, expand=["stats", "clicks"])]
    returns. *)
Definition generate_weekly_report (strftime : string -> Z -> string)
    (fetch : string -> Z -> Z -> list RawPost) (start_date end_date : Z)
  : result (list Row.t * list ClickRow.t) :=
  collected ←
    for_each (fun (acc : list Row.t * list ClickRow.t) (pub : string * string) =>
                let posts := fetch pub.2 start_date end_date in
                for_each (fun (acc : list Row.t * list ClickRow.t) post =>
                            post_data ← process_post_data strftime post pub.1;
                            let clicks_data := process_clicks_data post pub.1 in
                            mret (acc.1 ++ [post_data], acc.2 ++ clicks_data))
                         posts acc)
             PUBLICATIONS ([], []);
  let all_posts := sorted_by_string Row.date collected.1 in
  let all_clicks := sorted_reverse (fun x => inject_Z (ClickRow.clicks x)) collected.2 in
  mret (all_posts, all_clicks).

(** The end of the week [generate_weekly_report] fetches: [end_date] is a day
    parsed like the start, or absent. *)
Definition weekly_end (start_date : Z) (end_day : option Z) : Z :=
  let end_date := match end_day with
                  | None => start_date + timedelta_days 6
                  | Some day => strptime_date day
                  end in
  replace_235959 end_date.

(** The dict the [calc_metrics] nested in [print_monthly_summary] returns. *)
Module MonthMetrics.
Record t : Type := {
  posts : Z;
  impressions : Z;
  avg_unique_opens : pynum;
  avg_open_rate : pynum;
  total_clicks : Z;
  avg_unique_clicks : pynum;
  avg_click_rate : pynum;
  unsubscribes : Z
}.
End MonthMetrics.

(** [total / count if count else 0] *)
Definition average_or_zero (total : pynum) (count : Z) : result pynum :=
  if negb (count =? 0) then py_truediv total (PyInt count) else mret (PyInt 0).

(** [calc_metrics(posts_list)] of [print_monthly_summary] *)
Definition monthly_calc_metrics (posts_list : list Row.t) : result MonthMetrics.t :=
  let count := Z.of_nat (length posts_list) in
  avg_unique_opens ←
    average_or_zero (PyInt (sum_int (map Row.unique_opens posts_list))) count;
  avg_open_rate ← average_or_zero (py_sum (map Row.open_rate posts_list)) count;
  avg_unique_clicks ←
    average_or_zero (PyInt (sum_int (map Row.unique_clicks posts_list))) count;
  avg_click_rate ← average_or_zero (py_sum (map Row.click_rate posts_list)) count;
  mret {| MonthMetrics.posts := count;
          MonthMetrics.impressions := sum_int (map Row.impressions posts_list);
          MonthMetrics.avg_unique_opens := avg_unique_opens;
          MonthMetrics.avg_open_rate := avg_open_rate;
          MonthMetrics.total_clicks := sum_int (map Row.clicks posts_list);
          MonthMetrics.avg_unique_clicks := avg_unique_clicks;
          MonthMetrics.avg_click_rate := avg_click_rate;
          MonthMetrics.unsubscribes := sum_int (map Row.unsubscribes posts_list) |}.

(** [fmt_change(curr_val, prev_val, is_pct=False)] of [print_monthly_summary] *)
Definition fmt_change (curr_val prev_val : pynum) (is_pct : bool) : result string :=
  if py_eq prev_val (PyInt 0) then mret "N/A"
  else
    quotient ← float_truediv (float_sub curr_val prev_val) prev_val;
    let change := float_mul quotient (PyInt 100) in
    let sign := if py_ge change (PyInt 0) then "+" else "" in
    if is_pct then
      let diff := py_sub curr_val prev_val in
      mret (sign +:+ format_plain 2 diff +:+ "pp")
    else mret (sign +:+ format_plain 1 change +:+ "%").

(** What [print_monthly_summary] prints for one publication: the figures of
    the two months and the eight entries of the Change column, top to bottom. *)
Module MonthBlock.
Record t : Type := {
  pub_name : string;
  curr : MonthMetrics.t;
  prev : MonthMetrics.t;
  change_column : list string
}.
End MonthBlock.

(** The blocks [print_monthly_summary(posts, current_month, prev_month)]
    prints, in table order; the two months come as their ["%Y-%m"] strings. *)
Definition print_monthly_summary (posts : list Row.t)
    (current_month_str prev_month_str : string) : result (list MonthBlock.t) :=
  for_each (fun printed pub_name =>
              let current_posts :=
                List.filter (fun p => String.eqb (Row.publication p) pub_name
                                      && String.eqb (Row.month p) current_month_str) posts in
              let prev_posts :=
                List.filter (fun p => String.eqb (Row.publication p) pub_name
                                      && String.eqb (Row.month p) prev_month_str) posts in
              match current_posts, prev_posts with
              | [], _ | _, [] => mret printed
              | _ :: _, _ :: _ =>
                  curr ← monthly_calc_metrics current_posts;
                  prev ← monthly_calc_metrics prev_posts;
                  posts_sent ← fmt_change (PyInt (MonthMetrics.posts curr))
                                  (PyInt (MonthMetrics.posts prev)) false;
                  impressions ← fmt_change (PyInt (MonthMetrics.impressions curr))
                                   (PyInt (MonthMetrics.impressions prev)) false;
                  avg_unique_opens ← fmt_change (MonthMetrics.avg_unique_opens curr)
                                        (MonthMetrics.avg_unique_opens prev) false;
                  avg_open_rate ← fmt_change (MonthMetrics.avg_open_rate curr)
                                     (MonthMetrics.avg_open_rate prev) true;
                  total_clicks ← fmt_change (PyInt (MonthMetrics.total_clicks curr))
                                    (PyInt (MonthMetrics.total_clicks prev)) false;
                  avg_unique_clicks ← fmt_change (MonthMetrics.avg_unique_clicks curr)
                                         (MonthMetrics.avg_unique_clicks prev) false;
                  avg_click_rate ← fmt_change (MonthMetrics.avg_click_rate curr)
                                      (MonthMetrics.avg_click_rate prev) true;
                  unsubscribes ← fmt_change (PyInt (MonthMetrics.unsubscribes curr))
                                    (PyInt (MonthMetrics.unsubscribes prev)) false;
                  mret (printed ++
                        [{| MonthBlock.pub_name := pub_name;
                            MonthBlock.curr := curr;
                            MonthBlock.prev := prev;
                            MonthBlock.change_column :=
                              [posts_sent; impressions; avg_unique_opens; avg_open_rate;
                               total_clicks; avg_unique_clicks; avg_click_rate;
                               unsubscribes] |}])
              end)
           (map fst PUBLICATIONS) [].

(** [generate_monthly_report(month, compare_month)], from the bounds of the
    two months on: the rows of the monthly CSV, sorted by publication and
    date, and the blocks of the summary printed from them.  The bounds of the
    two months and their ["%Y-%m"] strings are inputs, and [fetch] stands for
    the posts that [fetch_posts(pub_id, start, end, expand=["stats"])]
    returns. *)
Definition generate_monthly_report (strftime : string -> Z -> string)
    (fetch : string -> Z -> Z -> list RawPost)
    (current_start current_end prev_start prev_end : Z)
    (current_month_str prev_month_str : string)
  : result (list Row.t * list MonthBlock.t) :=
  all_posts ←
    for_each (fun (all_posts : list Row.t) (pub : string * string) =>
                let current_posts := fetch pub.2 current_start current_end in
                all_posts ←
                  for_each (fun (all_posts : list Row.t) post =>
                              post_data ← process_post_data strftime post pub.1;
                              mret (all_posts ++ [post_data]))
                           current_posts all_posts;
                let prev_posts := fetch pub.2 prev_start prev_end in
                for_each (fun (all_posts : list Row.t) post =>
                            post_data ← process_post_data strftime post pub.1;
                            mret (all_posts ++ [post_data]))
                         prev_posts all_posts)
             PUBLICATIONS [];
  let all_posts := sorted_by_pair (fun x => (Row.publication x, Row.date x)) all_posts in
  printed ← print_monthly_summary all_posts current_month_str prev_month_str;
  mret (all_posts, printed).

End NewsletterReport.

(* ===================================================================== *)
(** * Vocabulary of the specification                                     *)
(* ===================================================================== *)

Module Spec.

(** A straight sum of integers. *)
Definition Zsum (xs : list Z) : Z := fold_right Z.add 0%Z xs.

(** A straight sum of rationals. *)
Definition Qsum (xs : list Q) : Q := fold_right Qplus 0%Q xs.

(** The arithmetic mean of a list over its length. *)
Definition mean (xs : list Q) : Q := (Qsum xs / inject_Z (Z.of_nat (length xs)))%Q.

(** The closed interval of percentages. *)
Definition percentage (q : Q) : Prop := (0 <= q /\ q <= 100)%Q.

(** The request for page [j] of a listing. *)
Definition page_request (key url : string) (expand : option (list string)) (j : Z)
  : Request :=
  {| req_url := url;
     req_headers := [("Authorization", "Bearer " +:+ key);
                     ("Content-Type", "application/json")];
     req_params := {| status := "confirmed"; limit := 100; page := j; expand := expand |} |}.

(** The [n] page numbers from [first] on. *)
Definition page_numbers (first : Z) (n : nat) : list Z :=
  map (fun i => (first + Z.of_nat i)%Z) (seq 0 n).

(** The [expand[]] parameter the CSV variant sends for its [expand] argument. *)
Definition sent_expand (expand : option (list string)) : option (list string) :=
  match expand with
  | Some ((_ :: _) as fields) => Some fields
  | _ => None
  end.

(** What the API reports for a post, absent fields read as their defaults. *)
Definition raw_email (post : RawPost) : EmailStats :=
  get (stats_email (get (post_stats post) empty_stats)) empty_email.
Definition raw_recipients (post : RawPost) : Z := get (email_recipients (raw_email post)) 0%Z.
Definition raw_unique_opens (post : RawPost) : Z :=
  get (email_unique_opens (raw_email post)) 0%Z.
Definition raw_unique_clicks (post : RawPost) : Z :=
  get (email_unique_clicks (raw_email post)) 0%Z.
Definition raw_clicks (post : RawPost) : list RawClick := get (post_clicks post) [].

Definition raw_opens (post : RawPost) : Z := get (email_opens (raw_email post)) 0%Z.
Definition raw_email_clicks (post : RawPost) : Z := get (email_clicks (raw_email post)) 0%Z.
Definition raw_web_views (post : RawPost) : Z :=
  get (web_views (get (stats_web (get (post_stats post) empty_stats)) empty_web)) 0%Z.

(** A post whose unique opens and unique clicks do not exceed its recipients. *)
Definition counters_within_recipients (post : RawPost) : Prop :=
  (0 <= raw_unique_opens post <= raw_recipients post)%Z
  /\ (0 <= raw_unique_clicks post <= raw_recipients post)%Z.

(** The comparator's "not applicable" result. *)
Definition not_applicable : GenerateReport.ChangeResult :=
  {| GenerateReport.value := PyInt 0;
     GenerateReport.display := "N/A";
     GenerateReport.positive := true |}.

(** The magnitude of a number in tenths, to the nearest tenth, a tie going to
    the even one. *)
Definition tenths (x : pynum) : Z := round_half_even (Qabs (py_Q x) * 10).

(** The normalised posts of a fetched list, and their aggregate. *)
Definition normalised (posts : list RawPost) : list GenerateReport.Post.t :=
  match comprehension GenerateReport.process_post posts with
  | Ok processed => processed
  | Raise _ => []
  end.

Definition period_metrics (posts : list RawPost) : option GenerateReport.Metrics.t :=
  match GenerateReport.calc_metrics (normalised posts) with
  | Ok metrics => metrics
  | Raise _ => None
  end.

(** The keys of a publication's [changes]. *)
Definition change_keys : list string :=
  (GenerateReport.count_keys ++ GenerateReport.rate_keys)%list.

(** Every entry of the report without a previous aggregate has "not
    applicable" for each of its changes. *)
Definition null_previous_not_applicable (report_data : GenerateReport.Report.t) : Prop :=
  forall (pub_key : string) (entry : GenerateReport.Entry.t),
    GenerateReport.Report.publications report_data !! pub_key = Some entry ->
    GenerateReport.Entry.previous entry = None ->
    forall key, In key change_keys ->
                GenerateReport.Entry.changes entry !! key = Some not_applicable.

Section Contributions.

Variable fetch : string -> Z -> Z -> list RawPost.
Variables curr_start curr_end prev_start prev_end : Z.

(** The posts of a publication in the current and in the previous period. *)
Definition current_posts (pub : string * GenerateReport.PubInfo) : list RawPost :=
  fetch (GenerateReport.id pub.2) curr_start curr_end.
Definition previous_posts (pub : string * GenerateReport.PubInfo) : list RawPost :=
  fetch (GenerateReport.id pub.2) prev_start prev_end.

(** A publication has posts in the current period. *)
Definition has_current_posts (pub : string * GenerateReport.PubInfo) : bool :=
  match current_posts pub with
  | [] => false
  | _ :: _ => true
  end.

(** The current aggregates of the publications that have one, in table
    order, and the previous aggregates of those among them that have one. *)
Definition current_aggregates (table : list (string * GenerateReport.PubInfo))
  : list GenerateReport.Metrics.t :=
  omap (fun pub => period_metrics (current_posts pub)) table.

Definition previous_aggregates (table : list (string * GenerateReport.PubInfo))
  : list GenerateReport.Metrics.t :=
  omap (fun pub => if has_current_posts pub then period_metrics (previous_posts pub)
                   else None) table.

(** Every entry of the report belongs to a publication of the table that has
    current posts. *)
Definition entries_have_posts (table : list (string * GenerateReport.PubInfo))
    (report_data : GenerateReport.Report.t) : Prop :=
  forall pub_key : string,
    is_Some (GenerateReport.Report.publications report_data !! pub_key) ->
    exists pub_info, In (pub_key, pub_info) table
                     /\ has_current_posts (pub_key, pub_info) = true.

End Contributions.

End Spec.
Export Spec.

(* ===================================================================== *)
(** * Sample inputs                                                       *)
(* ===================================================================== *)

Module Samples.

Local Open Scope Z_scope.

(** A raw post with the given e-mail counters and link clicks. *)
Definition raw_post (title : string) (publish_date recipients opens unique_opens
    clicks unique_clicks unsubscribes views : Z) (link_clicks : list RawClick) : RawPost :=
  {| post_id := Some ("post_" +:+ title);
     post_title := Some title;
     post_publish_date := Some publish_date;
     post_stats := Some
       {| stats_email := Some
            {| email_recipients := Some recipients; email_opens := Some opens;
               email_unique_opens := Some unique_opens; email_clicks := Some clicks;
               email_unique_clicks := Some unique_clicks;
               email_unsubscribes := Some unsubscribes |};
          stats_web := Some {| web_views := Some views |} |};
     post_clicks := Some link_clicks |}.

Definition link (url : string) (total unique : Z) : RawClick :=
  {| click_url := Some url; click_description := None;
     click_total_clicks := Some total; click_total_unique_clicks := Some unique |}.

(** An issue as the platform reports it: about 47% unique opens. *)
Definition snap_back : RawPost :=
  raw_post "SNAP back" 1767700800 6732 4100 3154 71 19 2 319 [].

(** A post the API reports with more unique opens than recipients. *)
Definition over_counted : RawPost :=
  raw_post "Over-counted" 1767700800 1 2 2 0 0 0 0 [].

(** A post without recipients. *)
Definition unsent : RawPost :=
  raw_post "Unsent" 1767700800 0 0 0 0 0 0 12 [].

(** A post with six link clicks, the least clicked first. *)
Definition six_links : RawPost :=
  raw_post "Six links" 1767700800 6732 4100 3154 21 19 0 0
    [link "https://example.org/a" 1 1; link "https://example.org/b" 2 2;
     link "https://example.org/c" 3 3; link "https://example.org/d" 4 4;
     link "https://example.org/e" 5 5; link "https://example.org/f" 6 6].

(** A week of five issues whose aggregate is the first publication's block
    of the sample report: 5 posts, 6732 average recipients, 22051
    impressions, 46.47% average open rate. *)
Definition sample_week : list RawPost :=
  [raw_post "SNAP back" 1767614400 6732 4100 3154 71 19 2 319 [];
   raw_post "Empleos down planes up" 1767700800 6733 4250 3149 61 19 2 321 [];
   raw_post "El crimen baja la gripe sube" 1767787200 6731 4060 3135 21 19 2 317 [];
   raw_post "Jueves" 1767873600 6732 4030 3102 90 19 2 312 [];
   raw_post "Viernes" 1767960000 6732 4032 3101 87 19 1 310 []].

(** [n] posts published inside the first week of 2026, one per minute. *)
Definition stub_posts (first : nat) (n : nat) : list RawPost :=
  map (fun i => raw_post "issue" (1767614400 + 60 * Z.of_nat i) 6732 4100 3154 71 19 2 319 [])
      (seq first n).

(** A listing served in two pages, of 100 and of 37 posts, each response
    carrying [total_pages = 2]. *)
Definition two_page_stub (request : Request) : Response :=
  let page := page (req_params request) in
  {| status_code := 200;
     body_data := Some (if page =? 1 then stub_posts 0 100
                        else if page =? 2 then stub_posts 100 37
                        else []);
     body_total_pages := Some 2 |}.

(** Ten recipients, of whom [unique_opens] opened. *)
Definition small_post (unique_opens : Z) : RawPost :=
  raw_post "small" 150 10 unique_opens unique_opens 0 0 0 0 [].

(** A current period ([100 .. 199]) in which the first publication sent one
    post opened by 10% and the second three posts opened by 50%; nothing in
    the previous period. *)
Definition uneven_fetch (publication_id : string) (start_ts end_ts : Z) : list RawPost :=
  if start_ts =? 100 then
    if String.eqb publication_id "pub_88b8ccea-c311-4381-a49c-91848583ba9e"
    then [small_post 1]
    else [small_post 5; small_post 5; small_post 5]
  else [].

(** The first publication sent nothing in the current period and two posts
    in the previous one; the second sent one post now and none before. *)
Definition lopsided_fetch (publication_id : string) (start_ts end_ts : Z) : list RawPost :=
  if String.eqb publication_id "pub_88b8ccea-c311-4381-a49c-91848583ba9e"
  then (if start_ts =? 100 then [] else [small_post 4; small_post 6])
  else (if start_ts =? 100 then [small_post 5] else []).

(** A normalised post with the given title and open rate. *)
Definition rated_post (title : string) (open_rate : Q) : GenerateReport.Post.t :=
  {| GenerateReport.Post.title := title; GenerateReport.Post.date := 0;
     GenerateReport.Post.recipients := 100; GenerateReport.Post.opens := 0;
     GenerateReport.Post.unique_opens := 0;
     GenerateReport.Post.open_rate := float_lit open_rate;
     GenerateReport.Post.clicks := 0; GenerateReport.Post.unique_clicks := 0;
     GenerateReport.Post.click_rate := PyInt 0; GenerateReport.Post.unsubscribes := 0;
     GenerateReport.Post.web_views := 0; GenerateReport.Post.impressions := 0;
     GenerateReport.Post.top_clicks := [] |}.

(** Four posts opened by 30.0%, 46.58%, 46.85% and 46.77%, the lowest first. *)
Definition four_rated : list GenerateReport.Post.t :=
  [rated_post "d" (3000 # 100); rated_post "c" (4658 # 100);
   rated_post "a" (4685 # 100); rated_post "b" (4677 # 100)].

(** A listing whose first page is served and whose second page fails. *)
Definition failing_stub (request : Request) : Response :=
  let page := page (req_params request) in
  if page =? 1 then
    {| status_code := 200; body_data := Some (stub_posts 0 100);
       body_total_pages := Some 2 |}
  else {| status_code := 500; body_data := None; body_total_pages := None |}.

(** Two normalised posts with one and two recipients. *)
Definition tiny_post (recipients : Z) : GenerateReport.Post.t :=
  {| GenerateReport.Post.title := "tiny"; GenerateReport.Post.date := 0;
     GenerateReport.Post.recipients := recipients; GenerateReport.Post.opens := 0;
     GenerateReport.Post.unique_opens := 0; GenerateReport.Post.open_rate := PyInt 0;
     GenerateReport.Post.clicks := 0; GenerateReport.Post.unique_clicks := 0;
     GenerateReport.Post.click_rate := PyInt 0; GenerateReport.Post.unsubscribes := 0;
     GenerateReport.Post.web_views := 0; GenerateReport.Post.impressions := 0;
     GenerateReport.Post.top_clicks := [] |}.

Definition one_and_two : list GenerateReport.Post.t := [tiny_post 1; tiny_post 2].

(** A post with two link clicks. *)
Definition two_links : RawPost :=
  raw_post "Two links" 150 6732 4100 3154 12 12 0 0
    [link "https://example.org/x" 9 9; link "https://example.org/y" 3 3].

(** Every publication sent [six_links] and [two_links] in the current period
    ([100 .. 199]) and nothing before. *)
Definition linked_fetch (publication_id : string) (start_ts end_ts : Z) : list RawPost :=
  if start_ts =? 100 then [six_links; two_links] else [].

(** Nothing was published. *)
Definition empty_fetch (publication_id : string) (start_ts end_ts : Z) : list RawPost := [].

(** A webhook that answers every post with the given status. *)
Definition answering (status : Z) (url : string) (message : GenerateReport.SlackMessage.t)
  : option Z := Some status.

(** A webhook that cannot be reached. *)
Definition unreachable (url : string) (message : GenerateReport.SlackMessage.t)
  : option Z := None.

(** The month of a timestamp, for months of 100 seconds starting at multiples
    of 100: ["2026-01"] from 100 on, ["2025-12"] before. *)
Definition two_months (format : string) (ts : Z) : string :=
  if String.eqb format "%Y-%m" then (if 100 <=? ts then "2026-01" else "2025-12")
  else (if 100 <=? ts then "2026-01-02" else "2025-12-02").

(** The first publication sent a post in each of the two months, the second
    only in the current one. *)
Definition two_month_fetch (publication_id : string) (start_ts end_ts : Z) : list RawPost :=
  if start_ts =? 100 then [small_post 5]
  else if String.eqb publication_id "pub_88b8ccea-c311-4381-a49c-91848583ba9e"
       then [raw_post "earlier" 50 10 4 4 0 0 0 0 []]
       else [].

End Samples.

(* ===================================================================== *)
(** * Facts about Python numbers                                          *)
(* ===================================================================== *)

Module PyFacts.

Local Open Scope Q_scope.

Lemma Qlt_bool_iff (x y : Q) : Qlt_bool x y = true <-> x < y.
Proof.
  unfold Qlt_bool. rewrite negb_true_iff.
  split.
  - intros H. apply Qnot_le_lt. intros Hle. apply Qle_bool_iff in Hle. congruence.
  - intros H. destruct (Qle_bool y x) eqn:E; [|reflexivity].
    apply Qle_bool_iff in E. exfalso. exact (Qlt_not_le _ _ H E).
Qed.

Lemma Qeq_bool_false (x y : Q) : Qeq_bool x y = false <-> ~ x == y.
Proof.
  split.
  - intros H Heq. apply Qeq_bool_iff in Heq. congruence.
  - intros H. destruct (Qeq_bool x y) eqn:E; [|reflexivity].
    apply Qeq_bool_iff in E. contradiction.
Qed.

(** The sign bit agrees with the value. *)
Lemma float_sign_nonpos (f : pyfloat) : fneg f = true -> float_Q f <= 0.
Proof.
  unfold float_Q, magnitude. intros ->.
  pose proof (Qabs_nonneg (fmag f)) as H.
  apply Qopp_le_compat in H. exact H.
Qed.

Lemma float_sign_nonneg (f : pyfloat) : fneg f = false -> 0 <= float_Q f.
Proof. unfold float_Q, magnitude. intros ->. apply Qabs_nonneg. Qed.

Lemma py_sign_nonpos (x : pynum) : py_sign x = true -> py_Q x <= 0.
Proof.
  destruct x as [z|f]; simpl.
  - intros H. apply Z.ltb_lt in H. unfold Qle; simpl. lia.
  - apply float_sign_nonpos.
Qed.

Lemma py_sign_nonneg (x : pynum) : py_sign x = false -> 0 <= py_Q x.
Proof.
  destruct x as [z|f]; simpl.
  - intros H. apply Z.ltb_ge in H. unfold Qle; simpl. lia.
  - apply float_sign_nonneg.
Qed.

(** [exact] denotes the rational it was given. *)
Lemma exact_Q (s : bool) (q : Q) : float_Q (exact s q) == q.
Proof.
  assert (Hm : Qabs (Qred (Qabs q)) == Qabs q).
  { rewrite Qred_correct. apply Qabs_pos, Qabs_nonneg. }
  unfold float_Q, exact, magnitude; simpl.
  destruct (Qeq_bool q 0) eqn:E0.
  - apply Qeq_bool_iff in E0.
    destruct s; rewrite Hm, E0; reflexivity.
  - destruct (Qlt_bool q 0) eqn:El; rewrite Hm.
    + apply Qlt_bool_iff in El. rewrite Qabs_neg by (apply Qlt_le_weak; exact El).
      apply Qopp_involutive.
    + apply Qabs_pos. apply Qnot_lt_le. intros H. apply Qlt_bool_iff in H. congruence.
Qed.

Lemma exact_sign (s : bool) (q : Q) :
  fneg (exact s q) = true <-> q < 0 \/ (q == 0 /\ s = true).
Proof.
  unfold exact; simpl. destruct (Qeq_bool q 0) eqn:E0.
  - apply Qeq_bool_iff in E0. split.
    + intros ->. right. split; [exact E0 | reflexivity].
    + intros [H | [_ H]]; [|exact H]. rewrite E0 in H. discriminate.
  - rewrite Qlt_bool_iff. apply Qeq_bool_false in E0. split.
    + intros H. left. exact H.
    + intros [H | [H _]]; [exact H | contradiction].
Qed.

Lemma py_Q_add (x y : pynum) : py_Q (py_add x y) == py_Q x + py_Q y.
Proof.
  destruct x, y; simpl; try apply exact_Q. rewrite inject_Z_plus. reflexivity.
Qed.

Lemma py_Q_sub (x y : pynum) : py_Q (py_sub x y) == py_Q x - py_Q y.
Proof.
  destruct x, y; simpl; try apply exact_Q.
  unfold Z.sub. rewrite inject_Z_plus, inject_Z_opp. reflexivity.
Qed.

Lemma py_Q_mul (x y : pynum) : py_Q (py_mul x y) == py_Q x * py_Q y.
Proof.
  destruct x, y; simpl; try apply exact_Q. rewrite inject_Z_mult. reflexivity.
Qed.

(** Division by a non-zero number returns the exact quotient as a float. *)
Lemma py_truediv_nonzero (x y : pynum) :
  ~ py_Q y == 0 ->
  py_truediv x y = Ok (PyFloat (exact (xorb (py_sign x) (py_sign y)) (py_Q x / py_Q y))).
Proof.
  intros H. unfold py_truediv. apply Qeq_bool_false in H. rewrite H. reflexivity.
Qed.

Lemma py_truediv_zero (x y : pynum) :
  py_Q y == 0 -> py_truediv x y = Raise ZeroDivisionError.
Proof.
  intros H. unfold py_truediv. apply Qeq_bool_iff in H. rewrite H. reflexivity.
Qed.

(** ** Sums *)

Lemma sum_int_from (xs : list Z) (acc : Z) : fold_left Z.add xs acc = (acc + Zsum xs)%Z.
Proof.
  revert acc. induction xs as [|x xs IH]; intros acc; simpl.
  - lia.
  - rewrite IH. lia.
Qed.

Lemma sum_int_Zsum (xs : list Z) : sum_int xs = Zsum xs.
Proof. unfold sum_int. rewrite sum_int_from. lia. Qed.

Lemma py_sum_from (xs : list pynum) (acc : pynum) :
  py_Q (fold_left py_add xs acc) == py_Q acc + Qsum (map py_Q xs).
Proof.
  revert acc. induction xs as [|x xs IH]; intros acc; simpl.
  - lra.
  - rewrite IH, py_Q_add. lra.
Qed.

Lemma py_Q_sum (xs : list pynum) : py_Q (py_sum xs) == Qsum (map py_Q xs).
Proof. unfold py_sum. rewrite py_sum_from. apply Qplus_0_l. Qed.

Lemma Qsum_inject_Z (xs : list Z) : Qsum (map inject_Z xs) == inject_Z (Zsum xs).
Proof.
  induction xs as [|x xs IH]; simpl.
  - reflexivity.
  - rewrite IH, inject_Z_plus. reflexivity.
Qed.

(** A list length used as a divisor is not zero when the list is not empty. *)
Lemma count_nonzero {A : Type} (x : A) (xs : list A) :
  ~ py_Q (PyInt (Z.of_nat (length (x :: xs)))) == 0.
Proof.
  simpl py_Q. unfold Qeq; simpl. lia.
Qed.

(** ** Truncation and rounding *)

Lemma Qfloor_quotient (a : Z) (b : positive) :
  Qfloor (inject_Z a / inject_Z (Zpos b)) = (a / Zpos b)%Z.
Proof.
  unfold Qdiv, Qinv, Qmult, inject_Z; simpl.
  rewrite Z.mul_1_r. reflexivity.
Qed.

(** [int(a / b)] on ints, [b > 0], is the integer quotient rounded toward zero. *)
Lemma py_int_quotient (s : bool) (a b : Z) :
  (0 < b)%Z -> py_int (PyFloat (exact s (inject_Z a / inject_Z b))) = (a ÷ b)%Z.
Proof.
  intros Hb. destruct b as [|b|b]; try lia.
  set (q := inject_Z a / inject_Z (Z.pos b)).
  assert (Hm : magnitude (exact s q) == Qabs q).
  { unfold magnitude, exact. cbn [fmag]. rewrite Qred_correct.
    apply Qabs_pos, Qabs_nonneg. }
  assert (Habs : Qabs q == inject_Z (Z.abs a) / inject_Z (Z.pos b)).
  { unfold q, Qdiv. rewrite Qabs_Qmult. unfold Qabs at 1, inject_Z at 1; simpl.
    rewrite (Qabs_pos (/ inject_Z (Z.pos b))); [reflexivity|].
    unfold Qinv, Qle; simpl. lia. }
  assert (Hfl : Qfloor (magnitude (exact s q)) = (Z.abs a / Z.pos b)%Z).
  { rewrite (Qfloor_comp _ _ Hm), (Qfloor_comp _ _ Habs). apply Qfloor_quotient. }
  cbn [py_int]. rewrite Hfl.
  destruct (fneg (exact s q)) eqn:Es.
  - apply exact_sign in Es. destruct Es as [Hneg | [Hz _]].
    + assert (a < 0)%Z.
      { unfold q, Qdiv, Qinv, Qmult, Qlt, inject_Z in Hneg; simpl in Hneg. lia. }
      rewrite Z.abs_neq by lia.
      rewrite <- Z.quot_div_nonneg by lia.
      rewrite Z.quot_opp_l by lia. lia.
    + assert (a = 0)%Z.
      { unfold q, Qdiv, Qinv, Qmult, Qeq, inject_Z in Hz; simpl in Hz. lia. }
      subst a. reflexivity.
  - assert (0 <= a)%Z.
    { destruct (Z.lt_ge_cases a 0) as [Hlt|Hge]; [|exact Hge].
      exfalso. assert (Hq : q < 0).
      { unfold q, Qdiv, Qinv, Qmult, Qlt, inject_Z; simpl. lia. }
      assert (Ht : fneg (exact s q) = true) by (apply exact_sign; left; exact Hq).
      congruence. }
    rewrite Z.abs_eq by lia. symmetry. apply Z.quot_div_nonneg; lia.
Qed.

(** Rounding moves a number by at most one half. *)
Lemma round_half_even_near (q : Q) :
  inject_Z (round_half_even q) - (1 # 2) <= q <= inject_Z (round_half_even q) + (1 # 2).
Proof.
  unfold round_half_even.
  pose proof (Qfloor_le q) as Hlo. pose proof (Qlt_floor q) as Hhi.
  rewrite inject_Z_plus in Hhi. change (inject_Z 1) with 1 in Hhi.
  set (f := Qfloor q) in *.
  destruct (Qcompare_spec (q - inject_Z f) (1 # 2)) as [He|Hl|Hg].
  - destruct (Z.even f); [|rewrite inject_Z_plus; change (inject_Z 1) with 1]; lra.
  - lra.
  - rewrite inject_Z_plus. change (inject_Z 1) with 1. lra.
Qed.

(** Rounding is monotone, and fixes the integers. *)
Lemma round_half_even_inject_Z (z : Z) : round_half_even (inject_Z z) = z.
Proof.
  unfold round_half_even. rewrite Qfloor_Z.
  destruct (Qcompare_spec (inject_Z z - inject_Z z) (1 # 2)) as [He|Hl|Hg];
    [exfalso; lra | reflexivity | exfalso; lra].
Qed.

Lemma round_half_even_mono (p q : Q) :
  p <= q -> (round_half_even p <= round_half_even q)%Z.
Proof.
  intros Hpq.
  pose proof (Qfloor_resp_le _ _ Hpq) as Hfl.
  pose proof (Qfloor_le p) as Hp1. pose proof (Qlt_floor p) as Hp2.
  pose proof (Qfloor_le q) as Hq1. pose proof (Qlt_floor q) as Hq2.
  rewrite inject_Z_plus in Hp2, Hq2. change (inject_Z 1) with 1 in Hp2, Hq2.
  unfold round_half_even.
  set (f := Qfloor p) in *. set (g := Qfloor q) in *.
  destruct (Z.eq_dec f g) as [Heq|Hne].
  - rewrite <- Heq in *.
    destruct (Qcompare_spec (p - inject_Z f) (1 # 2)) as [He|Hl|Hg];
      destruct (Qcompare_spec (q - inject_Z f) (1 # 2)) as [He'|Hl'|Hg'];
      try destruct (Z.even f); try lia; exfalso; lra.
  - assert (f + 1 <= g)%Z by lia.
    destruct (Qcompare_spec (p - inject_Z f) (1 # 2)) as [He|Hl|Hg];
      destruct (Qcompare_spec (q - inject_Z g) (1 # 2)) as [He'|Hl'|Hg'];
      try destruct (Z.even f); try destruct (Z.even g); lia.
Qed.

Lemma round_half_even_comp (p q : Q) : p == q -> round_half_even p = round_half_even q.
Proof.
  intros H. apply Z.le_antisymm; apply round_half_even_mono; rewrite H; apply Qle_refl.
Qed.

(** ** Doubles *)

Lemma Qpower_2_pos (e : Z) : 0 < 2 ^ e.
Proof. apply Qpower_0_lt. reflexivity. Qed.

(** [binade q] is not above the binary logarithm of [q]. *)
Lemma binade_le (q : Q) : 0 < q -> 2 ^ binade q <= q.
Proof.
  intros Hq. unfold binade.
  set (k := (Z.log2 (Qnum q) - Z.log2 (Z.pos (Qden q)))%Z).
  destruct (Qle_bool (2 ^ k) q) eqn:E.
  - apply Qle_bool_iff. exact E.
  - clear E. destruct q as [n d]. unfold k; clear k. cbn [Qnum Qden].
    assert (Hn : (0 < n)%Z).
    { unfold Qlt in Hq; simpl in Hq. lia. }
    pose proof (Z.log2_spec n Hn) as [Hn1 _].
    pose proof (Z.log2_spec (Z.pos d) eq_refl) as [_ Hd2].
    pose proof (Z.log2_nonneg n) as Ha. pose proof (Z.log2_nonneg (Z.pos d)) as Hb.
    set (a := Z.log2 n) in *. set (b := Z.log2 (Z.pos d)) in *.
    replace (a - b - 1)%Z with (a - Z.succ b)%Z by lia.
    rewrite Qpower_minus by discriminate.
    change 2 with (inject_Z 2).
    rewrite <- !Zpower_Qpower by lia.
    assert (HB : (0 < 2 ^ Z.succ b)%Z) by (apply Z.pow_pos_nonneg; lia).
    apply Qle_shift_div_r.
    + rewrite <- (Zlt_Qlt 0). exact HB.
    + unfold Qle; simpl.
      assert (0 <= 2 ^ a)%Z by (apply Z.pow_nonneg; lia).
      nia.
Qed.

(** [binade q] is the integer part of the binary logarithm of [q]. *)
Lemma binade_lt (q : Q) : 0 < q -> q < 2 ^ (binade q + 1).
Proof.
  intros Hq. unfold binade.
  set (k := (Z.log2 (Qnum q) - Z.log2 (Z.pos (Qden q)))%Z).
  destruct (Qle_bool (2 ^ k) q) eqn:E.
  - clear E. destruct q as [n d]. unfold k; clear k. cbn [Qnum Qden].
    assert (Hn : (0 < n)%Z).
    { unfold Qlt in Hq; simpl in Hq. lia. }
    pose proof (Z.log2_spec n Hn) as [_ Hn2].
    pose proof (Z.log2_spec (Z.pos d) eq_refl) as [Hd1 _].
    pose proof (Z.log2_nonneg n) as Ha. pose proof (Z.log2_nonneg (Z.pos d)) as Hb.
    set (a := Z.log2 n) in *. set (b := Z.log2 (Z.pos d)) in *.
    replace (a - b + 1)%Z with (Z.succ a - b)%Z by lia.
    rewrite Qpower_minus by discriminate.
    change 2 with (inject_Z 2).
    rewrite <- !Zpower_Qpower by lia.
    assert (HB : (0 < 2 ^ b)%Z) by (apply Z.pow_pos_nonneg; lia).
    apply Qlt_shift_div_l.
    + rewrite <- (Zlt_Qlt 0). exact HB.
    + unfold Qlt; simpl. nia.
  - replace (k - 1 + 1)%Z with k by lia.
    apply Qnot_le_lt. intros H. apply Qle_bool_iff in H. congruence.
Qed.

(** A double has 53 significant bits: the significand of a positive number
    lies between [2 ^ 52] and [2 ^ 53]. *)
Lemma significand_bounded (q : Q) :
  0 < q -> (round_half_even (q / 2 ^ (binade q - 52)) <= 2 ^ 53)%Z.
Proof.
  intros Hq.
  rewrite <- (round_half_even_inject_Z (2 ^ 53)).
  apply round_half_even_mono.
  apply Qle_shift_div_r; [apply Qpower_2_pos|].
  apply Qle_trans with (2 ^ (binade q + 1)); [apply Qlt_le_weak, binade_lt; exact Hq|].
  rewrite (Zpower_Qpower 2 53) by lia. change (inject_Z 2) with 2.
  rewrite <- Qpower_plus by discriminate.
  replace (53 + (binade q - 52))%Z with (binade q + 1)%Z by lia. apply Qle_refl.
Qed.

Lemma nearest_double_nonpos (q : Q) : q <= 0 -> nearest_double q = 0.
Proof.
  intros H. unfold nearest_double. apply Qle_bool_iff in H. rewrite H. reflexivity.
Qed.

(** The significand of a positive number is at least [2 ^ 52]. *)
Lemma significand_normal (q : Q) :
  0 < q -> (2 ^ 52 <= round_half_even (q / 2 ^ (binade q - 52)))%Z.
Proof.
  intros Hq.
  rewrite <- (round_half_even_inject_Z (2 ^ 52)).
  apply round_half_even_mono.
  apply Qle_shift_div_l; [apply Qpower_2_pos|].
  apply Qle_trans with (2 ^ binade q); [|apply binade_le; exact Hq].
  rewrite (Zpower_Qpower 2 52) by lia. change (inject_Z 2) with 2.
  rewrite <- Qpower_plus by discriminate.
  replace (52 + (binade q - 52))%Z with (binade q) by lia. apply Qle_refl.
Qed.

Lemma nearest_double_positive (q : Q) : 0 < q -> 0 < nearest_double q.
Proof.
  intros Hq. unfold nearest_double.
  destruct (Qle_bool q 0) eqn:E.
  - apply Qle_bool_iff in E. exfalso. lra.
  - cbv zeta. rewrite Qred_correct.
    apply Qmult_lt_0_compat; [|apply Qpower_2_pos].
    rewrite <- (Zlt_Qlt 0). pose proof (significand_normal q Hq). lia.
Qed.

Lemma nearest_double_nonneg (q : Q) : 0 <= nearest_double q.
Proof.
  destruct (Qlt_le_dec 0 q) as [H|H].
  - apply Qlt_le_weak, nearest_double_positive, H.
  - rewrite (nearest_double_nonpos q H). apply Qle_refl.
Qed.

(** Rounding to a double moves a positive number by at most [2 ^ -53] of
    itself. *)
Lemma nearest_double_error (q : Q) :
  0 < q -> Qabs (nearest_double q - q) <= q * (1 # 2 ^ 53).
Proof.
  intros Hq. unfold nearest_double.
  destruct (Qle_bool q 0) eqn:E.
  { apply Qle_bool_iff in E. exfalso. lra. }
  cbv zeta. rewrite Qred_correct.
  pose proof (binade_le q Hq) as Hb.
  set (e := (binade q - 52)%Z) in *.
  pose proof (Qpower_2_pos e) as He.
  pose proof (round_half_even_near (q / 2 ^ e)) as [Hlo Hhi].
  set (r := inject_Z (round_half_even (q / 2 ^ e))) in *.
  assert (Hq' : q == q / 2 ^ e * 2 ^ e).
  { field. intros H0. rewrite H0 in He. lra. }
  assert (Hpow : 2 ^ binade q == 2 ^ e * inject_Z (2 ^ 52)).
  { rewrite (Zpower_Qpower 2 52) by lia. change (inject_Z 2) with 2.
    rewrite <- Qpower_plus by discriminate.
    replace (e + 52)%Z with (binade q) by (unfold e; lia). reflexivity. }
  rewrite Hpow in Hb.
  set (s := q / 2 ^ e) in *. set (w := 2 ^ e) in *.
  assert (Hs1 : (r - s) * w <= (1 # 2) * w).
  { apply Qmult_le_compat_r; lra. }
  assert (Hs2 : (- (1 # 2)) * w <= (r - s) * w).
  { apply Qmult_le_compat_r; lra. }
  apply Qabs_Qle_condition.
  change (inject_Z (2 ^ 52)) with (4503599627370496 # 1) in Hb.
  change (1 # 2 ^ 53) with (1 # 9007199254740992).
  assert (Heq : r * w - q == (r - s) * w) by (rewrite Hq'; ring).
  rewrite Heq. split; lra.
Qed.

(** Rounding keeps the sign bit, the sign and the zeros of a number. *)
Lemma binary64_sign (x : pynum) : py_sign (binary64 x) = py_sign x.
Proof. destruct x; reflexivity. Qed.

Lemma binary64_nonneg (x : pynum) : 0 <= py_Q (binary64 x) <-> 0 <= py_Q x.
Proof.
  destruct x as [z|f]; [reflexivity|].
  cbn [binary64 py_Q]. unfold float_Q, magnitude. cbn [fneg fmag].
  pose proof (Qabs_nonneg (fmag f)) as Hm.
  pose proof (nearest_double_nonneg (Qabs (fmag f))) as Hn.
  destruct (fneg f); rewrite (Qabs_pos _ Hn).
  - split; intros H.
    + destruct (Qlt_le_dec 0 (Qabs (fmag f))) as [Hpos|Hle]; [|lra].
      pose proof (nearest_double_positive _ Hpos). lra.
    + rewrite nearest_double_nonpos by lra. lra.
  - tauto.
Qed.

Lemma binary64_nonpos (x : pynum) : py_Q (binary64 x) <= 0 <-> py_Q x <= 0.
Proof.
  destruct x as [z|f]; [reflexivity|].
  cbn [binary64 py_Q]. unfold float_Q, magnitude. cbn [fneg fmag].
  pose proof (Qabs_nonneg (fmag f)) as Hm.
  pose proof (nearest_double_nonneg (Qabs (fmag f))) as Hn.
  destruct (fneg f); rewrite (Qabs_pos _ Hn).
  - split; intros H; lra.
  - split; intros H.
    + destruct (Qlt_le_dec 0 (Qabs (fmag f))) as [Hpos|Hle]; [|lra].
      pose proof (nearest_double_positive _ Hpos). lra.
    + rewrite nearest_double_nonpos by lra. lra.
Qed.

Lemma binary64_negative (x : pynum) : py_Q (binary64 x) < 0 <-> py_Q x < 0.
Proof.
  pose proof (binary64_nonneg x) as H.
  split; intros Hlt; apply Qnot_le_lt; intros Hle; apply H in Hle; lra.
Qed.

Lemma binary64_positive (x : pynum) : 0 < py_Q (binary64 x) <-> 0 < py_Q x.
Proof.
  pose proof (binary64_nonpos x) as H.
  split; intros Hlt; apply Qnot_le_lt; intros Hle; apply H in Hle; lra.
Qed.

Lemma binary64_zero (x : pynum) : py_Q (binary64 x) == 0 <-> py_Q x == 0.
Proof.
  pose proof (binary64_nonneg x) as H1. pose proof (binary64_nonpos x) as H2.
  split; intros H; apply Qle_antisym; try (apply H1; lra); try (apply H2; lra);
    try (apply <- H1; lra); try (apply <- H2; lra).
Qed.

Lemma binary64_rounded (x : pynum) : rounded (py_Q x) (py_Q (binary64 x)).
Proof.
  unfold rounded.
  destruct x as [z|f].
  - cbn [binary64].
    assert (Hz : py_Q (PyInt z) - py_Q (PyInt z) == 0) by ring.
    rewrite Hz. apply Qmult_le_0_compat; [apply Qabs_nonneg | discriminate].
  - cbn [binary64 py_Q]. unfold float_Q, magnitude. cbn [fneg fmag].
    pose proof (Qabs_nonneg (fmag f)) as Hm.
    pose proof (nearest_double_nonneg (Qabs (fmag f))) as Hn.
    set (m := Qabs (fmag f)) in *.
    assert (Hb : Qabs (nearest_double m - m) <= m * (1 # 2 ^ 53)).
    { destruct (Qlt_le_dec 0 m) as [Hpos|Hle].
      - apply nearest_double_error, Hpos.
      - rewrite nearest_double_nonpos by exact Hle.
        assert (Hz : m == 0) by lra. rewrite Hz. discriminate. }
    destruct (fneg f); rewrite (Qabs_pos _ Hn).
    + rewrite Qabs_opp, (Qabs_pos _ Hm).
      assert (Ho : - nearest_double m - - m == - (nearest_double m - m)) by ring.
      rewrite Ho, Qabs_opp. exact Hb.
    + rewrite (Qabs_pos _ Hm). exact Hb.
Qed.

Lemma rounded_bounds (x y : Q) :
  rounded x y ->
  (0 <= x -> x * (1 - (1 # 2 ^ 53)) <= y <= x * (1 + (1 # 2 ^ 53)))
  /\ (x <= 0 -> x * (1 + (1 # 2 ^ 53)) <= y <= x * (1 - (1 # 2 ^ 53))).
Proof.
  unfold rounded. change (1 # 2 ^ 53) with (1 # 9007199254740992).
  intros H. split; intros Hx.
  - rewrite (Qabs_pos _ Hx) in H. apply Qabs_Qle_condition in H. lra.
  - rewrite (Qabs_neg _ Hx) in H. apply Qabs_Qle_condition in H. lra.
Qed.

Lemma rounded_div (x y z : Q) : ~ z == 0 -> rounded x y -> rounded (x / z) (y / z).
Proof.
  unfold rounded. intros Hz H.
  assert (Hd : y / z - x / z == (y - x) / z) by (field; exact Hz).
  assert (Hpos : 0 < Qabs z).
  { destruct (Qlt_le_dec 0 z) as [Hp|Hn].
    - rewrite Qabs_pos by lra. exact Hp.
    - rewrite Qabs_neg by exact Hn. apply Qle_lteq in Hn.
      destruct Hn as [Hn|Hn]; [lra | contradiction]. }
  rewrite Hd. unfold Qdiv. rewrite !Qabs_Qmult, Qabs_Qinv.
  assert (He : Qabs x * / Qabs z * (1 # 2 ^ 53) == Qabs x * (1 # 2 ^ 53) * / Qabs z) by ring.
  rewrite He. apply Qmult_le_compat_r; [exact H|].
  apply Qlt_le_weak, Qinv_lt_0_compat, Hpos.
Qed.

(** Three roundings in a row stay within [2 ^ -51] of the exact value. *)
Lemma rounded_three_times (x0 x1 x2 x3 : Q) :
  rounded x0 x1 -> rounded x1 x2 -> rounded (x2 * 100) x3 ->
  Qabs (x3 - x0 * 100) <= Qabs (x0 * 100) * (1 # 2 ^ 51).
Proof.
  intros H1 H2 H3.
  apply rounded_bounds in H1, H2, H3.
  destruct H1 as [P1 N1], H2 as [P2 N2], H3 as [P3 N3].
  change (1 # 2 ^ 53) with (1 # 9007199254740992) in *.
  change (1 # 2 ^ 51) with (1 # 2251799813685248).
  apply Qabs_Qle_condition.
  destruct (Qlt_le_dec x0 0) as [Hneg|Hpos].
  - assert (Hx0 : x0 <= 0) by lra.
    rewrite Qabs_neg by lra.
    specialize (N1 Hx0). assert (Hx1 : x1 <= 0) by lra.
    specialize (N2 Hx1). assert (Hx2 : x2 * 100 <= 0) by lra.
    specialize (N3 Hx2). lra.
  - rewrite Qabs_pos by lra.
    specialize (P1 Hpos). assert (Hx1 : 0 <= x1) by lra.
    specialize (P2 Hx1). assert (Hx2 : 0 <= x2 * 100) by lra.
    specialize (P3 Hx2). lra.
Qed.

#[global] Instance rounded_wd : Proper (Qeq ==> Qeq ==> iff) rounded.
Proof.
  intros x x' Hx y y' Hy. unfold rounded. rewrite Hx, Hy. reflexivity.
Qed.

(** The sign of a quotient. *)
Lemma Qdiv_sign_pos (a y : Q) :
  0 < y -> (0 <= a / y <-> 0 <= a) /\ (a / y <= 0 <-> a <= 0).
Proof.
  intros Hy.
  assert (Ha : a == a / y * y) by (field; lra).
  set (t := a / y) in *.
  repeat split; intros H; nra.
Qed.

Lemma Qdiv_sign_neg (a y : Q) :
  y < 0 -> (0 <= a / y <-> a <= 0) /\ (a / y <= 0 <-> 0 <= a).
Proof.
  intros Hy.
  assert (Ha : a == a / y * y) by (field; lra).
  set (t := a / y) in *.
  repeat split; intros H; nra.
Qed.

(** Two numerators of the same sign give quotients of the same sign. *)
Lemma Qdiv_same_sign (a b y : Q) :
  ~ y == 0 -> (0 <= a <-> 0 <= b) -> (a <= 0 <-> b <= 0) ->
  (0 <= a / y <-> 0 <= b / y) /\ (a / y <= 0 <-> b / y <= 0).
Proof.
  intros Hy Hpos Hneg.
  destruct (Qlt_le_dec 0 y) as [Hp|Hn].
  - destruct (Qdiv_sign_pos a y Hp) as [A1 A2], (Qdiv_sign_pos b y Hp) as [B1 B2].
    tauto.
  - assert (Hlt : y < 0).
    { apply Qle_lteq in Hn. destruct Hn as [Hn|Hn]; [exact Hn | contradiction]. }
    destruct (Qdiv_sign_neg a y Hlt) as [A1 A2], (Qdiv_sign_neg b y Hlt) as [B1 B2].
    tauto.
Qed.

End PyFacts.

(* ===================================================================== *)
(** * Comparator                                                          *)
(* ===================================================================== *)

Module Comparator.
Import GenerateReport PyFacts.

Local Open Scope Q_scope.

(** The first branch of [calc_change]. *)
Lemma calc_change_not_applicable (current previous : pynum) (is_percentage : bool) :
  py_Q previous == 0 ->
  calc_change current previous is_percentage = Ok not_applicable.
Proof.
  intros Hzero. unfold calc_change, py_eq.
  assert (E : Qeq_bool (py_Q previous) (py_Q (PyInt 0)) = true).
  { apply Qeq_bool_iff. exact Hzero. }
  rewrite E. reflexivity.
Qed.

(** C1.  Whenever [previous == 0] (the int [0], [0.0] or [-0.0]),
    [calc_change] returns [{value: 0, display: "N/A", positive: True}],
    whatever the current value and whatever [is_percentage]. *)
Theorem calc_change_zero_previous (current previous : pynum) (is_percentage : bool) :
  py_Q previous == 0 ->
  calc_change current previous is_percentage = Ok not_applicable.
Proof.
  intros Hzero.
  destruct (Qeq_dec (py_Q previous) 0) as [Hz | Hnz]; [|contradiction].
  exact (calc_change_not_applicable current previous is_percentage Hz).
Qed.

Lemma calc_change_zero_previous_witness :
  calc_change (float_lit (4647 # 100)) (PyInt 0) true = Ok not_applicable
  /\ calc_change (PyInt 330) (PyFloat (MkFloat true 0)) false = Ok not_applicable.
Proof.
  split.
  - apply (calc_change_zero_previous (float_lit (4647 # 100)) (PyInt 0) true).
    reflexivity.
  - apply (calc_change_zero_previous (PyInt 330) (PyFloat (MkFloat true 0)) false).
    reflexivity.
Defined.

(** A difference that is zero is [+0.0] (or the int [0]) when the operands
    are not zero themselves. *)
Lemma py_sub_zero_sign (x y : pynum) :
  ~ py_Q y == 0 -> py_Q x == py_Q y -> py_sign (py_sub x y) = false.
Proof.
  intros Hy Hxy.
  assert (Hs : py_sign x && negb (py_sign y) = false).
  { destruct (py_sign x) eqn:Ex, (py_sign y) eqn:Ey; try reflexivity.
    exfalso. apply Hy.
    pose proof (py_sign_nonpos _ Ex). pose proof (py_sign_nonneg _ Ey).
    apply Qle_antisym; [rewrite <- Hxy|]; assumption. }
  assert (Hf : fneg (exact (py_sign x && negb (py_sign y)) (py_Q x - py_Q y)) = false).
  { destruct (fneg _) eqn:E; [|reflexivity].
    apply exact_sign in E. destruct E as [E | [_ E]]; [exfalso; lra | congruence]. }
  destruct x as [a|f], y as [b|g]; try exact Hf.
  simpl in *. apply Z.ltb_ge. unfold Qeq in Hxy; simpl in Hxy. lia.
Qed.

(** The sign bit of a number that is not zero is the sign of its value. *)
Lemma py_sign_negative (x : pynum) : ~ py_Q x == 0 -> (py_sign x = true <-> py_Q x < 0).
Proof.
  intros Hx. split.
  - intros H. apply py_sign_nonpos in H. apply Qle_lteq in H. tauto.
  - intros H. destruct (py_sign x) eqn:E; [reflexivity|].
    apply py_sign_nonneg in E. lra.
Qed.

(** The relative change in percent as both reports evaluate it,
    [((x - y) / y) * 100] with every float result rounded to a double: it
    stays within [2 ^ -51] of the exact value, relative to it, and has its
    sign and its zeros. *)
Lemma relative_change_returns (x y : pynum) :
  ~ py_Q y == 0 ->
  exists quotient : pynum,
    float_truediv (float_sub x y) y = Ok quotient
    /\ Qabs (py_Q (float_mul quotient (PyInt 100)) - (py_Q x - py_Q y) / py_Q y * 100)
       <= Qabs ((py_Q x - py_Q y) / py_Q y * 100) * (1 # 2 ^ 51)
    /\ (0 <= py_Q (float_mul quotient (PyInt 100)) <-> 0 <= (py_Q x - py_Q y) / py_Q y)
    /\ (py_Q (float_mul quotient (PyInt 100)) <= 0 <-> (py_Q x - py_Q y) / py_Q y <= 0)
    /\ (py_sign (float_mul quotient (PyInt 100)) = true <->
        (py_Q x - py_Q y) / py_Q y < 0 \/ (py_Q x == py_Q y /\ py_Q y < 0)).
Proof.
  intros Hy. unfold float_truediv.
  rewrite (py_truediv_nonzero _ _ Hy). cbn [mbind result_bind mret result_ret].
  eexists. split; [reflexivity|].
  set (d := float_sub x y).
  set (s := xorb (py_sign d) (py_sign y)).
  set (qx := PyFloat (exact s (py_Q d / py_Q y))).
  set (q := binary64 qx).
  set (v := float_mul q (PyInt 100)).
  pose proof (py_Q_sub x y) as Hsub.
  set (X := py_Q x) in *. set (Y := py_Q y) in *.
  assert (Hd : rounded (X - Y) (py_Q d)).
  { unfold d, float_sub. rewrite <- Hsub. apply binary64_rounded. }
  assert (Hdpos : 0 <= py_Q d <-> 0 <= X - Y).
  { unfold d, float_sub. rewrite binary64_nonneg, Hsub. reflexivity. }
  assert (Hdneg : py_Q d <= 0 <-> X - Y <= 0).
  { unfold d, float_sub. rewrite binary64_nonpos, Hsub. reflexivity. }
  assert (Hqx : py_Q qx == py_Q d / Y) by apply exact_Q.
  assert (Hq : rounded (py_Q d / Y) (py_Q q)).
  { rewrite <- Hqx. apply binary64_rounded. }
  assert (Hqpos : 0 <= py_Q q <-> 0 <= py_Q d / Y).
  { unfold q. rewrite binary64_nonneg, Hqx. reflexivity. }
  assert (Hqneg : py_Q q <= 0 <-> py_Q d / Y <= 0).
  { unfold q. rewrite binary64_nonpos, Hqx. reflexivity. }
  assert (Hv : rounded (py_Q q * 100) (py_Q v)).
  { unfold v, float_mul. change 100 with (py_Q (PyInt 100)).
    rewrite <- (py_Q_mul q (PyInt 100)). apply binary64_rounded. }
  assert (Hvpos : 0 <= py_Q v <-> 0 <= py_Q q).
  { unfold v, float_mul. rewrite binary64_nonneg, py_Q_mul.
    change (py_Q (PyInt 100)) with 100. split; intros H; lra. }
  assert (Hvneg : py_Q v <= 0 <-> py_Q q <= 0).
  { unfold v, float_mul. rewrite binary64_nonpos, py_Q_mul.
    change (py_Q (PyInt 100)) with 100. split; intros H; lra. }
  destruct (Qdiv_same_sign (py_Q d) (X - Y) Y Hy Hdpos Hdneg) as [Hrpos Hrneg].
  split; [|split; [|split]].
  - apply (rounded_three_times _ (py_Q d / Y) (py_Q q)); [|exact Hq | exact Hv].
    apply rounded_div; assumption.
  - tauto.
  - tauto.
  - assert (Hzero : X == Y <-> (X - Y) / Y <= 0 /\ 0 <= (X - Y) / Y).
    { split.
      - intros H. assert (H0 : (X - Y) / Y == 0) by (rewrite H; field; exact Hy).
        rewrite H0. split; apply Qle_refl.
      - intros [H1 H2].
        assert (H0 : X - Y == (X - Y) / Y * Y) by (field; exact Hy).
        assert (H3 : (X - Y) / Y == 0) by (apply Qle_antisym; assumption).
        rewrite H3 in H0. lra. }
    unfold v, float_mul. rewrite binary64_sign.
    change (py_mul q (PyInt 100))
      with (PyFloat (exact (xorb (py_sign q) false) (py_Q q * 100))).
    cbn [py_sign]. rewrite exact_sign, xorb_false_r.
    assert (Hsq : py_sign q = fneg (exact s (py_Q d / Y))) by reflexivity.
    rewrite Hsq, exact_sign.
    split.
    + intros [Hneg | [Hz [Hneg | [Hz' Hs]]]].
      * left. apply Qnot_le_lt. intros H. apply Hrpos, Hqpos in H. lra.
      * left. apply Qnot_le_lt. intros H. apply Hrpos in H. lra.
      * right.
        assert (Hxy : X == Y).
        { apply Hzero. rewrite <- Hrpos, <- Hrneg. rewrite Hz'. split; apply Qle_refl. }
        split; [exact Hxy|].
        unfold s, d, float_sub in Hs. rewrite binary64_sign in Hs.
        rewrite (py_sub_zero_sign x y Hy Hxy) in Hs. simpl in Hs.
        apply (py_sign_negative y Hy). exact Hs.
    + intros [Hneg | [Hxy Hlt]].
      * left. apply Qnot_le_lt. intros H.
        assert (H1 : 0 <= py_Q q) by lra.
        apply Hqpos, Hrpos in H1. lra.
      * right.
        assert (Hr : (X - Y) / Y <= 0 /\ 0 <= (X - Y) / Y) by (apply Hzero; exact Hxy).
        destruct Hr as [Hr1 Hr2].
        apply Hrneg in Hr1. apply Hrpos in Hr2.
        assert (Hdz : py_Q d / Y == 0) by (apply Qle_antisym; assumption).
        assert (Hqz : py_Q q == 0).
        { apply Qle_antisym; [apply Hqneg | apply Hqpos]; assumption. }
        split; [rewrite Hqz; reflexivity|].
        right. split; [exact Hdz|].
        unfold s, d, float_sub. rewrite binary64_sign.
        rewrite (py_sub_zero_sign x y Hy Hxy). simpl.
        apply (py_sign_negative y Hy). exact Hlt.
Qed.

(** Appending strings is associative. *)
Lemma append_assoc (a b c : string) : (a +:+ b) +:+ c = a +:+ (b +:+ c).
Proof.
  induction a as [|ch a IH]; [reflexivity|].
  change (String ch ((a +:+ b) +:+ c) = String ch (a +:+ (b +:+ c))).
  rewrite IH. reflexivity.
Qed.

(** One digit prints as the decimal numeral of that digit. *)
Lemma digit_decimal (k : Z) : (0 <= k < 10)%Z -> digit k = decimal k.
Proof.
  intros Hk.
  assert (Hcases : (k = 0 \/ k = 1 \/ k = 2 \/ k = 3 \/ k = 4 \/ k = 5 \/ k = 6 \/ k = 7
                    \/ k = 8 \/ k = 9)%Z) by lia.
  repeat (destruct Hcases as [-> | Hcases]; [reflexivity|]).
  rewrite Hcases. reflexivity.
Qed.

(** [f"{x:+.1f}"] is the sign, the tenths of the magnitude cut before their
    last digit, a point, and that last digit. *)
Lemma format_signed_tenths (x : pynum) :
  format_signed 1 x
  = (if py_sign x then "-" else "+")
    +:+ decimal (tenths x / 10) +:+ "." +:+ decimal (tenths x mod 10).
Proof.
  unfold format_signed, format_fixed, tenths.
  change (inject_Z (pow10 1)) with 10. change (pow10 1) with 10%Z.
  set (n := round_half_even (Qabs (py_Q x) * 10)).
  cbn [digits].
  assert (Hk : (0 <= n mod 10 < 10)%Z) by (apply Z.mod_pos_bound; lia).
  rewrite (Z.mod_small (n mod 10) 10 Hk), (digit_decimal _ Hk).
  reflexivity.
Qed.

(** The tenths are within a twentieth of the magnitude. *)
Lemma tenths_near (x : pynum) :
  Qabs (inject_Z (tenths x) / 10 - Qabs (py_Q x)) <= 1 # 20.
Proof.
  unfold tenths.
  pose proof (round_half_even_near (Qabs (py_Q x) * 10)) as [Hlo Hhi].
  set (n := inject_Z (round_half_even (Qabs (py_Q x) * 10))) in *.
  set (m := Qabs (py_Q x)) in *.
  assert (H : n / 10 - m == (n - m * 10) * (1 # 10)) by field.
  rewrite H. apply Qabs_Qle_condition. split; lra.
Qed.

(** C5.  With [previous != 0] and a count-like metric, [calc_change] returns
    as value the relative change in percent, [((current - previous) /
    previous) * 100] evaluated in floats: every operation rounds its result to
    a double, so that the value stays within [2 ^ -51] of the exact
    percentage, relative to it.  Its display is that value to one decimal
    place: the sign, the integer part and the last digit of the magnitude
    taken to the nearest tenth, and [%].  [positive] says whether the value
    is [>= 0], which is whether the exact relative change is.  The sign
    printed is [-] exactly when the value is negative, or is the negative
    zero that equal operands below zero produce. *)
Theorem calc_change_count_like (current previous : pynum) :
  ~ py_Q previous == 0 ->
  exists (change : ChangeResult) (quotient : pynum),
    calc_change current previous false = Ok change
    /\ float_truediv (float_sub current previous) previous = Ok quotient
    /\ value change = float_mul quotient (PyInt 100)
    /\ Qabs (py_Q (value change) - (py_Q current - py_Q previous) / py_Q previous * 100)
       <= Qabs ((py_Q current - py_Q previous) / py_Q previous * 100) * (1 # 2 ^ 51)
    /\ display change
       = (if py_sign (value change) then "-" else "+")
         +:+ decimal (tenths (value change) / 10) +:+ "."
         +:+ decimal (tenths (value change) mod 10) +:+ "%"
    /\ Qabs (inject_Z (tenths (value change)) / 10 - Qabs (py_Q (value change))) <= 1 # 20
    /\ (positive change = true <-> 0 <= py_Q (value change))
    /\ (positive change = true <-> 0 <= (py_Q current - py_Q previous) / py_Q previous)
    /\ (py_sign (value change) = true <->
        py_Q (value change) < 0 \/ (py_Q (value change) == 0 /\ py_Q previous < 0)).
Proof.
  intros Hprev.
  destruct (relative_change_returns current previous Hprev)
    as [quotient [Hq [Hnear [Hpos [Hneg Hsign]]]]].
  unfold calc_change, py_eq.
  assert (E : Qeq_bool (py_Q previous) (py_Q (PyInt 0)) = false).
  { apply Qeq_bool_false. exact Hprev. }
  rewrite E, Hq. cbn [mbind result_bind mret result_ret].
  set (pct_change := float_mul quotient (PyInt 100)) in *.
  eexists. exists quotient. split; [reflexivity|]. cbn [value display positive].
  split; [reflexivity|]. split; [reflexivity|]. split; [exact Hnear|].
  split; [|split; [apply tenths_near|]].
  { rewrite format_signed_tenths.
    destruct (py_sign pct_change); cbn [String.append]; rewrite ?append_assoc;
      repeat f_equal; rewrite !append_assoc; reflexivity. }
  assert (Hge : py_ge pct_change (PyInt 0) = true <-> 0 <= py_Q pct_change).
  { unfold py_ge. rewrite Qle_bool_iff. reflexivity. }
  split; [exact Hge|]. split; [rewrite Hge; exact Hpos|].
  rewrite Hsign. split.
  - intros [Hlt | [Hxy Hp]].
    + left. apply Qnot_le_lt. intros H. apply Hpos in H. lra.
    + right. split; [|exact Hp].
      assert (Hz : (py_Q current - py_Q previous) / py_Q previous == 0).
      { rewrite Hxy. field. exact Hprev. }
      apply Qle_antisym; [apply Hneg | apply Hpos]; rewrite Hz; apply Qle_refl.
  - intros [Hlt | [Hz Hp]].
    + left. apply Qnot_le_lt. intros H. apply Hpos in H. lra.
    + right. split; [|exact Hp].
      assert (H1 : (py_Q current - py_Q previous) / py_Q previous <= 0)
        by (apply Hneg; rewrite Hz; apply Qle_refl).
      assert (H2 : 0 <= (py_Q current - py_Q previous) / py_Q previous)
        by (apply Hpos; rewrite Hz; apply Qle_refl).
      assert (H0 : py_Q current - py_Q previous
                   == (py_Q current - py_Q previous) / py_Q previous * py_Q previous)
        by (field; exact Hprev).
      assert (H3 : (py_Q current - py_Q previous) / py_Q previous == 0)
        by (apply Qle_antisym; assumption).
      rewrite H3 in H0. lra.
Qed.

Lemma calc_change_count_like_witness :
  (exists change, calc_change (PyInt 100) (PyInt 50) false = Ok change
                  /\ display change = "+100.0%" /\ positive change = true)
  /\ (exists change, calc_change (PyInt 50) (PyInt 100) false = Ok change
                     /\ display change = "-50.0%" /\ positive change = false)
  /\ (exists change, calc_change (PyInt 1123) (PyInt 1000) false = Ok change
                     /\ display change = "+12.3%" /\ positive change = true)
  /\ (exists change, calc_change (PyInt 29) (PyInt 80) false = Ok change
                     /\ display change = "-63.7%" /\ positive change = false
                     /\ py_Q (value change) == - (8972014882652159 # 140737488355328)).
Proof.
  split; [|split; [|split]].
  - destruct (calc_change_count_like (PyInt 100) (PyInt 50)) as [change [q [Hc _]]].
    + discriminate.
    + exists change. vm_compute in Hc. injection Hc as <-. repeat split; reflexivity.
  - destruct (calc_change_count_like (PyInt 50) (PyInt 100)) as [change [q [Hc _]]].
    + discriminate.
    + exists change. vm_compute in Hc. injection Hc as <-. repeat split; reflexivity.
  - destruct (calc_change_count_like (PyInt 1123) (PyInt 1000)) as [change [q [Hc _]]].
    + discriminate.
    + exists change. vm_compute in Hc. injection Hc as <-. repeat split; reflexivity.
  - destruct (calc_change_count_like (PyInt 29) (PyInt 80)) as [change [q [Hc _]]].
    + discriminate.
    + exists change. vm_compute in Hc. injection Hc as <-. repeat split; reflexivity.
Defined.

End Comparator.

(* ===================================================================== *)
(** * Post normaliser                                                     *)
(* ===================================================================== *)

Module Normalizer.
Import GenerateReport NewsletterReport PyFacts.

Local Open Scope Q_scope.

(** The guarded rate expression both normalisers use: it raises nothing, is
    the int [0] without recipients and the exact percentage otherwise. *)
Lemma rate_returns (count recipients : Z) :
  exists x : pynum,
    (if (recipients >? 0)%Z then
       ratio ← py_truediv (PyInt count) (PyInt recipients);
       mret (py_mul ratio (PyInt 100))
     else mret (PyInt 0)) = Ok x
    /\ ((recipients <= 0)%Z -> x = PyInt 0)
    /\ ((0 < recipients)%Z -> py_Q x == inject_Z count / inject_Z recipients * 100).
Proof.
  destruct (recipients >? 0)%Z eqn:E.
  - apply Z.gtb_lt in E.
    assert (Hnz : ~ py_Q (PyInt recipients) == 0).
    { simpl. unfold Qeq; simpl. lia. }
    rewrite (py_truediv_nonzero _ _ Hnz). cbn [mbind result_bind mret result_ret].
    eexists. split; [reflexivity|]. split; [lia|].
    intros _. rewrite py_Q_mul. cbn [py_Q]. rewrite exact_Q. reflexivity.
  - exists (PyInt 0). split; [reflexivity|]. split; [reflexivity|].
    intros H. apply Z.gtb_lt in H. congruence.
Qed.

(** [process_post] returns for every raw post, with these rates and clicks. *)
Lemma process_post_returns (post : RawPost) :
  exists m : Post.t,
    process_post post = Ok m
    /\ Post.top_clicks m = map process_click (take 5 (raw_clicks post))
    /\ ((raw_recipients post <= 0)%Z ->
        Post.open_rate m = PyInt 0 /\ Post.click_rate m = PyInt 0)
    /\ ((0 < raw_recipients post)%Z ->
        py_Q (Post.open_rate m)
          == inject_Z (raw_unique_opens post) / inject_Z (raw_recipients post) * 100
        /\ py_Q (Post.click_rate m)
          == inject_Z (raw_unique_clicks post) / inject_Z (raw_recipients post) * 100).
Proof.
  unfold process_post, raw_recipients, raw_unique_opens, raw_unique_clicks, raw_clicks,
    raw_email.
  set (email := get (stats_email (get (post_stats post) empty_stats)) empty_email).
  destruct (rate_returns (get (email_unique_opens email) 0%Z)
              (get (email_recipients email) 0%Z)) as [x [-> [Hx0 Hx]]].
  destruct (rate_returns (get (email_unique_clicks email) 0%Z)
              (get (email_recipients email) 0%Z)) as [y [-> [Hy0 Hy]]].
  cbn [mbind result_bind mret result_ret].
  eexists. split; [reflexivity|]. cbn [Post.top_clicks Post.open_rate Post.click_rate].
  split; [reflexivity|]. split.
  - intros H. split; [apply Hx0 | apply Hy0]; exact H.
  - intros H. split; [apply Hx | apply Hy]; exact H.
Qed.

(** The same for the CSV variant, before its rounding to two decimals. *)
Lemma process_post_data_returns (strftime : string -> Z -> string)
    (post : RawPost) (publication_name : string) :
  exists (row : Row.t) (open_rate click_rate : pynum),
    process_post_data strftime post publication_name = Ok row
    /\ Row.open_rate row = py_round open_rate 2
    /\ Row.click_rate row = py_round click_rate 2
    /\ ((raw_recipients post <= 0)%Z -> open_rate = PyInt 0 /\ click_rate = PyInt 0)
    /\ ((0 < raw_recipients post)%Z ->
        py_Q open_rate
          == inject_Z (raw_unique_opens post) / inject_Z (raw_recipients post) * 100
        /\ py_Q click_rate
          == inject_Z (raw_unique_clicks post) / inject_Z (raw_recipients post) * 100).
Proof.
  unfold process_post_data, raw_recipients, raw_unique_opens, raw_unique_clicks, raw_email.
  set (email := get (stats_email (get (post_stats post) empty_stats)) empty_email).
  destruct (rate_returns (get (email_unique_opens email) 0%Z)
              (get (email_recipients email) 0%Z)) as [x [-> [Hx0 Hx]]].
  destruct (rate_returns (get (email_unique_clicks email) 0%Z)
              (get (email_recipients email) 0%Z)) as [y [-> [Hy0 Hy]]].
  cbn [mbind result_bind mret result_ret].
  eexists. exists x, y. split; [reflexivity|]. cbn [Row.open_rate Row.click_rate].
  split; [reflexivity|]. split; [reflexivity|]. split.
  - intros H. split; [apply Hx0 | apply Hy0]; exact H.
  - intros H. split; [apply Hx | apply Hy]; exact H.
Qed.

(** A share of the recipients, in percent, is a percentage. *)
Lemma share_is_percentage (count recipients : Z) :
  (0 < recipients)%Z -> (0 <= count <= recipients)%Z ->
  percentage (inject_Z count / inject_Z recipients * 100).
Proof.
  intros Hr [H0 H1]. destruct recipients as [|r|r]; try lia.
  unfold percentage, Qdiv, Qinv, Qmult, Qle, inject_Z; simpl. lia.
Qed.

(** Rounding to two decimals keeps a percentage a percentage. *)
Lemma py_round_percentage (x : pynum) :
  percentage (py_Q x) -> percentage (py_Q (py_round x 2)).
Proof.
  destruct x as [z|f]; [trivial|].
  unfold percentage. cbn [py_round py_Q]. unfold float_Q at 1 2 3 4.
  cbn [fneg]. intros [Hlo Hhi].
  change (pow10 2) with 100%Z.
  set (n := round_half_even (magnitude f * inject_Z 100)).
  pose proof (Qabs_nonneg (fmag f)) as Hmag. fold (magnitude f) in Hmag.
  assert (Hn0 : (0 <= n)%Z).
  { change 0%Z with (round_half_even 0). apply round_half_even_mono.
    change (inject_Z 100) with 100. lra. }
  assert (Hm : magnitude {| fneg := fneg f; fmag := Qred (n # Z.to_pos 100) |}
               == inject_Z n / 100).
  { unfold magnitude. cbn [fmag]. rewrite Qred_correct.
    rewrite Qabs_pos by (unfold Qle; simpl; lia).
    unfold Qdiv, Qinv, Qmult, Qeq, inject_Z; simpl. lia. }
  destruct (fneg f); rewrite Hm.
  - assert (Hz : magnitude f == 0) by lra.
    assert (n = 0%Z) as ->.
    { unfold n. rewrite (round_half_even_comp _ 0); [reflexivity|]. rewrite Hz. ring. }
    split; unfold Qle; simpl; lia.
  - assert (n <= 10000)%Z.
    { change 10000%Z with (round_half_even (inject_Z 10000)) at 1.
      - apply round_half_even_mono. change (inject_Z 100) with 100.
        change (inject_Z 10000) with 10000. lra. }
    split; unfold Qdiv, Qinv, Qmult, Qle, inject_Z; simpl; lia.
Qed.

(** C6, as the code has it.  Both normalisers return for every raw post.
    Without recipients ([recipients == 0], or below) [open_rate] and
    [click_rate] are exactly [0].  With [recipients > 0] the open rate lies in
    [[0, 100]] provided the unique opens lie between [0] and the recipients,
    and the click rate provided the unique clicks do; the normalisers do not
    clamp, so the proviso is needed. *)
Theorem rates_are_percentages (strftime : string -> Z -> string) (post : RawPost)
    (publication_name : string) :
  exists (m : Post.t) (row : Row.t),
    process_post post = Ok m
    /\ process_post_data strftime post publication_name = Ok row
    /\ ((raw_recipients post <= 0)%Z ->
        Post.open_rate m = PyInt 0 /\ Post.click_rate m = PyInt 0
        /\ Row.open_rate row = PyInt 0 /\ Row.click_rate row = PyInt 0)
    /\ ((0 < raw_recipients post)%Z ->
        (0 <= raw_unique_opens post <= raw_recipients post)%Z ->
        percentage (py_Q (Post.open_rate m)) /\ percentage (py_Q (Row.open_rate row)))
    /\ ((0 < raw_recipients post)%Z ->
        (0 <= raw_unique_clicks post <= raw_recipients post)%Z ->
        percentage (py_Q (Post.click_rate m)) /\ percentage (py_Q (Row.click_rate row))).
Proof.
  destruct (process_post_returns post) as [m [Hm [_ [Hm0 Hm1]]]].
  destruct (process_post_data_returns strftime post publication_name)
    as [row [o [c [Hrow [Ho [Hc [Hr0 Hr1]]]]]]].
  exists m, row. split; [exact Hm|]. split; [exact Hrow|]. split; [|split].
  - intros H. destruct (Hm0 H) as [-> ->]. destruct (Hr0 H) as [Eo Ec].
    rewrite Ho, Hc, Eo, Ec. repeat split; reflexivity.
  - intros Hr Hu. destruct (Hm1 Hr) as [Eo _]. destruct (Hr1 Hr) as [Eo' _].
    pose proof (share_is_percentage _ _ Hr Hu) as Hp. split.
    + unfold percentage. rewrite Eo. exact Hp.
    + rewrite Ho. apply py_round_percentage. unfold percentage. rewrite Eo'. exact Hp.
  - intros Hr Hu. destruct (Hm1 Hr) as [_ Ec]. destruct (Hr1 Hr) as [_ Ec'].
    pose proof (share_is_percentage _ _ Hr Hu) as Hp. split.
    + unfold percentage. rewrite Ec. exact Hp.
    + rewrite Hc. apply py_round_percentage. unfold percentage. rewrite Ec'. exact Hp.
Qed.

Lemma rates_are_percentages_witness :
  (exists m row,
     process_post Samples.snap_back = Ok m
     /\ process_post_data (fun _ _ => "2026-01-06") Samples.snap_back "ETL Daily" = Ok row
     /\ percentage (py_Q (Post.open_rate m)) /\ percentage (py_Q (Row.open_rate row))
     /\ percentage (py_Q (Post.click_rate m)) /\ percentage (py_Q (Row.click_rate row)))
  /\ (exists m row,
        process_post Samples.unsent = Ok m
        /\ process_post_data (fun _ _ => "2026-01-06") Samples.unsent "ETL Daily" = Ok row
        /\ Post.open_rate m = PyInt 0 /\ Row.click_rate row = PyInt 0).
Proof.
  split.
  - destruct (rates_are_percentages (fun _ _ => "2026-01-06") Samples.snap_back "ETL Daily")
      as [m [row [Hm [Hrow [_ [Ho Hc]]]]]].
    exists m, row. split; [exact Hm|]. split; [exact Hrow|].
    destruct Ho as [Ho1 Ho2]; [reflexivity | vm_compute; split; discriminate |].
    destruct Hc as [Hc1 Hc2]; [reflexivity | vm_compute; split; discriminate |].
    exact (conj Ho1 (conj Ho2 (conj Hc1 Hc2))).
  - destruct (rates_are_percentages (fun _ _ => "2026-01-06") Samples.unsent "ETL Daily")
      as [m [row [Hm [Hrow [H0 _]]]]].
    exists m, row. split; [exact Hm|]. split; [exact Hrow|].
    destruct H0 as [Ho [_ [_ Hc]]]; [vm_compute; discriminate|].
    split; assumption.
Defined.

(** C6 as written fails: one recipient and two unique opens make the open
    rate [200.0], with [recipients > 0]. *)
Lemma open_rate_can_exceed_100 :
  (0 < raw_recipients Samples.over_counted)%Z
  /\ exists m, process_post Samples.over_counted = Ok m
               /\ py_Q (Post.open_rate m) == 200
               /\ ~ percentage (py_Q (Post.open_rate m)).
Proof.
  split; [reflexivity|].
  eexists. split; [reflexivity|]. split; [reflexivity|].
  intros [_ H]. vm_compute in H. apply H. reflexivity.
Qed.

(** C8, as the code has it.  [process_post] keeps the first five link-click
    records of the raw post, each normalised, in the order the API lists
    them: position [i] of [top_clicks] is raw click [i] for [i < 5], and there
    is no sixth.  [process_clicks_data], the CSV variant, keeps every
    link-click record, in the same order. *)
Theorem link_clicks_kept (post : RawPost) (publication_name : string) :
  (exists m : Post.t,
     process_post post = Ok m
     /\ length (Post.top_clicks m) = Nat.min 5 (length (raw_clicks post))
     /\ forall i : nat,
          Post.top_clicks m !! i
          = if (i <? 5)%nat then process_click <$> raw_clicks post !! i else None)
  /\ length (process_clicks_data post publication_name) = length (raw_clicks post)
  /\ forall i : nat,
       process_clicks_data post publication_name !! i
       = click_row post publication_name <$> raw_clicks post !! i.
Proof.
  split; [|split].
  - destruct (process_post_returns post) as [m [Hm [Hc _]]].
    exists m. split; [exact Hm|]. rewrite Hc. split.
    + rewrite length_map, length_take. reflexivity.
    + intros i. rewrite list_lookup_fmap.
      destruct (i <? 5)%nat eqn:E.
      * apply Nat.ltb_lt in E. rewrite lookup_take_lt by exact E. reflexivity.
      * apply Nat.ltb_ge in E. rewrite lookup_take_ge by exact E. reflexivity.
  - unfold process_clicks_data, raw_clicks. apply length_map.
  - intros i. unfold process_clicks_data, raw_clicks. apply list_lookup_fmap.
Qed.

(** C8 as written fails for the CSV variant: all six link clicks of a post
    are kept, not five. *)
Lemma clicks_csv_keeps_a_sixth_link :
  length (raw_clicks Samples.six_links) = 6%nat
  /\ length (process_clicks_data Samples.six_links "ETL Daily") = 6%nat
  /\ ~ (length (process_clicks_data Samples.six_links "ETL Daily") <= 5)%nat.
Proof.
  split; [reflexivity|]. split; [reflexivity|]. vm_compute. lia.
Qed.

End Normalizer.

(* ===================================================================== *)
(** * Aggregator                                                          *)
(* ===================================================================== *)

Module Aggregator.
Import GenerateReport NewsletterReport PyFacts.

Local Open Scope Q_scope.

(** The quotient of a number by a list length, for a list that is not empty. *)
Lemma truediv_count {A : Type} (x : pynum) (y : A) (ys : list A) :
  py_truediv x (PyInt (Z.of_nat (length (y :: ys))))
  = Ok (PyFloat (exact (xorb (py_sign x) false)
                   (py_Q x / inject_Z (Z.of_nat (length (y :: ys)))))).
Proof.
  rewrite (py_truediv_nonzero _ _ (count_nonzero y ys)). reflexivity.
Qed.

Lemma mean_of_ints (xs : list Z) (n : Z) :
  inject_Z (sum_int xs) / inject_Z n == Qsum (map inject_Z xs) / inject_Z n.
Proof. rewrite sum_int_Zsum, Qsum_inject_Z. reflexivity. Qed.

(** [calc_metrics] returns an aggregate for every list that is not empty. *)
Lemma calc_metrics_returns (posts : list Post.t) :
  posts <> [] ->
  let count := Z.of_nat (length posts) in
  exists metrics : Metrics.t,
    calc_metrics posts = Ok (Some metrics)
    /\ Metrics.posts_sent metrics = count
    /\ Metrics.avg_sent metrics = (Zsum (map Post.recipients posts) ÷ count)%Z
    /\ Metrics.avg_unique_opens metrics = (Zsum (map Post.unique_opens posts) ÷ count)%Z
    /\ Metrics.avg_unique_clicks metrics = (Zsum (map Post.unique_clicks posts) ÷ count)%Z
    /\ py_Q (Metrics.avg_open_rate metrics)
       == mean (map (fun p => py_Q (Post.open_rate p)) posts)
    /\ py_Q (Metrics.avg_click_rate metrics)
       == mean (map (fun p => py_Q (Post.click_rate p)) posts)
    /\ Metrics.impressions metrics = Zsum (map Post.impressions posts)
    /\ Metrics.total_clicks metrics = Zsum (map Post.clicks posts)
    /\ Metrics.unsubscribes metrics = Zsum (map Post.unsubscribes posts).
Proof.
  intros Hne count. destruct posts as [|p ps]; [congruence|].
  assert (Hcount : (0 < count)%Z) by (unfold count; simpl; lia).
  unfold calc_metrics. rewrite !truediv_count.
  cbn [mbind result_bind mret result_ret]. fold count.
  eexists. split; [reflexivity|].
  cbn [Metrics.posts_sent Metrics.avg_sent Metrics.avg_unique_opens
       Metrics.avg_unique_clicks Metrics.avg_open_rate Metrics.avg_click_rate
       Metrics.impressions Metrics.total_clicks Metrics.unsubscribes py_Q].
  rewrite !(py_int_quotient _ _ _ Hcount), !sum_int_Zsum, !exact_Q, !py_Q_sum.
  unfold mean. rewrite !length_map, !map_map. fold count.
  repeat split; reflexivity.
Qed.

(** The CSV variant's weekly block: every average is the quotient itself. *)
Lemma weekly_summary_metrics_returns (pub_posts : list Row.t) :
  pub_posts <> [] ->
  exists summary : Summary.t,
    weekly_summary_metrics pub_posts = Ok (Some summary)
    /\ Summary.post_count summary = Z.of_nat (length pub_posts)
    /\ py_Q (Summary.avg_sent summary)
       == mean (map (fun p => inject_Z (Row.recipients p)) pub_posts)
    /\ py_Q (Summary.avg_unique_opens summary)
       == mean (map (fun p => inject_Z (Row.unique_opens p)) pub_posts)
    /\ py_Q (Summary.avg_unique_clicks summary)
       == mean (map (fun p => inject_Z (Row.unique_clicks p)) pub_posts)
    /\ py_Q (Summary.avg_open_rate summary)
       == mean (map (fun p => py_Q (Row.open_rate p)) pub_posts)
    /\ py_Q (Summary.avg_click_rate summary)
       == mean (map (fun p => py_Q (Row.click_rate p)) pub_posts)
    /\ Summary.total_impressions summary = Zsum (map Row.impressions pub_posts)
    /\ Summary.total_clicks summary = Zsum (map Row.clicks pub_posts)
    /\ Summary.total_unsubs summary = Zsum (map Row.unsubscribes pub_posts).
Proof.
  intros Hne. destruct pub_posts as [|p ps]; [congruence|].
  unfold weekly_summary_metrics. rewrite !truediv_count.
  cbn [mbind result_bind mret result_ret].
  eexists. split; [reflexivity|].
  cbn [Summary.post_count Summary.avg_sent Summary.avg_unique_opens
       Summary.avg_unique_clicks Summary.avg_open_rate Summary.avg_click_rate
       Summary.total_impressions Summary.total_clicks Summary.total_unsubs py_Q].
  rewrite !exact_Q, !py_Q_sum, !sum_int_Zsum.
  unfold mean. rewrite !length_map, !map_map, <- !Qsum_inject_Z, !map_map.
  repeat split; reflexivity.
Qed.

(** C3, as the code has it.  For a list of normalised posts that is not
    empty, [calc_metrics] returns an aggregate whose rate averages
    ([avg_open_rate], [avg_click_rate]) are the arithmetic means of the
    per-post rates over the post count, whose count averages ([avg_sent],
    [avg_unique_opens], [avg_unique_clicks]) are the mean cut to an integer by
    [int(...)], that is the sum divided by the count and rounded toward zero,
    and whose totals ([impressions], [total_clicks], [unsubscribes]) are the
    straight sums.  The weekly summary of the CSV variant keeps all five
    averages as the arithmetic means, and its totals are the straight sums. *)
Theorem averages_and_totals :
  (forall posts : list Post.t,
     posts <> [] ->
     let count := Z.of_nat (length posts) in
     exists metrics : Metrics.t,
       calc_metrics posts = Ok (Some metrics)
       /\ Metrics.posts_sent metrics = count
       /\ Metrics.avg_sent metrics = (Zsum (map Post.recipients posts) ÷ count)%Z
       /\ Metrics.avg_unique_opens metrics
          = (Zsum (map Post.unique_opens posts) ÷ count)%Z
       /\ Metrics.avg_unique_clicks metrics
          = (Zsum (map Post.unique_clicks posts) ÷ count)%Z
       /\ py_Q (Metrics.avg_open_rate metrics)
          == mean (map (fun p => py_Q (Post.open_rate p)) posts)
       /\ py_Q (Metrics.avg_click_rate metrics)
          == mean (map (fun p => py_Q (Post.click_rate p)) posts)
       /\ Metrics.impressions metrics = Zsum (map Post.impressions posts)
       /\ Metrics.total_clicks metrics = Zsum (map Post.clicks posts)
       /\ Metrics.unsubscribes metrics = Zsum (map Post.unsubscribes posts))
  /\ (forall pub_posts : list Row.t,
        pub_posts <> [] ->
        exists summary : Summary.t,
          weekly_summary_metrics pub_posts = Ok (Some summary)
          /\ Summary.post_count summary = Z.of_nat (length pub_posts)
          /\ py_Q (Summary.avg_sent summary)
             == mean (map (fun p => inject_Z (Row.recipients p)) pub_posts)
          /\ py_Q (Summary.avg_unique_opens summary)
             == mean (map (fun p => inject_Z (Row.unique_opens p)) pub_posts)
          /\ py_Q (Summary.avg_unique_clicks summary)
             == mean (map (fun p => inject_Z (Row.unique_clicks p)) pub_posts)
          /\ py_Q (Summary.avg_open_rate summary)
             == mean (map (fun p => py_Q (Row.open_rate p)) pub_posts)
          /\ py_Q (Summary.avg_click_rate summary)
             == mean (map (fun p => py_Q (Row.click_rate p)) pub_posts)
          /\ Summary.total_impressions summary = Zsum (map Row.impressions pub_posts)
          /\ Summary.total_clicks summary = Zsum (map Row.clicks pub_posts)
          /\ Summary.total_unsubs summary = Zsum (map Row.unsubscribes pub_posts)).
Proof.
  split.
  - exact calc_metrics_returns.
  - exact weekly_summary_metrics_returns.
Qed.

(** The sample week goes through the normaliser and the aggregator to the
    figures of the sample report. *)
Lemma averages_and_totals_witness :
  exists (processed : list Post.t) (metrics : Metrics.t),
    comprehension process_post Samples.sample_week = Ok processed
    /\ calc_metrics processed = Ok (Some metrics)
    /\ Metrics.posts_sent metrics = 5%Z
    /\ Metrics.avg_sent metrics = 6732%Z
    /\ Metrics.impressions metrics = 22051%Z
    /\ Metrics.avg_unique_opens metrics = 3128%Z
    /\ format_fixed 2 (py_Q (Metrics.avg_open_rate metrics)) = "46.47"
    /\ Metrics.total_clicks metrics = 330%Z
    /\ Metrics.unsubscribes metrics = 9%Z
    /\ map Post.title (Metrics.top_posts metrics)
       = ["SNAP back"; "Empleos down planes up"; "El crimen baja la gripe sube"].
Proof.
  destruct (comprehension process_post Samples.sample_week) as [processed|e] eqn:Hp;
    [|vm_compute in Hp; discriminate].
  assert (Hne : processed <> []).
  { vm_compute in Hp. injection Hp as <-. discriminate. }
  destruct (proj1 averages_and_totals processed Hne) as [metrics [Hm _]].
  exists processed, metrics. split; [reflexivity|]. split; [exact Hm|].
  vm_compute in Hp. injection Hp as <-.
  vm_compute in Hm. injection Hm as <-.
  vm_compute. repeat split; reflexivity.
Defined.

(** C3 as written fails for [calc_metrics]: with one and two recipients the
    mean is 3/2 and [avg_sent] is 1. *)
Lemma avg_sent_is_not_the_mean :
  exists metrics : Metrics.t,
    calc_metrics Samples.one_and_two = Ok (Some metrics)
    /\ mean (map (fun p => inject_Z (Post.recipients p)) Samples.one_and_two) == 3 # 2
    /\ Metrics.avg_sent metrics = 1%Z
    /\ ~ inject_Z (Metrics.avg_sent metrics)
         == mean (map (fun p => inject_Z (Post.recipients p)) Samples.one_and_two).
Proof.
  eexists. split; [reflexivity|]. split; [reflexivity|]. split; [reflexivity|].
  vm_compute. discriminate.
Qed.

End Aggregator.

(* ===================================================================== *)
(** * No division by zero                                                 *)
(* ===================================================================== *)

Module Totality.
Import GenerateReport PyFacts.

Local Open Scope Q_scope.

Lemma calc_change_returns (current previous : pynum) (is_percentage : bool) :
  exists change : ChangeResult, calc_change current previous is_percentage = Ok change.
Proof.
  unfold calc_change, py_eq.
  destruct (Qeq_bool (py_Q previous) (py_Q (PyInt 0))) eqn:E.
  - eexists. reflexivity.
  - destruct is_percentage.
    + eexists. reflexivity.
    + apply Qeq_bool_false in E.
      destruct (Comparator.relative_change_returns current previous E) as [quotient [Hq _]].
      rewrite Hq. eexists. reflexivity.
Qed.

Lemma calc_metrics_total (posts : list Post.t) :
  exists metrics : option Metrics.t, calc_metrics posts = Ok metrics.
Proof.
  destruct posts as [|p ps].
  - exists None. reflexivity.
  - destruct (Aggregator.calc_metrics_returns (p :: ps)) as [metrics [H _]];
      [discriminate|].
    exists (Some metrics). exact H.
Qed.

(** A division raises exactly when its divisor is zero. *)
Lemma py_truediv_raises (x y : pynum) :
  py_truediv x y = Raise ZeroDivisionError <-> py_Q y == 0.
Proof.
  unfold py_truediv. destruct (Qeq_bool (py_Q y) 0) eqn:E.
  - apply Qeq_bool_iff in E. tauto.
  - apply Qeq_bool_false in E. split; [discriminate | contradiction].
Qed.

(** C10.  No division of the core pipeline can fail: [process_post],
    [calc_metrics] and [calc_change] return a value on every input, although
    true division raises [ZeroDivisionError] on a zero divisor. *)
Theorem divisions_are_guarded :
  (forall post : RawPost, exists m : Post.t, process_post post = Ok m)
  /\ (forall posts : list Post.t,
        exists metrics : option Metrics.t, calc_metrics posts = Ok metrics)
  /\ (forall (current previous : pynum) (is_percentage : bool),
        exists change : ChangeResult,
          calc_change current previous is_percentage = Ok change)
  /\ (forall x y : pynum, py_truediv x y = Raise ZeroDivisionError <-> py_Q y == 0).
Proof.
  split; [|split; [|split]].
  - intros post. destruct (Normalizer.process_post_returns post) as [m [H _]].
    exists m. exact H.
  - exact calc_metrics_total.
  - exact calc_change_returns.
  - exact py_truediv_raises.
Qed.

End Totality.

(* ===================================================================== *)
(** * Fetcher                                                             *)
(* ===================================================================== *)

Module Fetcher.
Import PyFacts.

Section Pagination.

Variable key : string.
Variable requests_get : Request -> Response.
Variable url : string.
Variable expand : option (list string).
Variables start_ts end_ts : Z.

Hypothesis key_set : key <> "".

Let response (j : Z) : Response := requests_get (page_request key url expand j).
Let posts_of (j : Z) : list RawPost := get (body_data (response j)) [].
Let total_pages_of (j : Z) : Z := get (body_total_pages (response j)) 1.

Lemma get_headers_set :
  get_headers key
  = Some [("Authorization", "Bearer " +:+ key); ("Content-Type", "application/json")].
Proof.
  unfold get_headers. destruct (String.eqb key "") eqn:E; [|reflexivity].
  apply String.eqb_eq in E. contradiction.
Qed.

Lemma page_numbers_succ (first : Z) (n : nat) :
  page_numbers first (S n) = first :: page_numbers (first + 1) n.
Proof.
  unfold page_numbers. simpl. rewrite Z.add_0_r. f_equal.
  rewrite <- seq_shift, map_map. apply map_ext. intros i. lia.
Qed.

(** The loop, started at page [first] with [n] pages to go: the pages before
    the last are neither empty nor final, the last is empty or final, and all
    are answered with status 200. *)
Lemma fetch_loop_pages (n : nat) :
  forall (first : Z) (fuel : nat) (all_posts : list RawPost) (sent : list Request),
    (n < fuel)%nat ->
    (forall j, first <= j <= first + Z.of_nat n -> status_code (response j) = 200) ->
    (forall j, first <= j < first + Z.of_nat n ->
               posts_of j <> [] /\ j < total_pages_of j) ->
    (posts_of (first + Z.of_nat n) = []
     \/ total_pages_of (first + Z.of_nat n) <= first + Z.of_nat n) ->
    fetch_loop key requests_get fuel url expand start_ts end_ts first all_posts sent
    = (sent ++ map (page_request key url expand) (page_numbers first (S n)),
       Returned (all_posts
                 ++ List.filter (in_window start_ts end_ts)
                      (concat (map posts_of (page_numbers first (S n)))))).
Proof.
  induction n as [|n IH]; intros first fuel all_posts sent Hfuel Hok Hmore Hlast.
  - destruct fuel as [|fuel]; [lia|].
    simpl fetch_loop. rewrite get_headers_set.
    fold (page_request key url expand first). fold (response first).
    rewrite (Hok first) by lia. simpl negb. cbn iota.
    fold (posts_of first). fold (total_pages_of first).
    rewrite Z.add_0_r in Hlast.
    unfold page_numbers. simpl map. rewrite Z.add_0_r. simpl concat.
    rewrite app_nil_r.
    destruct (posts_of first) as [|p ps] eqn:Eposts.
    + simpl. rewrite app_nil_r. reflexivity.
    + destruct Hlast as [Hlast | Hlast]; [discriminate|].
      apply Z.geb_le in Hlast. rewrite Hlast. reflexivity.
  - destruct fuel as [|fuel]; [lia|].
    simpl fetch_loop. rewrite get_headers_set.
    fold (page_request key url expand first). fold (response first).
    rewrite (Hok first) by lia. simpl negb. cbn iota.
    fold (posts_of first). fold (total_pages_of first).
    destruct (Hmore first) as [Hne Hlt]; [lia|].
    destruct (posts_of first) as [|p ps] eqn:Eposts; [congruence|].
    destruct (first >=? total_pages_of first) eqn:Ege.
    { apply Z.geb_le in Ege. lia. }
    rewrite (IH (first + 1)).
    + rewrite (page_numbers_succ first (S n)). cbn [map concat].
      rewrite Eposts, List.filter_app, <- !app_assoc. reflexivity.
    + lia.
    + intros j Hj. apply Hok. lia.
    + intros j Hj. apply Hmore. lia.
    + replace (first + 1 + Z.of_nat n) with (first + Z.of_nat (S n)) by lia.
      exact Hlast.
Qed.

(** A response other than 200 ends the loop with the posts kept so far. *)
Lemma fetch_loop_stops_on_error (fuel : nat) (page : Z) (all_posts : list RawPost)
    (sent : list Request) :
  status_code (response page) <> 200 ->
  fetch_loop key requests_get (S fuel) url expand start_ts end_ts page all_posts sent
  = (sent ++ [page_request key url expand page], Returned all_posts).
Proof.
  intros Herr. simpl fetch_loop. rewrite get_headers_set.
  fold (page_request key url expand page). fold (response page).
  apply Z.eqb_neq in Herr. rewrite Herr. reflexivity.
Qed.

End Pagination.

(** Without the credential nothing is requested and the run exits with 1. *)
Lemma fetch_loop_without_credential (requests_get : Request -> Response) (fuel : nat)
    (url : string) (expand : option (list string)) (start_ts end_ts page : Z)
    (all_posts : list RawPost) (sent : list Request) :
  fetch_loop "" requests_get (S fuel) url expand start_ts end_ts page all_posts sent
  = (sent, SysExit 1).
Proof. reflexivity. Qed.

(** The [expand[]] parameter is sent for a non-empty list only. *)
Example sent_expand_cases :
  sent_expand (Some ["stats"; "clicks"]) = Some ["stats"; "clicks"]
  /\ sent_expand (Some []) = None
  /\ sent_expand None = None.
Proof. repeat split; reflexivity. Qed.

(** C4.  [fetch_posts] asks for pages 1, 2, ... of 100 posts each.  When the
    server answers them (status 200) and page [pages] is the first that is
    empty or whose number has reached the [total_pages] it reports,
    [fetch_posts] sends exactly the requests for pages 1 to [pages] and
    returns, in the order served, the posts of those pages whose
    [publish_date] lies in [[start_ts, end_ts]], both ends included.  The
    two scripts' functions agree when the CSV variant expands stats and
    clicks. *)
Theorem fetch_posts_paginates (key : string) (requests_get : Request -> Response)
    (publication_id : string) (start_ts end_ts : Z) (expand : option (list string))
    (pages fuel : nat) :
  let request := page_request key (posts_url publication_id) (sent_expand expand) in
  let posts_of := fun j => get (body_data (requests_get (request j))) [] in
  let total_pages_of := fun j => get (body_total_pages (requests_get (request j))) 1 in
  let served := concat (map posts_of (page_numbers 1 pages)) in
  key <> "" ->
  (1 <= pages <= fuel)%nat ->
  (forall j, 1 <= j <= Z.of_nat pages -> status_code (requests_get (request j)) = 200) ->
  (forall j, 1 <= j < Z.of_nat pages -> posts_of j <> [] /\ j < total_pages_of j) ->
  (posts_of (Z.of_nat pages) = [] \/ total_pages_of (Z.of_nat pages) <= Z.of_nat pages) ->
  exists fetched : list RawPost,
    NewsletterReport.fetch_posts key requests_get fuel publication_id start_ts end_ts expand
    = (map request (page_numbers 1 pages), Returned fetched)
    /\ (expand = Some ["stats"; "clicks"] ->
        GenerateReport.fetch_posts key requests_get fuel publication_id start_ts end_ts
        = (map request (page_numbers 1 pages), Returned fetched))
    /\ Forall (fun r => limit (req_params r) = 100) (map request (page_numbers 1 pages))
    /\ map (fun r => page (req_params r)) (map request (page_numbers 1 pages))
       = page_numbers 1 pages
    /\ fetched = List.filter (in_window start_ts end_ts) served
    /\ forall post, In post fetched <->
         In post served /\ start_ts <= get (post_publish_date post) 0 <= end_ts.
Proof.
  intros request posts_of total_pages_of served Hkey Hpages Hok Hmore Hlast.
  destruct pages as [|n]; [lia|].
  exists (List.filter (in_window start_ts end_ts) served).
  assert (Hloop :
    fetch_loop key requests_get fuel (posts_url publication_id) (sent_expand expand)
      start_ts end_ts 1 [] []
    = (map request (page_numbers 1 (S n)),
       Returned (List.filter (in_window start_ts end_ts) served))).
  { rewrite (fetch_loop_pages key requests_get (posts_url publication_id)
               (sent_expand expand) start_ts end_ts Hkey n 1 fuel [] []).
    - reflexivity.
    - lia.
    - intros j Hj. apply Hok. lia.
    - intros j Hj. apply Hmore. lia.
    - replace (1 + Z.of_nat n) with (Z.of_nat (S n)) by lia. exact Hlast. }
  split; [exact Hloop|]. split; [|split; [|split; [|split]]].
  - intros ->. exact Hloop.
  - apply Forall_map, Forall_forall. intros j _. reflexivity.
  - rewrite map_map. apply map_id.
  - reflexivity.
  - intros post. rewrite List.filter_In. unfold in_window.
    rewrite andb_true_iff, !Z.leb_le. reflexivity.
Qed.

(** The stub of two pages, 100 and 37 posts, with [total_pages = 2]: 137
    posts come back, the first page's before the second's. *)
Lemma fetch_posts_paginates_witness :
  GenerateReport.fetch_posts "secret" Samples.two_page_stub 2 "pub_1"
    1767225600 1769903999
  = (map (page_request "secret" (posts_url "pub_1") (Some ["stats"; "clicks"])) [1; 2],
     Returned (Samples.stub_posts 0 100 ++ Samples.stub_posts 100 37))
  /\ length (Samples.stub_posts 0 100 ++ Samples.stub_posts 100 37) = 137%nat.
Proof.
  destruct (fetch_posts_paginates "secret" Samples.two_page_stub "pub_1"
              1767225600 1769903999 (Some ["stats"; "clicks"]) 2 2)
    as [fetched [_ [Hgen [_ [_ [Hfetched _]]]]]].
  - discriminate.
  - lia.
  - intros j _. reflexivity.
  - intros j Hj. assert (j = 1) as -> by lia. split; [discriminate | reflexivity].
  - right. simpl. lia.
  - split; [|reflexivity].
    rewrite (Hgen eq_refl), Hfetched. vm_compute. reflexivity.
Defined.

End Fetcher.

(* ===================================================================== *)
(** * Report builders                                                     *)
(* ===================================================================== *)

Module Builders.
Import GenerateReport PyFacts.

Local Open Scope Z_scope.

(** ** Loops *)

(** A loop whose body returns and keeps an invariant returns and keeps it. *)
Lemma for_each_invariant {A S : Type} (P : S -> Prop) (body : S -> A -> result S)
    (xs : list A) :
  (forall acc x, In x xs -> P acc -> exists acc', body acc x = Ok acc' /\ P acc') ->
  forall acc, P acc -> exists acc', for_each body xs acc = Ok acc' /\ P acc'.
Proof.
  induction xs as [|x xs IH]; intros Hbody acc Hacc.
  - exists acc. split; [reflexivity | exact Hacc].
  - destruct (Hbody acc x (or_introl eq_refl) Hacc) as [acc1 [H1 P1]].
    destruct (IH (fun a y Hy => Hbody a y (or_intror Hy)) acc1 P1) as [acc2 [H2 P2]].
    exists acc2. split; [|exact P2]. simpl. rewrite H1. exact H2.
Qed.

(** Rounds that leave the state as it is can be dropped from a loop. *)
Lemma for_each_skip {A S : Type} (keep : A -> bool) (body : S -> A -> result S)
    (xs : list A) :
  (forall acc x, keep x = false -> body acc x = Ok acc) ->
  forall acc, for_each body xs acc = for_each body (List.filter keep xs) acc.
Proof.
  intros Hskip. induction xs as [|x xs IH]; intros acc; [reflexivity|].
  simpl. destruct (keep x) eqn:E.
  - simpl. destruct (body acc x) as [acc'|e]; [apply IH | reflexivity].
  - rewrite (Hskip acc x E). apply IH.
Qed.

(** ** The normaliser and the aggregator on fetched lists *)

Lemma normalised_returns (posts : list RawPost) :
  comprehension process_post posts = Ok (normalised posts)
  /\ length (normalised posts) = length posts.
Proof.
  unfold normalised. induction posts as [|post posts [IH Hlen]]; [split; reflexivity|].
  simpl. destruct (Normalizer.process_post_returns post) as [m [Hm _]].
  rewrite Hm. cbn [mbind result_bind].
  destruct (comprehension process_post posts) as [ms|e]; [|discriminate].
  cbn [mbind result_bind mret result_ret]. split; [reflexivity|].
  simpl. simpl in Hlen. congruence.
Qed.

Lemma period_metrics_returns (posts : list RawPost) :
  calc_metrics (normalised posts) = Ok (period_metrics posts).
Proof.
  unfold period_metrics.
  destruct (Totality.calc_metrics_total (normalised posts)) as [metrics H].
  rewrite H. reflexivity.
Qed.

Lemma period_metrics_empty : period_metrics [] = None.
Proof. reflexivity. Qed.

Lemma period_metrics_nonempty (post : RawPost) (posts : list RawPost) :
  exists metrics, period_metrics (post :: posts) = Some metrics.
Proof.
  pose proof (period_metrics_returns (post :: posts)) as H.
  destruct (normalised_returns (post :: posts)) as [_ Hlen].
  destruct (normalised (post :: posts)) as [|m ms] eqn:E; [discriminate|].
  destruct (Aggregator.calc_metrics_returns (m :: ms)) as [metrics [Hm _]];
    [discriminate|].
  exists metrics. congruence.
Qed.

(** ** Changes *)

Lemma getitem_known (metrics : Metrics.t) (key : string) :
  In key change_keys -> exists x, getitem metrics key = Ok x.
Proof.
  unfold change_keys, count_keys, rate_keys. simpl.
  intros H. repeat (destruct H as [<- | H]; [eexists; reflexivity|]). contradiction.
Qed.

Lemma change_step_returns (curr_metrics : Metrics.t) (prev_metrics : option Metrics.t)
    (is_percentage : bool) (changes : gmap string ChangeResult) (key : string) :
  In key change_keys ->
  exists changes', change_step curr_metrics prev_metrics is_percentage changes key
                   = Ok changes'.
Proof.
  intros Hkey. unfold change_step.
  assert (Hprev : exists prev_val,
            match prev_metrics with
            | Some metrics => getitem metrics key
            | None => mret (PyInt 0)
            end = Ok prev_val).
  { destruct prev_metrics as [pm|]; [apply getitem_known; exact Hkey|].
    eexists. reflexivity. }
  destruct Hprev as [prev_val ->].
  destruct (getitem_known curr_metrics key Hkey) as [curr_val ->].
  cbn [mbind result_bind].
  destruct (Totality.calc_change_returns curr_val prev_val is_percentage) as [c ->].
  eexists. reflexivity.
Qed.

Lemma calc_changes_returns (curr_metrics : Metrics.t) (prev_metrics : option Metrics.t) :
  exists changes, calc_changes curr_metrics prev_metrics = Ok changes.
Proof.
  unfold calc_changes.
  destruct (for_each_invariant (fun _ => True)
              (change_step curr_metrics prev_metrics false) count_keys) with (acc := (∅ : gmap string ChangeResult))
    as [changes [-> _]]; [|exact I|].
  { intros acc key Hin _.
    destruct (change_step_returns curr_metrics prev_metrics false acc key) as [c ->].
    - unfold change_keys. apply in_or_app. left. exact Hin.
    - eexists. split; [reflexivity | exact I]. }
  cbn [mbind result_bind].
  destruct (for_each_invariant (fun _ => True)
              (change_step curr_metrics prev_metrics true) rate_keys) with (acc := changes)
    as [changes' [-> _]]; [|exact I|].
  { intros acc key Hin _.
    destruct (change_step_returns curr_metrics prev_metrics true acc key) as [c ->].
    - unfold change_keys. apply in_or_app. right. exact Hin.
    - eexists. split; [reflexivity | exact I]. }
  eexists. reflexivity.
Qed.

(** Without a previous aggregate a round stores the "not applicable" change. *)
Lemma change_step_no_previous (curr_metrics : Metrics.t) (is_percentage : bool)
    (changes : gmap string ChangeResult) (key : string) :
  In key change_keys ->
  change_step curr_metrics None is_percentage changes key
  = Ok (<[key := not_applicable]> changes).
Proof.
  intros Hkey. unfold change_step.
  destruct (getitem_known curr_metrics key Hkey) as [curr_val ->].
  cbn [mbind result_bind mret result_ret].
  rewrite (Comparator.calc_change_not_applicable curr_val (PyInt 0) is_percentage)
    by reflexivity.
  reflexivity.
Qed.

Lemma for_each_no_previous (curr_metrics : Metrics.t) (is_percentage : bool)
    (keys : list string) :
  (forall key, In key keys -> In key change_keys) ->
  forall changes0 : gmap string ChangeResult,
    exists changes,
      for_each (change_step curr_metrics None is_percentage) keys changes0 = Ok changes
      /\ (forall key, In key keys -> changes !! key = Some not_applicable)
      /\ (forall key, changes0 !! key = Some not_applicable ->
                      changes !! key = Some not_applicable).
Proof.
  induction keys as [|k keys IH]; intros Hkeys changes0.
  - exists changes0. split; [reflexivity|]. split; [intros key []|auto].
  - destruct (IH (fun key H => Hkeys key (or_intror H)) (<[k := not_applicable]> changes0))
      as [changes [Hloop [Hin Hkeep]]].
    exists changes. split; [|split].
    + simpl. rewrite (change_step_no_previous _ _ _ _ (Hkeys k (or_introl eq_refl))).
      exact Hloop.
    + intros key [<- | H]; [|apply Hin; exact H].
      apply Hkeep. apply lookup_insert_eq.
    + intros key H. apply Hkeep.
      destruct (decide (k = key)) as [->|Hne].
      * apply lookup_insert_eq.
      * rewrite lookup_insert_ne by exact Hne. exact H.
Qed.

(** Without a previous aggregate every change is the "not applicable" one. *)
Lemma calc_changes_no_previous (curr_metrics : Metrics.t) :
  exists changes,
    calc_changes curr_metrics None = Ok changes
    /\ forall key, In key change_keys -> changes !! key = Some not_applicable.
Proof.
  unfold calc_changes.
  destruct (for_each_no_previous curr_metrics false count_keys) with (changes0 := (∅ : gmap string ChangeResult))
    as [changes1 [-> [Hin1 _]]].
  { intros key H. apply in_or_app. left. exact H. }
  cbn [mbind result_bind].
  destruct (for_each_no_previous curr_metrics true rate_keys) with (changes0 := changes1)
    as [changes2 [-> [Hin2 Hkeep]]].
  { intros key H. apply in_or_app. right. exact H. }
  exists changes2. split; [reflexivity|].
  intros key H. apply in_app_or in H. destruct H as [H|H].
  - apply Hkeep, Hin1. exact H.
  - apply Hin2. exact H.
Qed.

(** ** The loop over the publications *)

Section Loop.

Variable fetch : string -> Z -> Z -> list RawPost.
Variables curr_start curr_end prev_start prev_end : Z.

Let step := publication_step fetch curr_start curr_end prev_start prev_end.
Let curr_of := current_posts fetch curr_start curr_end.
Let prev_of := previous_posts fetch prev_start prev_end.

Lemma has_current_posts_metrics (pub : string * PubInfo) :
  has_current_posts fetch curr_start curr_end pub = false
  <-> period_metrics (curr_of pub) = None.
Proof.
  unfold has_current_posts, curr_of.
  destruct (current_posts fetch curr_start curr_end pub) as [|post posts].
  - split; reflexivity.
  - destruct (period_metrics_nonempty post posts) as [metrics ->].
    split; discriminate.
Qed.

(** One round of the loop: a publication without current posts leaves the
    report as it is; any other gets its entry and is added to the totals. *)
Lemma publication_step_returns (report_data : Report.t) (pub : string * PubInfo) :
  exists report' : Report.t,
    step report_data pub = Ok report'
    /\ match period_metrics (curr_of pub) with
       | None => report' = report_data
       | Some curr_metrics =>
           exists changes top_clicks,
             calc_changes curr_metrics (period_metrics (prev_of pub)) = Ok changes
             /\ Report.publications report'
                = <[pub.1 := {| Entry.current := with_post_titles curr_metrics;
                                Entry.previous := period_metrics (prev_of pub);
                                Entry.changes := changes;
                                Entry.top_clicks := top_clicks |}]>
                    (Report.publications report_data)
             /\ Report.totals_current report'
                = add_to_totals (Report.totals_current report_data) curr_metrics
             /\ Report.totals_previous report'
                = match period_metrics (prev_of pub) with
                  | Some prev_metrics =>
                      add_to_totals (Report.totals_previous report_data) prev_metrics
                  | None => Report.totals_previous report_data
                  end
             /\ Report.totals_changes report' = Report.totals_changes report_data
             /\ Report.current_period report' = Report.current_period report_data
             /\ Report.previous_period report' = Report.previous_period report_data
       end.
Proof.
  unfold step, publication_step.
  fold (current_posts fetch curr_start curr_end pub).
  fold (previous_posts fetch prev_start prev_end pub).
  fold (curr_of pub). fold (prev_of pub).
  destruct (normalised_returns (curr_of pub)) as [-> _].
  destruct (normalised_returns (prev_of pub)) as [-> _].
  cbn [mbind result_bind].
  rewrite !period_metrics_returns. cbn [mbind result_bind].
  destruct (period_metrics (curr_of pub)) as [curr_metrics|].
  - destruct (calc_changes_returns curr_metrics (period_metrics (prev_of pub)))
      as [changes Hchanges].
    rewrite Hchanges. cbn [mbind result_bind mret result_ret].
    eexists. split; [reflexivity|].
    eexists. eexists. split; [reflexivity|].
    cbn [Report.publications Report.totals_current Report.totals_previous
         Report.totals_changes Report.current_period Report.previous_period].
    repeat split; reflexivity.
  - eexists. split; reflexivity.
Qed.

(** A publication without current posts is a round that changes nothing. *)
Lemma publication_step_skips (report_data : Report.t) (pub : string * PubInfo) :
  has_current_posts fetch curr_start curr_end pub = false ->
  step report_data pub = Ok report_data.
Proof.
  intros H. apply has_current_posts_metrics in H.
  destruct (publication_step_returns report_data pub) as [report' [Hstep Hspec]].
  rewrite H in Hspec. congruence.
Qed.

(** The state after the loop: the labels and the totals' changes are
    untouched, and the open rates collected are those of the aggregates of
    the publications with current posts, in table order. *)
Lemma loop_returns (table : list (string * PubInfo)) :
  forall report_data : Report.t,
    exists report' : Report.t,
      for_each step table report_data = Ok report'
      /\ Totals.open_rates (Report.totals_current report')
         = Totals.open_rates (Report.totals_current report_data)
           ++ map Metrics.avg_open_rate
                (current_aggregates fetch curr_start curr_end table)
      /\ Totals.open_rates (Report.totals_previous report')
         = Totals.open_rates (Report.totals_previous report_data)
           ++ map Metrics.avg_open_rate
                (previous_aggregates fetch curr_start curr_end prev_start prev_end table).
Proof.
  induction table as [|pub table IH]; intros report_data.
  - exists report_data. simpl. rewrite !app_nil_r. repeat split; reflexivity.
  - destruct (publication_step_returns report_data pub) as [report1 [Hstep Hspec]].
    destruct (IH report1) as [report' [Hloop [Hcurr Hprev]]].
    exists report'. split; [simpl; rewrite Hstep; exact Hloop|].
    rewrite Hcurr, Hprev.
    unfold current_aggregates, previous_aggregates. cbn [omap list_omap].
    fold (current_aggregates fetch curr_start curr_end table).
    fold (previous_aggregates fetch curr_start curr_end prev_start prev_end table).
    fold (curr_of pub). fold (prev_of pub).
    destruct (period_metrics (curr_of pub)) as [curr_metrics|] eqn:Ecurr.
    + assert (Hhas : has_current_posts fetch curr_start curr_end pub = true).
      { destruct (has_current_posts fetch curr_start curr_end pub) eqn:E; [reflexivity|].
        apply has_current_posts_metrics in E. congruence. }
      rewrite Hhas.
      destruct Hspec as [changes [top [_ [_ [Hc [Hp _]]]]]].
      rewrite Hc, Hp. cbn [add_to_totals Totals.open_rates].
      destruct (period_metrics (prev_of pub)) as [prev_metrics|];
        cbn [add_to_totals Totals.open_rates map]; rewrite <- ?app_assoc; split; reflexivity.
    + assert (Hhas : has_current_posts fetch curr_start curr_end pub = false).
      { apply has_current_posts_metrics. exact Ecurr. }
      rewrite Hhas. subst report1. split; reflexivity.
Qed.

Lemma loop_keeps_invariants (table : list (string * PubInfo)) (report_data : Report.t) :
  null_previous_not_applicable report_data ->
  entries_have_posts fetch curr_start curr_end table report_data ->
  exists report' : Report.t,
    for_each step table report_data = Ok report'
    /\ null_previous_not_applicable report'
    /\ entries_have_posts fetch curr_start curr_end table report'.
Proof.
  intros H1 H2.
  destruct (for_each_invariant
              (fun r => null_previous_not_applicable r
                        /\ entries_have_posts fetch curr_start curr_end table r)
              step table) with (acc := report_data) as [report' [Hloop [P1 P2]]].
  - intros acc pub Hin [Pa Pb].
    destruct (publication_step_returns acc pub) as [acc' [Hstep Hspec]].
    exists acc'. split; [exact Hstep|].
    destruct (period_metrics (curr_of pub)) as [curr_metrics|] eqn:Ecurr;
      [|subst acc'; split; assumption].
    destruct Hspec as [changes [top [Hchanges [Hpubs _]]]].
    split.
    + intros pub_key entry Hlookup Hnone key Hkey. rewrite Hpubs in Hlookup.
      destruct (decide (pub.1 = pub_key)) as [<-|Hne].
      * rewrite lookup_insert_eq in Hlookup. injection Hlookup as <-.
        cbn [Entry.previous Entry.changes] in *. rewrite Hnone in Hchanges.
        destruct (calc_changes_no_previous curr_metrics) as [changes0 [H0 Hna]].
        assert (changes = changes0) as -> by congruence.
        apply Hna. exact Hkey.
      * rewrite lookup_insert_ne in Hlookup by exact Hne.
        exact (Pa pub_key entry Hlookup Hnone key Hkey).
    + intros pub_key Hsome. rewrite Hpubs in Hsome.
      destruct (decide (pub.1 = pub_key)) as [<-|Hne].
      * exists pub.2. destruct pub as [k info]. cbn [fst snd]. split; [exact Hin|].
        destruct (has_current_posts fetch curr_start curr_end (k, info)) eqn:E;
          [reflexivity|].
        apply has_current_posts_metrics in E. congruence.
      * rewrite lookup_insert_ne in Hsome by exact Hne. exact (Pb pub_key Hsome).
  - split; assumption.
  - exists report'. split; [exact Hloop|]. split; assumption.
Qed.

(** Rounds for other publications leave a publication's entry alone. *)
Lemma loop_keeps_other_entries (table : list (string * PubInfo)) (pub_key : string) :
  ~ In pub_key (map fst table) ->
  forall report_data report',
    for_each step table report_data = Ok report' ->
    Report.publications report' !! pub_key = Report.publications report_data !! pub_key.
Proof.
  induction table as [|pub table IH]; intros Hnot report_data report' Hloop.
  - simpl in Hloop. congruence.
  - simpl in Hloop, Hnot.
    destruct (publication_step_returns report_data pub) as [report1 [Hstep Hspec]].
    rewrite Hstep in Hloop. cbn [mbind result_bind] in Hloop.
    rewrite (IH (fun H => Hnot (or_intror H)) report1 report' Hloop).
    destruct (period_metrics (curr_of pub)); [|congruence].
    destruct Hspec as [changes [top [_ [-> _]]]].
    apply lookup_insert_ne. intros Heq. apply Hnot. left. exact Heq.
Qed.

(** A publication with current posts has an entry, and the entry holds the
    aggregate of its previous period. *)
Lemma loop_enters_publication (table : list (string * PubInfo)) :
  NoDup (map fst table) ->
  forall report_data report',
    for_each step table report_data = Ok report' ->
    forall pub, In pub table ->
      has_current_posts fetch curr_start curr_end pub = true ->
      exists entry, Report.publications report' !! pub.1 = Some entry
                    /\ Entry.previous entry = period_metrics (prev_of pub).
Proof.
  induction table as [|first table IH]; intros Hnodup report_data report' Hloop pub Hin Hhas;
    [contradiction|].
  simpl in Hloop. apply NoDup_cons in Hnodup. destruct Hnodup as [Hfresh Hnodup].
  destruct (publication_step_returns report_data first) as [report1 [Hstep Hspec]].
  rewrite Hstep in Hloop. cbn [mbind result_bind] in Hloop.
  destruct Hin as [<- | Hin].
  - rewrite (loop_keeps_other_entries table first.1) with (report_data := report1)
      (report' := report'); [|rewrite <- list_elem_of_In; exact Hfresh | exact Hloop].
    destruct (period_metrics (curr_of first)) as [curr_metrics|] eqn:Ecurr.
    + destruct Hspec as [changes [top [_ [-> _]]]].
      eexists. split; [apply lookup_insert_eq | reflexivity].
    + apply has_current_posts_metrics in Ecurr. congruence.
  - exact (IH Hnodup report1 report' Hloop pub Hin Hhas).
Qed.

End Loop.

(** ** The totals *)

Lemma mean_or_zero_returns (rates : list pynum) :
  exists avg : pynum,
    mean_or_zero rates = Ok avg
    /\ (rates = [] -> avg = PyInt 0)
    /\ (rates <> [] -> (py_Q avg == mean (map py_Q rates))%Q).
Proof.
  destruct rates as [|rate rates].
  - exists (PyInt 0). split; [reflexivity|]. split; [reflexivity | congruence].
  - unfold mean_or_zero. rewrite Aggregator.truediv_count.
    eexists. split; [reflexivity|]. split; [discriminate|]. intros _.
    cbn [py_Q]. rewrite exact_Q, py_Q_sum. unfold mean. rewrite length_map. reflexivity.
Qed.

Lemma finish_totals_returns (report_data : Report.t) :
  exists (report' : Report.t) (curr_avg prev_avg : pynum),
    finish_totals report_data = Ok report'
    /\ mean_or_zero (Totals.open_rates (Report.totals_current report_data)) = Ok curr_avg
    /\ mean_or_zero (Totals.open_rates (Report.totals_previous report_data)) = Ok prev_avg
    /\ Report.publications report' = Report.publications report_data
    /\ Totals.avg_open_rate (Report.totals_current report') = Some curr_avg
    /\ Totals.avg_open_rate (Report.totals_previous report') = Some prev_avg
    /\ Totals.open_rates (Report.totals_current report')
       = Totals.open_rates (Report.totals_current report_data)
    /\ Totals.open_rates (Report.totals_previous report')
       = Totals.open_rates (Report.totals_previous report_data).
Proof.
  unfold finish_totals.
  destruct (mean_or_zero_returns (Totals.open_rates (Report.totals_current report_data)))
    as [curr_avg [Hc _]].
  destruct (mean_or_zero_returns (Totals.open_rates (Report.totals_previous report_data)))
    as [prev_avg [Hp _]].
  rewrite Hc, Hp. cbn [mbind result_bind].
  repeat match goal with
         | |- context [calc_change ?c ?p ?b] =>
             let r := fresh "change" in
             destruct (Totality.calc_change_returns c p b) as [r ->];
             cbn [mbind result_bind]
         end.
  eexists. exists curr_avg, prev_avg. repeat split; reflexivity.
Qed.

(** ** The finished report *)

Lemma publications_keys_distinct : NoDup (map fst PUBLICATIONS).
Proof.
  simpl. apply NoDup_cons. split.
  - rewrite list_elem_of_In. simpl. intros [H|[]]. discriminate.
  - apply NoDup_cons. split; [rewrite list_elem_of_In; intros [] | apply NoDup_nil_2].
Qed.

Lemma distinct_keys_same_value {A B : Type} (table : list (A * B)) (k : A) (x y : B) :
  NoDup (map fst table) -> In (k, x) table -> In (k, y) table -> x = y.
Proof.
  induction table as [|[k' z] table IH]; intros Hnodup Hx Hy; [contradiction|].
  simpl in Hnodup. apply NoDup_cons in Hnodup. destruct Hnodup as [Hfresh Hnodup].
  rewrite list_elem_of_In in Hfresh.
  destruct Hx as [Hx | Hx], Hy as [Hy | Hy].
  - congruence.
  - injection Hx as -> ->. exfalso. apply Hfresh.
    change k with (fst (k, y)). apply in_map. exact Hy.
  - injection Hy as -> ->. exfalso. apply Hfresh.
    change k with (fst (k, x)). apply in_map. exact Hx.
  - exact (IH Hnodup Hx Hy).
Qed.

Lemma current_aggregates_length (fetch : string -> Z -> Z -> list RawPost)
    (curr_start curr_end : Z) (table : list (string * PubInfo)) :
  length (current_aggregates fetch curr_start curr_end table)
  = length (List.filter (has_current_posts fetch curr_start curr_end) table).
Proof.
  unfold current_aggregates. induction table as [|pub table IH]; [reflexivity|].
  cbn [omap list_omap List.filter].
  destruct (has_current_posts fetch curr_start curr_end pub) eqn:E.
  - destruct (period_metrics (current_posts fetch curr_start curr_end pub)) eqn:Em.
    + simpl. f_equal. exact IH.
    + apply has_current_posts_metrics in Em. congruence.
  - apply has_current_posts_metrics in E. rewrite E. exact IH.
Qed.

Section Finished.

Variable fetch : string -> Z -> Z -> list RawPost.
Variables curr_start curr_end prev_start prev_end : Z.
Variables current_label previous_label : string.

Let build :=
  build_report_data fetch curr_start curr_end prev_start prev_end
    current_label previous_label.

(** What holds of the report built from any publication table. *)
Lemma build_report_data_returns (table : list (string * PubInfo)) :
  exists (report : Report.t) (curr_avg prev_avg : pynum),
    build table = Ok report
    /\ build (List.filter (has_current_posts fetch curr_start curr_end) table) = Ok report
    /\ null_previous_not_applicable report
    /\ entries_have_posts fetch curr_start curr_end table report
    /\ (NoDup (map fst table) ->
        forall pub, In pub table ->
          has_current_posts fetch curr_start curr_end pub = true ->
          exists entry,
            Report.publications report !! pub.1 = Some entry
            /\ Entry.previous entry
               = period_metrics (previous_posts fetch prev_start prev_end pub))
    /\ Totals.open_rates (Report.totals_current report)
       = map Metrics.avg_open_rate (current_aggregates fetch curr_start curr_end table)
    /\ Totals.open_rates (Report.totals_previous report)
       = map Metrics.avg_open_rate
           (previous_aggregates fetch curr_start curr_end prev_start prev_end table)
    /\ Totals.avg_open_rate (Report.totals_current report) = Some curr_avg
    /\ Totals.avg_open_rate (Report.totals_previous report) = Some prev_avg
    /\ mean_or_zero (Totals.open_rates (Report.totals_current report)) = Ok curr_avg
    /\ mean_or_zero (Totals.open_rates (Report.totals_previous report)) = Ok prev_avg.
Proof.
  unfold build, build_report_data.
  set (report0 := {| Report.current_period := current_label;
                     Report.previous_period := previous_label;
                     Report.publications := ∅;
                     Report.totals_current := empty_totals;
                     Report.totals_previous := empty_totals;
                     Report.totals_changes := ∅ |}).
  rewrite <- (for_each_skip (has_current_posts fetch curr_start curr_end)
                (publication_step fetch curr_start curr_end prev_start prev_end) table
                (fun acc x => publication_step_skips fetch curr_start curr_end
                                prev_start prev_end acc x) report0).
  destruct (loop_keeps_invariants fetch curr_start curr_end prev_start prev_end
              table report0) as [report1 [Hloop [Hna Hposts]]].
  { intros k e H. cbn in H. rewrite lookup_empty in H. discriminate. }
  { intros k [e H]. cbn in H. rewrite lookup_empty in H. discriminate. }
  destruct (loop_returns fetch curr_start curr_end prev_start prev_end table report0)
    as [report1' [Hloop' [Hcurr Hprev]]].
  assert (report1' = report1) as -> by congruence.
  destruct (finish_totals_returns report1)
    as [report [curr_avg [prev_avg [Hfin [Hc [Hp [Hpubs [Hca [Hpa [Hco Hpo]]]]]]]]]].
  exists report, curr_avg, prev_avg.
  rewrite Hloop. cbn [mbind result_bind].
  split; [exact Hfin|]. split; [exact Hfin|].
  split; [|split; [|split; [|split; [|split; [|split; [|split; [|split]]]]]]].
  - intros k e H. rewrite Hpubs in H. exact (Hna k e H).
  - intros k H. rewrite Hpubs in H. exact (Hposts k H).
  - intros Hnodup pub Hin Hhas. rewrite Hpubs.
    exact (loop_enters_publication fetch curr_start curr_end prev_start prev_end
             table Hnodup report0 report1 Hloop pub Hin Hhas).
  - rewrite Hco, Hcurr. reflexivity.
  - rewrite Hpo, Hprev. reflexivity.
  - exact Hca.
  - exact Hpa.
  - rewrite Hco. exact Hc.
  - rewrite Hpo. exact Hp.
Qed.

End Finished.

(** ** Properties of the finished report *)

Local Open Scope Q_scope.

(** C2.  The aggregate of an empty list is [None]; and in the weekly and
    the monthly report, an entry whose previous aggregate is [None] has the
    "not applicable" result [{value: 0, display: "N/A", positive: True}] for
    every one of its nine per-metric changes, each being computed against a
    previous value of [0].  A publication of the table with posts in the
    current period and none in the previous one has such an entry. *)
Theorem null_previous_aggregate_is_not_applicable
    (fetch : string -> Z -> Z -> list RawPost)
    (curr_start curr_end prev_start prev_end : Z) (current_label previous_label : string) :
  calc_metrics [] = Ok None
  /\ (forall (curr_metrics : Metrics.t) (is_percentage : bool)
             (changes : gmap string ChangeResult) (key : string),
        In key change_keys ->
        change_step curr_metrics None is_percentage changes key
        = Ok (<[key := not_applicable]> changes))
  /\ exists report : Report.t,
       generate_weekly_report fetch curr_start curr_end prev_start prev_end
         current_label previous_label = Ok report
       /\ generate_monthly_report fetch curr_start curr_end prev_start prev_end
            current_label previous_label = Ok report
       /\ (forall (pub_key : string) (entry : Entry.t),
             Report.publications report !! pub_key = Some entry ->
             Entry.previous entry = None ->
             forall key, In key change_keys ->
                         Entry.changes entry !! key = Some not_applicable)
       /\ (forall pub_key pub_info,
             In (pub_key, pub_info) PUBLICATIONS ->
             fetch (id pub_info) curr_start curr_end <> [] ->
             fetch (id pub_info) prev_start prev_end = [] ->
             exists entry, Report.publications report !! pub_key = Some entry
                           /\ Entry.previous entry = None).
Proof.
  split; [reflexivity|]. split; [exact change_step_no_previous|].
  destruct (build_report_data_returns fetch curr_start curr_end prev_start prev_end
              current_label previous_label PUBLICATIONS)
    as [report [curr_avg [prev_avg [Hbuild [_ [Hna [_ [Henter _]]]]]]]].
  exists report. split; [exact Hbuild|]. split; [exact Hbuild|]. split; [exact Hna|].
  intros pub_key pub_info Hin Hcurr Hprev.
  destruct (Henter publications_keys_distinct (pub_key, pub_info) Hin) as [entry [He Hp]].
  - unfold has_current_posts, current_posts. cbn [snd].
    destruct (fetch (id pub_info) curr_start curr_end); [congruence | reflexivity].
  - exists entry. split; [exact He|]. rewrite Hp.
    unfold previous_posts. cbn [snd]. rewrite Hprev. reflexivity.
Qed.

(** C7.  In the weekly and the monthly report the combined average open
    rate of a period is the arithmetic mean of the per-publication average
    open rates: one summand for each publication that entered the totals of
    that period (for the current period, each publication with current
    posts), divided by the number of those publications; it is the int [0]
    when there is none.  Posts are not counted. *)
Theorem combined_open_rate_is_mean_over_publications
    (fetch : string -> Z -> Z -> list RawPost)
    (curr_start curr_end prev_start prev_end : Z) (current_label previous_label : string) :
  let current_rates :=
    map Metrics.avg_open_rate (current_aggregates fetch curr_start curr_end PUBLICATIONS) in
  let previous_rates :=
    map Metrics.avg_open_rate
      (previous_aggregates fetch curr_start curr_end prev_start prev_end PUBLICATIONS) in
  exists (report : Report.t) (curr_avg prev_avg : pynum),
    generate_weekly_report fetch curr_start curr_end prev_start prev_end
      current_label previous_label = Ok report
    /\ generate_monthly_report fetch curr_start curr_end prev_start prev_end
         current_label previous_label = Ok report
    /\ Totals.open_rates (Report.totals_current report) = current_rates
    /\ Totals.open_rates (Report.totals_previous report) = previous_rates
    /\ length current_rates
       = length (List.filter (has_current_posts fetch curr_start curr_end) PUBLICATIONS)
    /\ Totals.avg_open_rate (Report.totals_current report) = Some curr_avg
    /\ Totals.avg_open_rate (Report.totals_previous report) = Some prev_avg
    /\ (current_rates = [] -> curr_avg = PyInt 0)
    /\ (current_rates <> [] -> py_Q curr_avg == mean (map py_Q current_rates))
    /\ (previous_rates = [] -> prev_avg = PyInt 0)
    /\ (previous_rates <> [] -> py_Q prev_avg == mean (map py_Q previous_rates)).
Proof.
  intros current_rates previous_rates.
  destruct (build_report_data_returns fetch curr_start curr_end prev_start prev_end
              current_label previous_label PUBLICATIONS)
    as [report [curr_avg [prev_avg
         [Hbuild [_ [_ [_ [_ [Hcurr [Hprev [Hca [Hpa [Hcm Hpm]]]]]]]]]]]]].
  exists report, curr_avg, prev_avg.
  split; [exact Hbuild|]. split; [exact Hbuild|].
  split; [exact Hcurr|]. split; [exact Hprev|].
  split; [unfold current_rates; rewrite length_map; apply current_aggregates_length|].
  split; [exact Hca|]. split; [exact Hpa|].
  rewrite Hcurr in Hcm. rewrite Hprev in Hpm.
  fold current_rates in Hcm. fold previous_rates in Hpm.
  destruct (mean_or_zero_returns current_rates) as [c [Hc [Hc0 Hc1]]].
  destruct (mean_or_zero_returns previous_rates) as [q [Hq [Hq0 Hq1]]].
  assert (c = curr_avg) as -> by congruence.
  assert (q = prev_avg) as -> by congruence.
  repeat split; assumption.
Qed.

(** C9.  A publication of the table without posts in the current period is
    left out of the weekly and of the monthly report: the report is the one
    built from the table without such publications, so that nothing of
    theirs, previous-period figures included, reaches the entries or the
    totals; and the [publications] map has no entry under their key. *)
Theorem publication_without_current_posts_is_left_out
    (fetch : string -> Z -> Z -> list RawPost)
    (curr_start curr_end prev_start prev_end : Z) (current_label previous_label : string) :
  exists report : Report.t,
    generate_weekly_report fetch curr_start curr_end prev_start prev_end
      current_label previous_label = Ok report
    /\ generate_monthly_report fetch curr_start curr_end prev_start prev_end
         current_label previous_label = Ok report
    /\ build_report_data fetch curr_start curr_end prev_start prev_end
         current_label previous_label
         (List.filter (has_current_posts fetch curr_start curr_end) PUBLICATIONS)
       = Ok report
    /\ forall pub_key pub_info,
         In (pub_key, pub_info) PUBLICATIONS ->
         fetch (id pub_info) curr_start curr_end = [] ->
         Report.publications report !! pub_key = None.
Proof.
  destruct (build_report_data_returns fetch curr_start curr_end prev_start prev_end
              current_label previous_label PUBLICATIONS)
    as [report [curr_avg [prev_avg [Hbuild [Hfiltered [_ [Hposts _]]]]]]].
  exists report. split; [exact Hbuild|]. split; [exact Hbuild|].
  split; [exact Hfiltered|].
  intros pub_key pub_info Hin Hempty.
  destruct (Report.publications report !! pub_key) as [entry|] eqn:E; [|reflexivity].
  exfalso. destruct (Hposts pub_key) as [info' [Hin' Hhas]].
  - rewrite E. eexists. reflexivity.
  - assert (info' = pub_info) as ->
      by exact (distinct_keys_same_value _ _ _ _ publications_keys_distinct Hin' Hin).
    unfold has_current_posts, current_posts in Hhas. cbn [snd] in Hhas.
    rewrite Hempty in Hhas. discriminate.
Qed.

(** One post opened by 10% and three opened by 50%: the combined average is
    30, the mean of 10 and 50, where the mean over the four posts is 40. *)
Lemma combined_open_rate_is_mean_over_publications_witness :
  exists (report : Report.t) (avg : pynum),
    generate_weekly_report Samples.uneven_fetch 100 199 0 99 "now" "before" = Ok report
    /\ Totals.avg_open_rate (Report.totals_current report) = Some avg
    /\ py_Q avg == 30
    /\ mean (map (fun p => py_Q (Post.open_rate p))
               (normalised (Samples.uneven_fetch "pub_88b8ccea-c311-4381-a49c-91848583ba9e" 100 199
                            ++ Samples.uneven_fetch "pub_2dd3324c-fa75-40a2-acf2-df2acff63d10" 100 199)))
       == 40.
Proof.
  destruct (combined_open_rate_is_mean_over_publications
              Samples.uneven_fetch 100 199 0 99 "now" "before")
    as [report [curr_avg [prev_avg [Hw [_ [_ [_ [_ [Hca [_ [_ [Hmean _]]]]]]]]]]]].
  exists report, curr_avg. split; [exact Hw|]. split; [exact Hca|]. split.
  - rewrite Hmean; [vm_compute; reflexivity | vm_compute; discriminate].
  - vm_compute. reflexivity.
Defined.

(** The second publication has a post now and none before: its entry has no
    previous aggregate and "N/A" for its changes. *)
Lemma null_previous_aggregate_is_not_applicable_witness :
  exists (report : Report.t) (entry : Entry.t),
    generate_weekly_report Samples.lopsided_fetch 100 199 0 99 "now" "before" = Ok report
    /\ Report.publications report !! "EP Daily" = Some entry
    /\ Entry.previous entry = None
    /\ display <$> Entry.changes entry !! "posts_sent" = Some "N/A"
    /\ display <$> Entry.changes entry !! "avg_open_rate" = Some "N/A".
Proof.
  destruct (null_previous_aggregate_is_not_applicable
              Samples.lopsided_fetch 100 199 0 99 "now" "before")
    as [_ [_ [report [Hw [_ [Hna Henter]]]]]].
  destruct (Henter "EP Daily"
              {| id := "pub_2dd3324c-fa75-40a2-acf2-df2acff63d10";
                 display_name := "El Planeta"; color := "#ea4335" |})
    as [entry [He Hp]].
  - right. left. reflexivity.
  - discriminate.
  - reflexivity.
  - exists report, entry. split; [exact Hw|]. split; [exact He|]. split; [exact Hp|].
    split; rewrite (Hna "EP Daily" entry He Hp); try reflexivity.
    + left. reflexivity.
    + apply in_or_app. right. left. reflexivity.
Defined.

(** The first publication has two posts in the previous period and none in
    the current one: it has no entry, and the previous totals count no post. *)
Lemma publication_without_current_posts_is_left_out_witness :
  exists report : Report.t,
    generate_weekly_report Samples.lopsided_fetch 100 199 0 99 "now" "before" = Ok report
    /\ length (Samples.lopsided_fetch "pub_88b8ccea-c311-4381-a49c-91848583ba9e" 0 99) = 2%nat
    /\ Report.publications report !! "ETL Daily" = None
    /\ Totals.posts (Report.totals_previous report) = 0%Z
    /\ Totals.open_rates (Report.totals_previous report) = []
    /\ Totals.posts (Report.totals_current report) = 1%Z.
Proof.
  destruct (publication_without_current_posts_is_left_out
              Samples.lopsided_fetch 100 199 0 99 "now" "before")
    as [report [Hw [_ [Hfiltered Hnone]]]].
  exists report. split; [exact Hw|]. split; [reflexivity|]. split.
  - apply (Hnone "ETL Daily"
             {| id := "pub_88b8ccea-c311-4381-a49c-91848583ba9e";
                display_name := "El Tiempo Latino"; color := "#1a73e8" |}).
    + left. reflexivity.
    + reflexivity.
  - vm_compute in Hfiltered. injection Hfiltered as <-.
    repeat split; reflexivity.
Defined.

End Builders.

(* ===================================================================== *)
(** * More on the comparator                                              *)
(* ===================================================================== *)

Module ComparatorMore.
Import GenerateReport PyFacts.

Local Open Scope Q_scope.



(** X2.  The relative change of two positive values, taken in both directions:
    each direction is [positive] exactly when it does not go down, so for
    different values exactly one is, and the two percentages have opposite
    signs.  They are not opposite numbers: each is the change relative to its
    own previous value, within the rounding of the float operations. *)
Theorem calc_change_both_directions (current previous : pynum) :
  0 < py_Q current -> 0 < py_Q previous ->
  exists forth back : ChangeResult,
    calc_change current previous false = Ok forth
    /\ calc_change previous current false = Ok back
    /\ (positive forth = true <-> py_Q previous <= py_Q current)
    /\ (positive back = true <-> py_Q current <= py_Q previous)
    /\ (~ py_Q current == py_Q previous -> positive back = negb (positive forth))
    /\ (0 < py_Q (value forth) <-> py_Q (value back) < 0)
    /\ (py_Q (value forth) < 0 <-> 0 < py_Q (value back))
    /\ Qabs (py_Q (value forth) - (py_Q current - py_Q previous) / py_Q previous * 100)
       <= Qabs ((py_Q current - py_Q previous) / py_Q previous * 100) * (1 # 2 ^ 51)
    /\ Qabs (py_Q (value back) - (py_Q previous - py_Q current) / py_Q current * 100)
       <= Qabs ((py_Q previous - py_Q current) / py_Q current * 100) * (1 # 2 ^ 51).
Proof.
  intros Hc Hp.
  assert (Hcnz : ~ py_Q current == 0) by lra.
  assert (Hpnz : ~ py_Q previous == 0) by lra.
  destruct (Comparator.relative_change_returns current previous Hpnz)
    as [qf [Hqf [Hfnear [Hfpos [Hfneg _]]]]].
  destruct (Comparator.relative_change_returns previous current Hcnz)
    as [qb [Hqb [Hbnear [Hbpos [Hbneg _]]]]].
  unfold calc_change, py_eq.
  assert (Ec : Qeq_bool (py_Q current) (py_Q (PyInt 0)) = false)
    by (apply Qeq_bool_false; exact Hcnz).
  assert (Ep : Qeq_bool (py_Q previous) (py_Q (PyInt 0)) = false)
    by (apply Qeq_bool_false; exact Hpnz).
  rewrite Ec, Ep, Hqf, Hqb. cbn [mbind result_bind mret result_ret].
  eexists. eexists. split; [reflexivity|]. split; [reflexivity|].
  cbn [value positive]. unfold py_ge. rewrite !Qle_bool_iff.
  change (py_Q (PyInt 0)) with 0.
  set (vf := py_Q (float_mul qf (PyInt 100))) in *.
  set (vb := py_Q (float_mul qb (PyInt 100))) in *.
  destruct (Qdiv_sign_pos (py_Q current - py_Q previous) (py_Q previous) Hp) as [F1 F2].
  destruct (Qdiv_sign_pos (py_Q previous - py_Q current) (py_Q current) Hc) as [B1 B2].
  assert (Hforth : 0 <= vf <-> py_Q previous <= py_Q current).
  { rewrite Hfpos, F1. split; intros H; lra. }
  assert (Hback : 0 <= vb <-> py_Q current <= py_Q previous).
  { rewrite Hbpos, B1. split; intros H; lra. }
  assert (Hforth' : vf <= 0 <-> py_Q current <= py_Q previous).
  { rewrite Hfneg, F2. split; intros H; lra. }
  assert (Hback' : vb <= 0 <-> py_Q previous <= py_Q current).
  { rewrite Hbneg, B2. split; intros H; lra. }
  split; [exact Hforth|]. split; [exact Hback|].
  split; [|split; [|split; [|split; [exact Hfnear | exact Hbnear]]]].
  - intros Hne.
    destruct (Qle_bool 0 vf) eqn:E1; destruct (Qle_bool 0 vb) eqn:E2;
      try reflexivity; exfalso.
    + apply Qle_bool_iff in E1, E2. apply Hforth in E1. apply Hback in E2.
      apply Hne. apply Qle_antisym; assumption.
    + assert (H1 : ~ py_Q previous <= py_Q current).
      { intros H. apply Hforth, Qle_bool_iff in H. congruence. }
      assert (H2 : ~ py_Q current <= py_Q previous).
      { intros H. apply Hback, Qle_bool_iff in H. congruence. }
      apply Qnot_le_lt in H1, H2. lra.
  - split; intros H; apply Qnot_le_lt; intros Hle.
    + apply Hback, Hforth' in Hle. lra.
    + apply Hforth', Hback in Hle. lra.
  - split; intros H; apply Qnot_le_lt; intros Hle.
    + apply Hback', Hforth in Hle. lra.
    + apply Hforth, Hback' in Hle. lra.
Qed.

Lemma calc_change_both_directions_witness :
  exists forth back,
    calc_change (PyInt 100) (PyInt 50) false = Ok forth
    /\ calc_change (PyInt 50) (PyInt 100) false = Ok back
    /\ positive forth = true /\ positive back = false
    /\ py_Q (value forth) == 100 /\ py_Q (value back) == -50.
Proof.
  destruct (calc_change_both_directions (PyInt 100) (PyInt 50))
    as [forth [back [Hf [Hb _]]]]; [reflexivity | reflexivity |].
  exists forth, back. vm_compute in Hf, Hb. injection Hf as <-. injection Hb as <-.
  repeat split; reflexivity.
Defined.

End ComparatorMore.

(* ===================================================================== *)
(** * Sorting and the top posts                                           *)
(* ===================================================================== *)

Module Sorting.
Import GenerateReport PyFacts.

Local Open Scope Q_scope.

Section Descending.

Context {A : Type}.
Variable key : A -> Q.

(** [a] may stand before [b] in a descending list. *)
Let desc (a b : A) : Prop := key b <= key a.

Lemma insert_desc_permutation (x : A) (xs : list A) :
  Permutation (insert_desc key x xs) (x :: xs).
Proof.
  induction xs as [|y xs IH]; simpl; [reflexivity|].
  destruct (Qlt_bool (key x) (key y)); [|reflexivity].
  rewrite IH. apply perm_swap.
Qed.

Lemma insert_desc_sorted (x : A) (xs : list A) :
  StronglySorted desc xs -> StronglySorted desc (insert_desc key x xs).
Proof.
  induction xs as [|y xs IH]; intros Hs; simpl.
  - constructor; constructor.
  - apply StronglySorted_inv in Hs. destruct Hs as [Hs Hy].
    destruct (Qlt_bool (key x) (key y)) eqn:E.
    + apply Qlt_bool_iff in E. constructor; [apply IH; exact Hs|].
      apply (Permutation_Forall (Permutation_sym (insert_desc_permutation x xs))).
      constructor; [apply Qlt_le_weak; exact E | exact Hy].
    + assert (Hyx : key y <= key x).
      { apply Qnot_lt_le. intros H. apply Qlt_bool_iff in H. congruence. }
      constructor; [constructor; assumption|].
      constructor; [exact Hyx|].
      eapply List.Forall_impl; [|exact Hy]. intros z Hz. unfold desc in *.
      eapply Qle_trans; eassumption.
Qed.

Lemma insert_desc_stable (k : Q) (x : A) (xs : list A) :
  List.filter (fun a => Qeq_bool (key a) k) (insert_desc key x xs)
  = List.filter (fun a => Qeq_bool (key a) k) (x :: xs).
Proof.
  induction xs as [|y xs IH]; [reflexivity|].
  cbn [insert_desc]. destruct (Qlt_bool (key x) (key y)) eqn:E; [|reflexivity].
  apply Qlt_bool_iff in E. cbn [List.filter] in *. rewrite IH.
  destruct (Qeq_bool (key x) k) eqn:Ex; [|reflexivity].
  destruct (Qeq_bool (key y) k) eqn:Ey; [|reflexivity].
  exfalso. apply Qeq_bool_iff in Ex, Ey. rewrite Ex, Ey in E. exact (Qlt_irrefl _ E).
Qed.

Lemma sorted_reverse_permutation (xs : list A) : Permutation (sorted_reverse key xs) xs.
Proof.
  induction xs as [|x xs IH]; [reflexivity|].
  unfold sorted_reverse in *. simpl. rewrite insert_desc_permutation.
  apply perm_skip. exact IH.
Qed.

Lemma sorted_reverse_sorted (xs : list A) : StronglySorted desc (sorted_reverse key xs).
Proof.
  induction xs as [|x xs IH]; [constructor|].
  unfold sorted_reverse in *. simpl. apply insert_desc_sorted. exact IH.
Qed.

Lemma sorted_reverse_stable (k : Q) (xs : list A) :
  List.filter (fun a => Qeq_bool (key a) k) (sorted_reverse key xs)
  = List.filter (fun a => Qeq_bool (key a) k) xs.
Proof.
  induction xs as [|x xs IH]; [reflexivity|].
  unfold sorted_reverse in *. simpl fold_right. rewrite insert_desc_stable.
  cbn [List.filter]. rewrite IH. reflexivity.
Qed.

End Descending.

(** X3.  [sorted(xs, key=key, reverse=True)], as the aggregator and the
    builders use it, rearranges the list in descending order of the key and
    keeps the elements of equal key in their original order. *)
Theorem sorted_reverse_is_stable_and_descending {A : Type} (key : A -> Q) (xs : list A) :
  Permutation (sorted_reverse key xs) xs
  /\ StronglySorted (fun a b => key b <= key a) (sorted_reverse key xs)
  /\ forall k : Q,
       List.filter (fun a => Qeq_bool (key a) k) (sorted_reverse key xs)
       = List.filter (fun a => Qeq_bool (key a) k) xs.
Proof.
  split; [apply sorted_reverse_permutation|].
  split; [apply sorted_reverse_sorted | intros k; apply sorted_reverse_stable].
Qed.

(** The aggregate's [top_posts] spelled out. *)
Lemma calc_metrics_top_posts (posts : list Post.t) :
  posts <> [] ->
  exists metrics : Metrics.t,
    calc_metrics posts = Ok (Some metrics)
    /\ Metrics.top_posts metrics
       = take 3 (sorted_reverse (fun x => py_Q (Post.open_rate x)) posts).
Proof.
  intros Hne. destruct posts as [|p ps]; [congruence|].
  unfold calc_metrics. rewrite !Aggregator.truediv_count.
  cbn [mbind result_bind mret result_ret]. eexists. split; reflexivity.
Qed.

(** X4.  The [top_posts] of an aggregate are the posts with the highest open
    rates: at most three, in descending order of open rate, no other post of
    the period having a higher rate than any of them. *)
Theorem top_posts_have_the_highest_open_rates (posts : list Post.t) :
  posts <> [] ->
  exists (metrics : Metrics.t) (others : list Post.t),
    calc_metrics posts = Ok (Some metrics)
    /\ Permutation posts (Metrics.top_posts metrics ++ others)
    /\ length (Metrics.top_posts metrics) = Nat.min 3 (length posts)
    /\ StronglySorted (fun a b => py_Q (Post.open_rate b) <= py_Q (Post.open_rate a))
         (Metrics.top_posts metrics)
    /\ forall top other,
         In top (Metrics.top_posts metrics) -> In other others ->
         py_Q (Post.open_rate other) <= py_Q (Post.open_rate top).
Proof.
  intros Hne. destruct (calc_metrics_top_posts posts Hne) as [metrics [Hm Htop]].
  set (key := fun x : Post.t => py_Q (Post.open_rate x)) in *.
  exists metrics, (drop 3 (sorted_reverse key posts)).
  pose proof (sorted_reverse_permutation key posts) as Hperm.
  pose proof (sorted_reverse_sorted key posts) as Hsorted.
  rewrite <- (take_drop 3 (sorted_reverse key posts)) in Hsorted.
  split; [exact Hm|]. rewrite Htop. split; [|split; [|split]].
  - rewrite take_drop. symmetry. exact Hperm.
  - rewrite length_take, (Permutation_length Hperm). reflexivity.
  - clear -Hsorted. induction (take 3 (sorted_reverse key posts)) as [|x l IH];
      [constructor|].
    simpl in Hsorted. apply StronglySorted_inv in Hsorted. destruct Hsorted as [H1 H2].
    constructor; [apply IH; exact H1|].
    apply Forall_app in H2. tauto.
  - intros top other Htop' Hother. clear -Hsorted Htop' Hother.
    induction (take 3 (sorted_reverse key posts)) as [|x l IH]; [contradiction|].
    simpl in Hsorted. apply StronglySorted_inv in Hsorted. destruct Hsorted as [H1 H2].
    destruct Htop' as [<- | Htop'].
    + apply Forall_app in H2. destruct H2 as [_ H2].
      rewrite List.Forall_forall in H2. exact (H2 other Hother).
    + exact (IH H1 Htop').
Qed.

(** Open rates 30.0, 46.58, 46.85, 46.77 in that order: the top three are
    46.85, 46.77, 46.58. *)
Lemma top_posts_have_the_highest_open_rates_witness :
  exists (metrics : Metrics.t) (others : list Post.t),
    calc_metrics Samples.four_rated = Ok (Some metrics)
    /\ map Post.title (Metrics.top_posts metrics) = ["a"; "b"; "c"]
    /\ length others = 1%nat.
Proof.
  destruct (top_posts_have_the_highest_open_rates Samples.four_rated)
    as [metrics [others [Hm [Hperm [Hlen _]]]]]; [discriminate|].
  exists metrics, others. split; [exact Hm|].
  apply Permutation_length in Hperm. rewrite length_app, Hlen in Hperm.
  vm_compute in Hm. injection Hm as <-. split; [reflexivity|].
  simpl in Hperm. lia.
Defined.

End Sorting.

(* ===================================================================== *)
(** * More on the fetcher                                                 *)
(* ===================================================================== *)

Module FetcherMore.
Import PyFacts.

Local Open Scope Z_scope.

Section AnyServer.

Variable key : string.
Variable requests_get : Request -> Response.
Variable url : string.
Variable expand : option (list string).
Variables start_ts end_ts : Z.

Lemma get_headers_unset : key = "" -> get_headers key = None.
Proof. intros ->. reflexivity. Qed.

(** Whatever the server answers and however much fuel there is: the requests
    sent are those for consecutive pages, at most one per unit of fuel; every
    post added to the result lies in the window; and the only exit is the one
    for a missing credential, taken before anything is sent. *)
Lemma fetch_loop_invariant (fuel : nat) :
  forall (page : Z) (all_posts : list RawPost) (sent : list Request),
    exists (n : nat) (added : list RawPost),
      (n <= fuel)%nat
      /\ (fetch_loop key requests_get fuel url expand start_ts end_ts page all_posts sent).1
         = sent ++ map (page_request key url expand) (page_numbers page n)
      /\ Forall (fun post => in_window start_ts end_ts post = true) added
      /\ match (fetch_loop key requests_get fuel url expand start_ts end_ts
                  page all_posts sent).2 with
         | Returned posts => posts = all_posts ++ added /\ key <> ""
         | SysExit code => code = 1 /\ key = "" /\ n = 0%nat
         | OutOfFuel => n = fuel
         end.
Proof.
  induction fuel as [|fuel IH]; intros page all_posts sent.
  - exists 0%nat, []. simpl. rewrite app_nil_r. repeat split; constructor.
  - cbn [fetch_loop]. destruct (String.eqb key "") eqn:Ekey.
    + apply String.eqb_eq in Ekey. rewrite (get_headers_unset Ekey).
      exists 0%nat, []. simpl. rewrite app_nil_r.
      split; [lia|]. split; [reflexivity|]. split; [constructor|]. auto.
    + apply String.eqb_neq in Ekey. rewrite (Fetcher.get_headers_set key Ekey).
      fold (page_request key url expand page).
      set (response := requests_get (page_request key url expand page)).
      assert (Hone : [page_request key url expand page]
                     = map (page_request key url expand) (page_numbers page 1)).
      { unfold page_numbers. simpl. rewrite Z.add_0_r. reflexivity. }
      destruct (negb (status_code response =? 200)).
      { exists 1%nat, []. cbn [fst snd]. rewrite app_nil_r, Hone.
        split; [lia|]. split; [reflexivity|]. split; [constructor|]. auto. }
      destruct (get (body_data response) []) as [|post posts] eqn:Eposts.
      { exists 1%nat, []. cbn [fst snd]. rewrite app_nil_r, Hone.
        split; [lia|]. split; [reflexivity|]. split; [constructor|]. auto. }
      set (kept := List.filter (in_window start_ts end_ts) (post :: posts)).
      assert (Hkept : Forall (fun p => in_window start_ts end_ts p = true) kept).
      { apply List.Forall_forall. intros p Hp. apply List.filter_In in Hp. tauto. }
      destruct (page >=? get (body_total_pages response) 1).
      { exists 1%nat, kept. cbn [fst snd]. rewrite Hone.
        split; [lia|]. split; [reflexivity|]. split; [exact Hkept|]. auto. }
      destruct (IH (page + 1) (all_posts ++ kept)
                  (sent ++ [page_request key url expand page]))
        as [n [added [Hn [Hsent [Hadded Hout]]]]].
      exists (S n), (kept ++ added).
      split; [lia|]. split; [|split].
      * rewrite Hsent, (Fetcher.page_numbers_succ page n), <- app_assoc. reflexivity.
      * apply Forall_app. split; assumption.
      * destruct (fetch_loop key requests_get fuel url expand start_ts end_ts
                    (page + 1) (all_posts ++ kept)
                    (sent ++ [page_request key url expand page])).2
          as [returned|code|].
        -- destruct Hout as [-> Hk]. rewrite <- app_assoc. auto.
        -- destruct Hout as [_ [Hk _]]. contradiction.
        -- lia.
Qed.

(** Pages that are answered, not empty and not final are read one after the
    other, each costing one unit of fuel. *)
Lemma fetch_loop_continues (n : nat) :
  forall (first : Z) (fuel : nat) (all_posts : list RawPost) (sent : list Request),
    key <> "" ->
    (forall j, first <= j < first + Z.of_nat n ->
               let response := requests_get (page_request key url expand j) in
               status_code response = 200
               /\ get (body_data response) [] <> []
               /\ j < get (body_total_pages response) 1) ->
    fetch_loop key requests_get (n + fuel) url expand start_ts end_ts first all_posts sent
    = fetch_loop key requests_get fuel url expand start_ts end_ts (first + Z.of_nat n)
        (all_posts
         ++ List.filter (in_window start_ts end_ts)
              (concat (map (fun j => get (body_data
                                            (requests_get (page_request key url expand j))) [])
                           (page_numbers first n))))
        (sent ++ map (page_request key url expand) (page_numbers first n)).
Proof.
  induction n as [|n IH]; intros first fuel all_posts sent Hkey Hpages.
  - simpl. rewrite Z.add_0_r, !app_nil_r. reflexivity.
  - cbn [Nat.add fetch_loop]. rewrite (Fetcher.get_headers_set key Hkey).
    fold (page_request key url expand first).
    destruct (Hpages first) as [Hok [Hne Hlt]]; [lia|]. cbn zeta in Hok, Hne, Hlt.
    rewrite Hok. simpl negb. cbn iota.
    destruct (get (body_data (requests_get (page_request key url expand first))) [])
      as [|post posts] eqn:Eposts; [congruence|].
    destruct (first >=? get (body_total_pages
                               (requests_get (page_request key url expand first))) 1)
      eqn:Ege.
    { apply Z.geb_le in Ege. lia. }
    rewrite (IH (first + 1) fuel _ _ Hkey).
    + rewrite (Fetcher.page_numbers_succ first n). cbn [map concat].
      rewrite Eposts, List.filter_app, <- !app_assoc.
      replace (first + 1 + Z.of_nat n) with (first + Z.of_nat (S n)) by lia.
      reflexivity.
    + intros j Hj. apply Hpages. lia.
Qed.

End AnyServer.

(** X5.  For every credential, server, amount of fuel and window, in both
    scripts: [fetch_posts] sends the requests for pages 1 to [n] for some [n]
    within the fuel, never returns a post published outside the window, and
    exits (with code 1) only for a missing credential, before sending
    anything. *)
Theorem fetch_posts_stays_in_window (key : string) (requests_get : Request -> Response)
    (fuel : nat) (publication_id : string) (start_ts end_ts : Z)
    (expand : option (list string)) :
  let fetched :=
    NewsletterReport.fetch_posts key requests_get fuel publication_id start_ts end_ts expand in
  GenerateReport.fetch_posts key requests_get fuel publication_id start_ts end_ts
  = NewsletterReport.fetch_posts key requests_get fuel publication_id start_ts end_ts
      (Some ["stats"; "clicks"])
  /\ (exists n : nat,
        (n <= fuel)%nat
        /\ fetched.1 = map (page_request key (posts_url publication_id) (sent_expand expand))
                          (page_numbers 1 n))
  /\ (forall posts post,
        fetched.2 = Returned posts -> In post posts ->
        start_ts <= get (post_publish_date post) 0 <= end_ts)
  /\ (forall code, fetched.2 = SysExit code -> code = 1 /\ key = "" /\ fetched.1 = [])
  /\ (key = "" -> (0 < fuel)%nat -> fetched = ([], SysExit 1)).
Proof.
  intros fetched. split; [reflexivity|].
  destruct (fetch_loop_invariant key requests_get (posts_url publication_id)
              (sent_expand expand) start_ts end_ts fuel 1 [] [])
    as [n [added [Hn [Hsent [Hadded Hout]]]]].
  change (fetch_loop key requests_get fuel (posts_url publication_id)
            (sent_expand expand) start_ts end_ts 1 [] []) with fetched in Hsent, Hout.
  split; [exists n; split; [exact Hn | exact Hsent]|]. split; [|split].
  - intros posts post Hret Hin. rewrite Hret in Hout. destruct Hout as [-> _].
    rewrite List.Forall_forall in Hadded. specialize (Hadded post Hin).
    unfold in_window in Hadded. apply andb_true_iff in Hadded.
    rewrite !Z.leb_le in Hadded. exact Hadded.
  - intros code Hexit. rewrite Hexit in Hout. destruct Hout as [-> [Hkey ->]].
    rewrite Hsent. auto.
  - intros -> Hfuel. destruct fuel as [|fuel]; [lia|]. reflexivity.
Qed.

(** X6.  When page [pages] is answered with a status other than 200, after
    pages that were answered, not empty and not final, [fetch_posts] has sent
    the requests for pages 1 to [pages] and returns the posts in the window of
    the pages before it: the failure is not retried and nothing is raised. *)
Theorem fetch_posts_keeps_pages_before_failure (key : string)
    (requests_get : Request -> Response) (publication_id : string) (start_ts end_ts : Z)
    (pages fuel : nat) :
  let request := page_request key (posts_url publication_id) (Some ["stats"; "clicks"]) in
  let posts_of := fun j => get (body_data (requests_get (request j))) [] in
  let total_pages_of := fun j => get (body_total_pages (requests_get (request j))) 1 in
  key <> "" ->
  (1 <= pages <= fuel)%nat ->
  (forall j, 1 <= j < Z.of_nat pages ->
             status_code (requests_get (request j)) = 200
             /\ posts_of j <> [] /\ j < total_pages_of j) ->
  status_code (requests_get (request (Z.of_nat pages))) <> 200 ->
  GenerateReport.fetch_posts key requests_get fuel publication_id start_ts end_ts
  = (map request (page_numbers 1 pages),
     Returned (List.filter (in_window start_ts end_ts)
                 (concat (map posts_of (page_numbers 1 (pages - 1)))))).
Proof.
  intros request posts_of total_pages_of Hkey Hpages Hgood Hbad.
  destruct pages as [|n]; [lia|].
  unfold GenerateReport.fetch_posts.
  replace fuel with (n + S (fuel - S n))%nat by lia.
  rewrite (fetch_loop_continues key requests_get (posts_url publication_id)
             (Some ["stats"; "clicks"]) start_ts end_ts n 1 (S (fuel - S n)) [] [] Hkey).
  - rewrite (Fetcher.fetch_loop_stops_on_error key requests_get (posts_url publication_id)
               (Some ["stats"; "clicks"]) start_ts end_ts Hkey).
    + simpl app.
      replace (S n - 1)%nat with n by lia.
      f_equal. unfold page_numbers. rewrite seq_S, map_app, map_app. simpl.
      reflexivity.
    + replace (1 + Z.of_nat n) with (Z.of_nat (S n)) by lia. exact Hbad.
  - intros j Hj. apply Hgood. lia.
Qed.

(** The first page has 100 posts, the second is answered with status 500:
    the 100 posts of the first page come back. *)
Lemma fetch_posts_keeps_pages_before_failure_witness :
  GenerateReport.fetch_posts "secret" Samples.failing_stub 5 "pub_1" 1767225600 1769903999
  = (map (page_request "secret" (posts_url "pub_1") (Some ["stats"; "clicks"])) [1; 2],
     Returned (Samples.stub_posts 0 100)).
Proof.
  rewrite (fetch_posts_keeps_pages_before_failure "secret" Samples.failing_stub "pub_1"
             1767225600 1769903999 2 5).
  - vm_compute. reflexivity.
  - discriminate.
  - lia.
  - intros j Hj. assert (j = 1) as -> by lia.
    split; [reflexivity|]. split; [discriminate | reflexivity].
  - discriminate.
Defined.

End FetcherMore.

(* ===================================================================== *)
(** * More on the normaliser and the aggregator                           *)
(* ===================================================================== *)

Module NormalizerMore.
Import GenerateReport NewsletterReport PyFacts.

Local Open Scope Q_scope.

(** ** Rounding to two decimals *)

Lemma py_round_2_value (f : pyfloat) :
  exists n : Z,
    (0 <= n)%Z
    /\ n = round_half_even (magnitude f * 100)
    /\ py_Q (py_round (PyFloat f) 2)
       == (if fneg f then - (inject_Z n / 100) else inject_Z n / 100).
Proof.
  exists (round_half_even (magnitude f * 100)).
  pose proof (Qabs_nonneg (fmag f)) as Hmag. fold (magnitude f) in Hmag.
  assert (Hn0 : (0 <= round_half_even (magnitude f * 100))%Z).
  { change 0%Z with (round_half_even 0). apply round_half_even_mono. lra. }
  split; [exact Hn0|]. split; [reflexivity|].
  cbn [py_round py_Q]. unfold float_Q. cbn [fneg].
  change (pow10 2) with 100%Z. change (inject_Z 100) with 100.
  set (n := round_half_even (magnitude f * 100)) in *.
  assert (Hm : magnitude {| fneg := fneg f; fmag := Qred (n # Z.to_pos 100) |}
               == inject_Z n / 100).
  { unfold magnitude. cbn [fmag]. rewrite Qred_correct.
    rewrite Qabs_pos by (unfold Qle; simpl; lia).
    unfold Qdiv, Qinv, Qmult, Qeq, inject_Z; simpl. lia. }
  destruct (fneg f); rewrite Hm; reflexivity.
Qed.

(** [round(x, 2)] moves a number by at most half a hundredth, to a multiple
    of a hundredth. *)
Lemma py_round_2_near (x : pynum) :
  Qabs (py_Q (py_round x 2) - py_Q x) <= 1 # 200
  /\ exists k : Z, py_Q (py_round x 2) == inject_Z k / 100.
Proof.
  destruct x as [z|f].
  - cbn [py_round py_Q]. split.
    + assert (H : inject_Z z - inject_Z z == 0) by ring. rewrite H. discriminate.
    + exists (z * 100)%Z. rewrite inject_Z_mult. change (inject_Z 100) with 100. field.
  - destruct (py_round_2_value f) as [n [Hn0 [Hn Hv]]].
    pose proof (round_half_even_near (magnitude f * 100)) as Hnear. rewrite <- Hn in Hnear.
    destruct Hnear as [Hlo Hhi].
    split.
    + rewrite Hv. cbn [py_Q]. unfold float_Q.
      assert (Hd : inject_Z n / 100 == inject_Z n * (1 # 100)) by reflexivity.
      destruct (fneg f); rewrite Hd; apply Qabs_Qle_condition; split; lra.
    + destruct (fneg f).
      * exists (- n)%Z. rewrite Hv, inject_Z_opp. field.
      * exists n. exact Hv.
Qed.

(** X7.  In the posts CSV a rate is a multiple of a hundredth that differs
    from the exact percentage [count / recipients * 100] by at most 0.005. *)
Theorem csv_rates_are_rounded_to_hundredths (strftime : string -> Z -> string)
    (post : RawPost) (publication_name : string) :
  (0 < raw_recipients post)%Z ->
  exists row : Row.t,
    process_post_data strftime post publication_name = Ok row
    /\ Qabs (py_Q (Row.open_rate row)
             - inject_Z (raw_unique_opens post) / inject_Z (raw_recipients post) * 100)
       <= 1 # 200
    /\ Qabs (py_Q (Row.click_rate row)
             - inject_Z (raw_unique_clicks post) / inject_Z (raw_recipients post) * 100)
       <= 1 # 200
    /\ (exists k : Z, py_Q (Row.open_rate row) == inject_Z k / 100)
    /\ (exists k : Z, py_Q (Row.click_rate row) == inject_Z k / 100).
Proof.
  intros Hr.
  destruct (Normalizer.process_post_data_returns strftime post publication_name)
    as [row [o [c [Hrow [Ho [Hc [_ Hexact]]]]]]].
  destruct (Hexact Hr) as [Eo Ec].
  exists row. split; [exact Hrow|]. rewrite Ho, Hc.
  destruct (py_round_2_near o) as [Ho1 Ho2]. destruct (py_round_2_near c) as [Hc1 Hc2].
  rewrite <- Eo, <- Ec. repeat split; assumption.
Qed.

Lemma csv_rates_are_rounded_to_hundredths_witness :
  exists row : Row.t,
    process_post_data (fun _ _ => "2026-01-06") Samples.snap_back "ETL Daily" = Ok row
    /\ py_Q (Row.open_rate row) == 4685 # 100
    /\ py_Q (Row.click_rate row) == 28 # 100.
Proof.
  destruct (csv_rates_are_rounded_to_hundredths (fun _ _ => "2026-01-06")
              Samples.snap_back "ETL Daily") as [row [Hrow _]]; [reflexivity|].
  exists row. vm_compute in Hrow. injection Hrow as <-. split; [reflexivity|].
  split; reflexivity.
Defined.

(** ** The label of a link *)

Lemma substring_0_length (n : nat) (s : string) :
  String.length (substring 0 n s) = Nat.min n (String.length s).
Proof.
  revert s. induction n as [|n IH]; intros [|c s]; simpl; try reflexivity.
  rewrite IH. reflexivity.
Qed.

Lemma substring_0_empty (n : nat) (s : string) :
  substring 0 n s = "" <-> n = 0%nat \/ s = "".
Proof.
  destruct n as [|n], s as [|c s]; simpl; split; auto; try discriminate.
  intros [H|H]; discriminate.
Qed.

Lemma substring_0_twice (n m : nat) (s : string) :
  (n <= m)%nat -> substring 0 m (substring 0 n s) = substring 0 n s.
Proof.
  revert m s. induction n as [|n IH]; intros m s Hnm.
  - destruct s, m; reflexivity.
  - destruct m as [|m]; [lia|]. destruct s as [|c s]; [reflexivity|].
    simpl. rewrite IH by lia. reflexivity.
Qed.

(** X8.  The label the HTML report shows for a link of a raw post: at most 60
    characters; the first 60 of the description when the API gives a non-empty
    one, the first 50 of the URL when it gives none, the first 60 of the URL
    when it gives an empty one; and empty only when the URL is empty and the
    description absent or empty. *)
Theorem link_label_of_raw_click (click : RawClick) :
  let url := get (click_url click) "" in
  let label := link_label (process_click click) in
  (String.length label <= 60)%nat
  /\ (forall description, click_description click = Some description ->
                          description <> "" -> label = substring 0 60 description)
  /\ (click_description click = None -> label = substring 0 50 url)
  /\ (click_description click = Some "" -> label = substring 0 60 url)
  /\ (label = "" <->
      url = "" /\ (click_description click = None \/ click_description click = Some "")).
Proof.
  intros url label. unfold label, link_label, process_click.
  cbn [Click.description Click.url]. fold url.
  set (shown := get (click_description click) (substring 0 50 url)).
  destruct (click_description click) as [description|] eqn:Ed.
  - assert (Hshown : shown = description) by reflexivity.
    clearbody shown. subst shown.
    destruct (String.eqb description "") eqn:E; cbn [negb].
    + apply String.eqb_eq in E. subst description.
      split; [rewrite substring_0_length; lia|].
      split; [intros d Hd Hne; congruence|]. split; [discriminate|].
      split; [reflexivity|]. rewrite substring_0_empty. split.
      * intros [H|H]; [discriminate|]. auto.
      * intros [H _]. auto.
    + apply String.eqb_neq in E.
      split; [rewrite substring_0_length; lia|].
      split; [intros d Hd _; congruence|]. split; [discriminate|].
      split; [intros H; congruence|]. rewrite substring_0_empty. split.
      * intros [H|H]; [discriminate | contradiction].
      * intros [_ [H|H]]; [discriminate | congruence].
  - assert (Hshown : shown = substring 0 50 url) by reflexivity.
    clearbody shown. subst shown.
    destruct (String.eqb (substring 0 50 url) "") eqn:E; cbn [negb].
    + apply String.eqb_eq in E. apply substring_0_empty in E.
      destruct E as [E|E]; [discriminate|]. rewrite E.
      split; [simpl; lia|]. split; [discriminate|]. split; [reflexivity|].
      split; [discriminate|]. split; auto.
    + apply String.eqb_neq in E. rewrite substring_0_twice by lia.
      split; [rewrite substring_0_length; lia|]. split; [discriminate|].
      split; [reflexivity|]. split; [discriminate|]. split.
      * intros H. contradiction.
      * intros [H _]. exfalso. apply E. rewrite H. reflexivity.
Qed.

End NormalizerMore.

Module AggregatorMore.
Import GenerateReport PyFacts.

Local Open Scope Q_scope.

Lemma Qsum_percentages (xs : list Q) :
  Forall percentage xs -> 0 <= Qsum xs /\ Qsum xs <= 100 * inject_Z (Z.of_nat (length xs)).
Proof.
  induction 1 as [|x xs [Hx0 Hx1] _ [IH0 IH1]].
  - simpl. split; discriminate.
  - cbn [Qsum fold_right length]. fold (Qsum xs).
    rewrite Nat2Z.inj_succ. unfold Z.succ. rewrite inject_Z_plus.
    change (inject_Z 1) with 1. split; lra.
Qed.

(** The mean of percentages is a percentage. *)
Lemma mean_percentage (xs : list Q) :
  xs <> [] -> Forall percentage xs -> percentage (mean xs).
Proof.
  intros Hne Hall. destruct (Qsum_percentages xs Hall) as [H0 H1].
  assert (Hlen : 0 < inject_Z (Z.of_nat (length xs))).
  { destruct xs; [congruence|]. unfold Qlt; simpl. lia. }
  unfold mean, percentage. split.
  - apply Qle_shift_div_l; [exact Hlen | lra].
  - apply Qle_shift_div_r; [exact Hlen | exact H1].
Qed.

(** The normalised list, post by post. *)
Lemma normalised_pointwise (posts : list RawPost) :
  Forall2 (fun post m => process_post post = Ok m) posts (normalised posts).
Proof.
  induction posts as [|post posts IH]; [constructor|].
  destruct (Builders.normalised_returns posts) as [Hrest _].
  unfold normalised in *. simpl.
  destruct (Normalizer.process_post_returns post) as [m [Hm _]].
  rewrite Hm, Hrest. cbn [mbind result_bind mret result_ret].
  constructor; [exact Hm | exact IH].
Qed.

(** X9.  Through the normaliser and the aggregator: for a period with posts,
    all of them with unique opens and unique clicks within their recipients,
    the aggregate's average open rate and average click rate lie in [[0,
    100]]. *)
Theorem aggregate_rates_are_percentages (posts : list RawPost) :
  posts <> [] ->
  Forall counters_within_recipients posts ->
  exists (processed : list Post.t) (metrics : Metrics.t),
    comprehension process_post posts = Ok processed
    /\ calc_metrics processed = Ok (Some metrics)
    /\ percentage (py_Q (Metrics.avg_open_rate metrics))
    /\ percentage (py_Q (Metrics.avg_click_rate metrics)).
Proof.
  intros Hne Hall.
  destruct (Builders.normalised_returns posts) as [Hnorm Hlen].
  assert (Hne' : normalised posts <> []).
  { destruct (normalised posts); [destruct posts; [congruence | discriminate]|].
    discriminate. }
  destruct (Aggregator.calc_metrics_returns (normalised posts) Hne')
    as [metrics [Hm [_ [_ [_ [_ [Ho [Hc _]]]]]]]].
  exists (normalised posts), metrics. split; [exact Hnorm|]. split; [exact Hm|].
  assert (Hrates : Forall (fun m => percentage (py_Q (Post.open_rate m))
                                    /\ percentage (py_Q (Post.click_rate m)))
                     (normalised posts)).
  { pose proof (normalised_pointwise posts) as H2. clear -H2 Hall.
    induction H2 as [|post m posts ms Hpm _ IH]; [constructor|].
    apply Forall_cons in Hall. destruct Hall as [[Huo Huc] Hall].
    constructor; [|apply IH; exact Hall].
    destruct (Normalizer.process_post_returns post) as [m' [Hm' [_ [H0 H1]]]].
    assert (m' = m) as -> by congruence.
    destruct (Z.lt_ge_cases 0 (raw_recipients post)) as [Hr|Hr].
    - destruct (H1 Hr) as [Eo Ec]. unfold percentage. rewrite Eo, Ec.
      split; apply Normalizer.share_is_percentage; assumption.
    - destruct (H0 Hr) as [-> ->]. split; split; discriminate. }
  split.
  - unfold percentage. rewrite Ho. apply mean_percentage.
    + destruct (normalised posts); [congruence | discriminate].
    + apply List.Forall_map. eapply List.Forall_impl; [|exact Hrates].
      intros m [H1 _]. exact H1.
  - unfold percentage. rewrite Hc. apply mean_percentage.
    + destruct (normalised posts); [congruence | discriminate].
    + apply List.Forall_map. eapply List.Forall_impl; [|exact Hrates].
      intros m [_ H2]. exact H2.
Qed.

Lemma aggregate_rates_are_percentages_witness :
  exists processed metrics,
    comprehension process_post Samples.sample_week = Ok processed
    /\ calc_metrics processed = Ok (Some metrics)
    /\ percentage (py_Q (Metrics.avg_open_rate metrics))
    /\ percentage (py_Q (Metrics.avg_click_rate metrics)).
Proof.
  apply (aggregate_rates_are_percentages Samples.sample_week).
  - discriminate.
  - repeat constructor; vm_compute; discriminate.
Defined.

Lemma Zsum_nonneg (xs : list Z) : Forall (fun x => (0 <= x)%Z) xs -> (0 <= Zsum xs)%Z.
Proof. induction 1; simpl; lia. Qed.

(** X10.  For counters that are not negative, the count averages of an
    aggregate are the mean rounded down: [avg * count <= sum < (avg + 1) *
    count]. *)
Theorem count_averages_round_down (posts : list Post.t) :
  posts <> [] ->
  Forall (fun p => (0 <= Post.recipients p)%Z /\ (0 <= Post.unique_opens p)%Z
                   /\ (0 <= Post.unique_clicks p)%Z) posts ->
  let count := Z.of_nat (length posts) in
  let rounds_down := fun (avg total : Z) =>
                       (0 <= avg /\ avg * count <= total < (avg + 1) * count)%Z in
  exists metrics : Metrics.t,
    calc_metrics posts = Ok (Some metrics)
    /\ rounds_down (Metrics.avg_sent metrics) (Zsum (map Post.recipients posts))
    /\ rounds_down (Metrics.avg_unique_opens metrics) (Zsum (map Post.unique_opens posts))
    /\ rounds_down (Metrics.avg_unique_clicks metrics)
         (Zsum (map Post.unique_clicks posts)).
Proof.
  intros Hne Hall count rounds_down.
  destruct (Aggregator.calc_metrics_returns posts Hne)
    as [metrics [Hm [_ [Hs [Ho [Hc _]]]]]].
  fold count in Hs, Ho, Hc.
  assert (Hcount : (0 < count)%Z).
  { unfold count. destruct posts; [congruence | simpl; lia]. }
  assert (Hquot : forall total, (0 <= total)%Z -> rounds_down (total ÷ count)%Z total).
  { intros total Htotal. unfold rounds_down.
    rewrite Z.quot_div_nonneg by lia.
    pose proof (Z.div_pos total count Htotal Hcount).
    pose proof (Z.mul_div_le total count Hcount).
    pose proof (Z.mul_succ_div_gt total count Hcount). lia. }
  exists metrics. split; [exact Hm|]. rewrite Hs, Ho, Hc.
  split; [|split]; apply Hquot; apply Zsum_nonneg, List.Forall_map;
    (eapply List.Forall_impl; [|exact Hall]); intros p [H1 [H2 H3]]; assumption.
Qed.

Lemma count_averages_round_down_witness :
  exists metrics : Metrics.t,
    calc_metrics Samples.one_and_two = Ok (Some metrics)
    /\ (Metrics.avg_sent metrics * 2 <= 3 < (Metrics.avg_sent metrics + 1) * 2)%Z.
Proof.
  destruct (count_averages_round_down Samples.one_and_two)
    as [metrics [Hm [[_ Hs] _]]].
  - discriminate.
  - repeat constructor; simpl; lia.
  - exists metrics. split; [exact Hm | exact Hs].
Defined.

End AggregatorMore.

(* ===================================================================== *)
(** * More on the report builders                                         *)
(* ===================================================================== *)

Module BuildersMore.
Import GenerateReport PyFacts Builders.

Local Open Scope Z_scope.

(** ** Changes *)

Lemma change_step_inserts (curr_metrics : Metrics.t) (prev_metrics : option Metrics.t)
    (is_percentage : bool) (changes changes' : gmap string ChangeResult) (key : string) :
  change_step curr_metrics prev_metrics is_percentage changes key = Ok changes' ->
  exists change, changes' = <[key := change]> changes.
Proof.
  unfold change_step. intros H.
  destruct (match prev_metrics with
            | Some metrics => getitem metrics key
            | None => mret (PyInt 0)
            end) as [prev_val|e]; [|discriminate].
  cbn [mbind result_bind] in H.
  destruct (getitem curr_metrics key) as [curr_val|e]; [|discriminate].
  cbn [mbind result_bind] in H.
  destruct (calc_change curr_val prev_val is_percentage) as [change|e]; [|discriminate].
  cbn [mbind result_bind mret result_ret] in H. injection H as <-.
  exists change. reflexivity.
Qed.

Lemma for_each_change_step_domain (curr_metrics : Metrics.t)
    (prev_metrics : option Metrics.t) (is_percentage : bool) (keys : list string) :
  forall changes0 changes : gmap string ChangeResult,
    for_each (change_step curr_metrics prev_metrics is_percentage) keys changes0
    = Ok changes ->
    forall key, is_Some (changes !! key) <-> In key keys \/ is_Some (changes0 !! key).
Proof.
  induction keys as [|k keys IH]; intros changes0 changes Hloop key.
  - simpl in Hloop. injection Hloop as <-. simpl. tauto.
  - simpl in Hloop.
    destruct (change_step curr_metrics prev_metrics is_percentage changes0 k)
      as [changes1|e] eqn:Hstep; [|discriminate].
    cbn [mbind result_bind] in Hloop.
    destruct (change_step_inserts _ _ _ _ _ _ Hstep) as [change ->].
    rewrite (IH _ _ Hloop key). simpl.
    destruct (decide (k = key)) as [->|Hne].
    + rewrite lookup_insert_eq. split; [auto|]. intros _. right. eexists. reflexivity.
    + rewrite lookup_insert_ne by exact Hne. tauto.
Qed.

(** [changes] has the nine keys and no other. *)
Lemma calc_changes_domain (curr_metrics : Metrics.t) (prev_metrics : option Metrics.t)
    (changes : gmap string ChangeResult) :
  calc_changes curr_metrics prev_metrics = Ok changes ->
  forall key, is_Some (changes !! key) <-> In key change_keys.
Proof.
  unfold calc_changes. intros H key.
  destruct (for_each (change_step curr_metrics prev_metrics false) count_keys ∅)
    as [changes1|e] eqn:H1; [|discriminate].
  cbn [mbind result_bind] in H.
  rewrite (for_each_change_step_domain _ _ _ _ _ _ H key).
  rewrite (for_each_change_step_domain _ _ _ _ _ _ H1 key).
  rewrite lookup_empty. unfold change_keys. rewrite in_app_iff.
  split.
  - intros [Hr | [Hc | Hn]]; [right; exact Hr | left; exact Hc|].
    destruct Hn as [x Hx]. discriminate.
  - intros [Hc | Hr]; [right; left; exact Hc | left; exact Hr].
Qed.

Lemma Zsum_cons (x : Z) (xs : list Z) : Zsum (x :: xs) = x + Zsum xs.
Proof. reflexivity. Qed.

(** ** One round of the loop, with the entry spelled out *)

Section Round.

Variable fetch : string -> Z -> Z -> list RawPost.
Variables curr_start curr_end prev_start prev_end : Z.

Let step := publication_step fetch curr_start curr_end prev_start prev_end.
Let curr_of := current_posts fetch curr_start curr_end.
Let prev_of := previous_posts fetch prev_start prev_end.

Lemma publication_step_entry (report_data : Report.t) (pub : string * PubInfo)
    (curr_metrics : Metrics.t) :
  period_metrics (curr_of pub) = Some curr_metrics ->
  exists (report' : Report.t) (changes : gmap string ChangeResult),
    step report_data pub = Ok report'
    /\ calc_changes curr_metrics (period_metrics (prev_of pub)) = Ok changes
    /\ Report.publications report'
       = <[pub.1 :=
             {| Entry.current := with_post_titles curr_metrics;
                Entry.previous := period_metrics (prev_of pub);
                Entry.changes := changes;
                Entry.top_clicks :=
                  take 5 (sorted_reverse (fun x => inject_Z (Click.clicks x))
                            (flat_map (fun post => Post.top_clicks (with_post_title post))
                               (normalised (curr_of pub)))) |}]>
           (Report.publications report_data)
    /\ Report.totals_current report'
       = add_to_totals (Report.totals_current report_data) curr_metrics
    /\ Report.totals_previous report'
       = match period_metrics (prev_of pub) with
         | Some prev_metrics =>
             add_to_totals (Report.totals_previous report_data) prev_metrics
         | None => Report.totals_previous report_data
         end.
Proof.
  intros Hcurr. unfold step, publication_step.
  fold (current_posts fetch curr_start curr_end pub).
  fold (previous_posts fetch prev_start prev_end pub).
  fold (curr_of pub). fold (prev_of pub).
  destruct (normalised_returns (curr_of pub)) as [-> _].
  destruct (normalised_returns (prev_of pub)) as [-> _].
  cbn [mbind result_bind].
  rewrite !period_metrics_returns. cbn [mbind result_bind]. rewrite Hcurr.
  destruct (calc_changes_returns curr_metrics (period_metrics (prev_of pub)))
    as [changes Hchanges].
  rewrite Hchanges. cbn [mbind result_bind mret result_ret].
  eexists. exists changes. repeat split; reflexivity.
Qed.

(** The sums the loop adds to the totals. *)
Lemma loop_adds_to_totals (table : list (string * PubInfo)) :
  forall report_data : Report.t,
    exists report' : Report.t,
      for_each step table report_data = Ok report'
      /\ Totals.posts (Report.totals_current report')
         = Totals.posts (Report.totals_current report_data)
           + Zsum (map Metrics.posts_sent (current_aggregates fetch curr_start curr_end table))
      /\ Totals.impressions (Report.totals_current report')
         = Totals.impressions (Report.totals_current report_data)
           + Zsum (map Metrics.impressions
                     (current_aggregates fetch curr_start curr_end table))
      /\ Totals.clicks (Report.totals_current report')
         = Totals.clicks (Report.totals_current report_data)
           + Zsum (map Metrics.total_clicks
                     (current_aggregates fetch curr_start curr_end table))
      /\ Totals.posts (Report.totals_previous report')
         = Totals.posts (Report.totals_previous report_data)
           + Zsum (map Metrics.posts_sent
                     (previous_aggregates fetch curr_start curr_end prev_start prev_end table))
      /\ Totals.impressions (Report.totals_previous report')
         = Totals.impressions (Report.totals_previous report_data)
           + Zsum (map Metrics.impressions
                     (previous_aggregates fetch curr_start curr_end prev_start prev_end table))
      /\ Totals.clicks (Report.totals_previous report')
         = Totals.clicks (Report.totals_previous report_data)
           + Zsum (map Metrics.total_clicks
                     (previous_aggregates fetch curr_start curr_end prev_start prev_end table)).
Proof.
  induction table as [|pub table IH]; intros report_data.
  - exists report_data. simpl. rewrite !Z.add_0_r. repeat split; reflexivity.
  - unfold current_aggregates, previous_aggregates. cbn [omap list_omap].
    fold (current_aggregates fetch curr_start curr_end table).
    fold (previous_aggregates fetch curr_start curr_end prev_start prev_end table).
    fold (curr_of pub). fold (prev_of pub).
    destruct (period_metrics (curr_of pub)) as [curr_metrics|] eqn:Ecurr.
    + assert (Hhas : has_current_posts fetch curr_start curr_end pub = true).
      { destruct (has_current_posts fetch curr_start curr_end pub) eqn:E; [reflexivity|].
        apply has_current_posts_metrics in E. unfold curr_of in Ecurr. congruence. }
      rewrite Hhas.
      destruct (publication_step_entry report_data pub curr_metrics Ecurr)
        as [report1 [changes [Hstep [_ [_ [Hc Hp]]]]]].
      destruct (IH report1) as [report' [Hloop [H1 [H2 [H3 [H4 [H5 H6]]]]]]].
      exists report'. split; [simpl; rewrite Hstep; exact Hloop|].
      rewrite H1, H2, H3, H4, H5, H6, Hc, Hp.
      destruct (period_metrics (prev_of pub)) as [prev_metrics|];
        cbn [add_to_totals Totals.posts Totals.impressions Totals.clicks map];
        rewrite ?Zsum_cons; repeat split; lia.
    + assert (Hhas : has_current_posts fetch curr_start curr_end pub = false).
      { apply has_current_posts_metrics. exact Ecurr. }
      rewrite Hhas.
      destruct (IH report_data) as [report' [Hloop H]].
      exists report'. split; [|exact H].
      simpl. unfold step.
      rewrite (publication_step_skips fetch curr_start curr_end prev_start prev_end
                 report_data pub Hhas).
      exact Hloop.
Qed.

End Round.

(** ** Normalised counters *)

Lemma process_post_counters (post : RawPost) :
  exists m : Post.t,
    process_post post = Ok m
    /\ Post.impressions m = raw_opens post + raw_web_views post
    /\ Post.clicks m = raw_email_clicks post
    /\ Post.title m = get (post_title post) ""
    /\ Post.top_clicks m = map process_click (take 5 (raw_clicks post)).
Proof.
  unfold process_post, raw_opens, raw_web_views, raw_email_clicks, raw_clicks, raw_email.
  set (email := get (stats_email (get (post_stats post) empty_stats)) empty_email).
  destruct (Normalizer.rate_returns (get (email_unique_opens email) 0)
              (get (email_recipients email) 0)) as [x [-> _]].
  destruct (Normalizer.rate_returns (get (email_unique_clicks email) 0)
              (get (email_recipients email) 0)) as [y [-> _]].
  cbn [mbind result_bind mret result_ret].
  eexists. repeat split; reflexivity.
Qed.

Lemma normalised_counters (posts : list RawPost) :
  map Post.impressions (normalised posts)
  = map (fun post => raw_opens post + raw_web_views post) posts
  /\ map Post.clicks (normalised posts) = map raw_email_clicks posts.
Proof.
  pose proof (AggregatorMore.normalised_pointwise posts) as H.
  induction H as [|post m posts ms Hm _ [IH1 IH2]]; [split; reflexivity|].
  destruct (process_post_counters post) as [m' [Hm' [Hi [Hc _]]]].
  assert (m' = m) as -> by congruence.
  simpl. rewrite Hi, Hc, IH1, IH2. split; reflexivity.
Qed.

(** What the aggregate of a fetched list counts. *)
Lemma period_metrics_counts (posts : list RawPost) :
  match period_metrics posts with
  | Some metrics =>
      Metrics.posts_sent metrics = Z.of_nat (length posts)
      /\ Metrics.impressions metrics
         = Zsum (map (fun post => raw_opens post + raw_web_views post) posts)
      /\ Metrics.total_clicks metrics = Zsum (map raw_email_clicks posts)
  | None => posts = []
  end.
Proof.
  destruct posts as [|post posts]; [reflexivity|].
  destruct (normalised_returns (post :: posts)) as [_ Hlen].
  destruct (normalised_counters (post :: posts)) as [Hi Hc].
  pose proof (period_metrics_returns (post :: posts)) as Hm.
  destruct (Aggregator.calc_metrics_returns (normalised (post :: posts)))
    as [metrics [Hm' [H1 [_ [_ [_ [_ [_ [H2 [H3 _]]]]]]]]]].
  { destruct (normalised (post :: posts)); [discriminate Hlen | discriminate]. }
  assert (period_metrics (post :: posts) = Some metrics) as -> by congruence.
  rewrite H1, H2, H3, Hi, Hc, Hlen. repeat split; reflexivity.
Qed.

(** ** The totals, spelled out *)

Lemma finish_totals_spec (report_data : Report.t) :
  exists (report' : Report.t) (curr_avg prev_avg : pynum)
         (posts impressions clicks avg_open_rate : ChangeResult),
    finish_totals report_data = Ok report'
    /\ mean_or_zero (Totals.open_rates (Report.totals_current report_data)) = Ok curr_avg
    /\ mean_or_zero (Totals.open_rates (Report.totals_previous report_data)) = Ok prev_avg
    /\ calc_change (PyInt (Totals.posts (Report.totals_current report_data)))
         (PyInt (Totals.posts (Report.totals_previous report_data))) false = Ok posts
    /\ calc_change (PyInt (Totals.impressions (Report.totals_current report_data)))
         (PyInt (Totals.impressions (Report.totals_previous report_data))) false
       = Ok impressions
    /\ calc_change (PyInt (Totals.clicks (Report.totals_current report_data)))
         (PyInt (Totals.clicks (Report.totals_previous report_data))) false = Ok clicks
    /\ calc_change curr_avg prev_avg true = Ok avg_open_rate
    /\ Report.publications report' = Report.publications report_data
    /\ Report.totals_changes report'
       = <["avg_open_rate" := avg_open_rate]>
           (<["clicks" := clicks]>
              (<["impressions" := impressions]> (<["posts" := posts]> ∅)))
    /\ Totals.posts (Report.totals_current report')
       = Totals.posts (Report.totals_current report_data)
    /\ Totals.impressions (Report.totals_current report')
       = Totals.impressions (Report.totals_current report_data)
    /\ Totals.clicks (Report.totals_current report')
       = Totals.clicks (Report.totals_current report_data)
    /\ Totals.posts (Report.totals_previous report')
       = Totals.posts (Report.totals_previous report_data)
    /\ Totals.impressions (Report.totals_previous report')
       = Totals.impressions (Report.totals_previous report_data)
    /\ Totals.clicks (Report.totals_previous report')
       = Totals.clicks (Report.totals_previous report_data).
Proof.
  unfold finish_totals.
  destruct (mean_or_zero_returns (Totals.open_rates (Report.totals_current report_data)))
    as [curr_avg [Hc _]].
  destruct (mean_or_zero_returns (Totals.open_rates (Report.totals_previous report_data)))
    as [prev_avg [Hp _]].
  rewrite Hc, Hp. cbn [mbind result_bind].
  destruct (Totality.calc_change_returns
              (PyInt (Totals.posts (Report.totals_current report_data)))
              (PyInt (Totals.posts (Report.totals_previous report_data))) false)
    as [posts Hposts].
  destruct (Totality.calc_change_returns
              (PyInt (Totals.impressions (Report.totals_current report_data)))
              (PyInt (Totals.impressions (Report.totals_previous report_data))) false)
    as [impressions Himpressions].
  destruct (Totality.calc_change_returns
              (PyInt (Totals.clicks (Report.totals_current report_data)))
              (PyInt (Totals.clicks (Report.totals_previous report_data))) false)
    as [clicks Hclicks].
  destruct (Totality.calc_change_returns curr_avg prev_avg true) as [avg Havg].
  rewrite Hposts, Himpressions, Hclicks, Havg. cbn [mbind result_bind mret result_ret].
  eexists. exists curr_avg, prev_avg, posts, impressions, clicks, avg.
  repeat split; try reflexivity; assumption.
Qed.

(** ** The first [n] of a descending sort *)

Lemma take_sorted_reverse {A : Type} (key : A -> Q) (n : nat) (xs : list A) :
  Permutation xs (take n (sorted_reverse key xs) ++ drop n (sorted_reverse key xs))
  /\ length (take n (sorted_reverse key xs)) = Nat.min n (length xs)
  /\ StronglySorted (fun a b => (key b <= key a)%Q) (take n (sorted_reverse key xs))
  /\ forall top other,
       In top (take n (sorted_reverse key xs)) ->
       In other (drop n (sorted_reverse key xs)) -> (key other <= key top)%Q.
Proof.
  pose proof (Sorting.sorted_reverse_permutation key xs) as Hperm.
  pose proof (Sorting.sorted_reverse_sorted key xs) as Hsorted.
  rewrite <- (take_drop n (sorted_reverse key xs)) in Hsorted.
  split; [|split; [|split]].
  - rewrite take_drop. symmetry. exact Hperm.
  - rewrite length_take, (Permutation_length Hperm). reflexivity.
  - clear -Hsorted. induction (take n (sorted_reverse key xs)) as [|x l IH];
      [constructor|].
    simpl in Hsorted. apply StronglySorted_inv in Hsorted. destruct Hsorted as [H1 H2].
    constructor; [apply IH; exact H1|].
    apply Forall_app in H2. tauto.
  - intros top other Htop Hother. clear -Hsorted Htop Hother.
    induction (take n (sorted_reverse key xs)) as [|x l IH]; [contradiction|].
    simpl in Hsorted. apply StronglySorted_inv in Hsorted. destruct Hsorted as [H1 H2].
    destruct Htop as [<- | Htop].
    + apply Forall_app in H2. destruct H2 as [_ H2].
      rewrite List.Forall_forall in H2. exact (H2 other Hother).
    + exact (IH H1 Htop).
Qed.

Lemma Zsum_app (xs ys : list Z) : Zsum (xs ++ ys) = Zsum xs + Zsum ys.
Proof. induction xs as [|x xs IH]; simpl; [reflexivity|]. rewrite IH. lia. Qed.

(** ** The whole loop *)

Section Whole.

Variable fetch : string -> Z -> Z -> list RawPost.
Variables curr_start curr_end prev_start prev_end : Z.
Variables current_label previous_label : string.

Let step := publication_step fetch curr_start curr_end prev_start prev_end.
Let curr_of := current_posts fetch curr_start curr_end.
Let prev_of := previous_posts fetch prev_start prev_end.
Let has_posts := has_current_posts fetch curr_start curr_end.
Let build :=
  build_report_data fetch curr_start curr_end prev_start prev_end
    current_label previous_label.

(** The entry the loop leaves for a publication with current posts. *)
Lemma loop_leaves_entry (table : list (string * PubInfo)) :
  NoDup (map fst table) ->
  forall report_data report',
    for_each step table report_data = Ok report' ->
    forall pub curr_metrics, In pub table ->
      period_metrics (curr_of pub) = Some curr_metrics ->
      exists changes : gmap string ChangeResult,
        calc_changes curr_metrics (period_metrics (prev_of pub)) = Ok changes
        /\ Report.publications report' !! pub.1
           = Some {| Entry.current := with_post_titles curr_metrics;
                     Entry.previous := period_metrics (prev_of pub);
                     Entry.changes := changes;
                     Entry.top_clicks :=
                       take 5 (sorted_reverse (fun x => inject_Z (Click.clicks x))
                                 (flat_map (fun post => Post.top_clicks (with_post_title post))
                                    (normalised (curr_of pub)))) |}.
Proof.
  induction table as [|first table IH];
    intros Hnodup report_data report' Hloop pub curr_metrics Hin Hcurr; [contradiction|].
  simpl in Hloop. apply NoDup_cons in Hnodup. destruct Hnodup as [Hfresh Hnodup].
  destruct (step report_data first) as [report1|e] eqn:Hstep; [|discriminate].
  cbn [mbind result_bind] in Hloop.
  destruct Hin as [<- | Hin].
  - rewrite (loop_keeps_other_entries fetch curr_start curr_end prev_start prev_end
               table first.1) with (report_data := report1) (report' := report');
      [|rewrite <- list_elem_of_In; exact Hfresh | exact Hloop].
    destruct (publication_step_entry fetch curr_start curr_end prev_start prev_end
                report_data first curr_metrics Hcurr)
      as [report1' [changes [Hstep' [Hchanges [Hpubs _]]]]].
    assert (report1' = report1) as -> by (unfold step in Hstep; congruence).
    exists changes. split; [exact Hchanges|]. rewrite Hpubs. apply lookup_insert_eq.
  - exact (IH Hnodup report1 report' Hloop pub curr_metrics Hin Hcurr).
Qed.

(** What the current and the previous aggregates count, over a table. *)
Lemma current_aggregates_count (table : list (string * PubInfo)) :
  Zsum (map Metrics.posts_sent (current_aggregates fetch curr_start curr_end table))
  = Z.of_nat (length (flat_map curr_of table))
  /\ Zsum (map Metrics.impressions (current_aggregates fetch curr_start curr_end table))
     = Zsum (map (fun post => raw_opens post + raw_web_views post) (flat_map curr_of table))
  /\ Zsum (map Metrics.total_clicks (current_aggregates fetch curr_start curr_end table))
     = Zsum (map raw_email_clicks (flat_map curr_of table)).
Proof.
  induction table as [|pub table [IH1 [IH2 IH3]]]; [repeat split; reflexivity|].
  unfold current_aggregates in *. cbn [omap list_omap flat_map].
  fold (curr_of pub). pose proof (period_metrics_counts (curr_of pub)) as H.
  rewrite !map_app, !Zsum_app, length_app, Nat2Z.inj_add.
  destruct (period_metrics (curr_of pub)) as [metrics|].
  - destruct H as [H1 [H2 H3]]. cbn [map]. rewrite !Zsum_cons, IH1, IH2, IH3, H1, H2, H3.
    repeat split; reflexivity.
  - rewrite H, IH1, IH2, IH3. repeat split; reflexivity.
Qed.

Lemma previous_aggregates_count (table : list (string * PubInfo)) :
  Zsum (map Metrics.posts_sent
          (previous_aggregates fetch curr_start curr_end prev_start prev_end table))
  = Z.of_nat (length (flat_map prev_of (List.filter has_posts table)))
  /\ Zsum (map Metrics.impressions
             (previous_aggregates fetch curr_start curr_end prev_start prev_end table))
     = Zsum (map (fun post => raw_opens post + raw_web_views post)
               (flat_map prev_of (List.filter has_posts table)))
  /\ Zsum (map Metrics.total_clicks
             (previous_aggregates fetch curr_start curr_end prev_start prev_end table))
     = Zsum (map raw_email_clicks (flat_map prev_of (List.filter has_posts table))).
Proof.
  induction table as [|pub table [IH1 [IH2 IH3]]]; [repeat split; reflexivity|].
  unfold previous_aggregates in *. cbn [omap list_omap List.filter].
  fold (has_posts pub). destruct (has_posts pub).
  - cbn [flat_map]. fold (prev_of pub).
    pose proof (period_metrics_counts (prev_of pub)) as H.
    rewrite !map_app, !Zsum_app, length_app, Nat2Z.inj_add.
    destruct (period_metrics (prev_of pub)) as [metrics|].
    + destruct H as [H1 [H2 H3]]. cbn [map].
      rewrite !Zsum_cons, IH1, IH2, IH3, H1, H2, H3. repeat split; reflexivity.
    + rewrite H, IH1, IH2, IH3. repeat split; reflexivity.
  - repeat split; assumption.
Qed.

(** The finished report, with its totals and its entries spelled out. *)
Lemma build_report_data_spelled_out (table : list (string * PubInfo)) :
  let current := flat_map curr_of table in
  let previous := flat_map prev_of (List.filter has_posts table) in
  let impressions_of := fun posts : list RawPost =>
                          Zsum (map (fun post => raw_opens post + raw_web_views post) posts) in
  let clicks_of := fun posts : list RawPost => Zsum (map raw_email_clicks posts) in
  exists (report : Report.t) (curr_avg prev_avg : pynum)
         (posts impressions clicks avg_open_rate : ChangeResult),
    build table = Ok report
    /\ Totals.posts (Report.totals_current report) = Z.of_nat (length current)
    /\ Totals.impressions (Report.totals_current report) = impressions_of current
    /\ Totals.clicks (Report.totals_current report) = clicks_of current
    /\ Totals.posts (Report.totals_previous report) = Z.of_nat (length previous)
    /\ Totals.impressions (Report.totals_previous report) = impressions_of previous
    /\ Totals.clicks (Report.totals_previous report) = clicks_of previous
    /\ mean_or_zero (map Metrics.avg_open_rate
                       (current_aggregates fetch curr_start curr_end table)) = Ok curr_avg
    /\ mean_or_zero (map Metrics.avg_open_rate
                       (previous_aggregates fetch curr_start curr_end prev_start prev_end
                          table)) = Ok prev_avg
    /\ calc_change (PyInt (Z.of_nat (length current))) (PyInt (Z.of_nat (length previous)))
         false = Ok posts
    /\ calc_change (PyInt (impressions_of current)) (PyInt (impressions_of previous)) false
       = Ok impressions
    /\ calc_change (PyInt (clicks_of current)) (PyInt (clicks_of previous)) false = Ok clicks
    /\ calc_change curr_avg prev_avg true = Ok avg_open_rate
    /\ Report.totals_changes report
       = <["avg_open_rate" := avg_open_rate]>
           (<["clicks" := clicks]>
              (<["impressions" := impressions]> (<["posts" := posts]> ∅)))
    /\ (NoDup (map fst table) ->
        forall pub curr_metrics, In pub table ->
          period_metrics (curr_of pub) = Some curr_metrics ->
          exists changes : gmap string ChangeResult,
            calc_changes curr_metrics (period_metrics (prev_of pub)) = Ok changes
            /\ Report.publications report !! pub.1
               = Some {| Entry.current := with_post_titles curr_metrics;
                         Entry.previous := period_metrics (prev_of pub);
                         Entry.changes := changes;
                         Entry.top_clicks :=
                           take 5 (sorted_reverse (fun x => inject_Z (Click.clicks x))
                                     (flat_map
                                        (fun post => Post.top_clicks (with_post_title post))
                                        (normalised (curr_of pub)))) |})
    /\ entries_have_posts fetch curr_start curr_end table report.
Proof.
  intros current previous impressions_of clicks_of.
  destruct (build_report_data_returns fetch curr_start curr_end prev_start prev_end
              current_label previous_label table)
    as [report [curr_avg [prev_avg [Hbuild [_ [_ [Hposts [_ [Hco [Hpo [_ [_ [Hcm Hpm]]]]]]]]]]]]].
  unfold build, build_report_data in *.
  set (report0 := {| Report.current_period := current_label;
                     Report.previous_period := previous_label;
                     Report.publications := ∅;
                     Report.totals_current := empty_totals;
                     Report.totals_previous := empty_totals;
                     Report.totals_changes := ∅ |}) in *.
  destruct (loop_adds_to_totals fetch curr_start curr_end prev_start prev_end table report0)
    as [report1 [Hloop [H1 [H2 [H3 [H4 [H5 H6]]]]]]].
  rewrite Hloop in Hbuild |- *. cbn [mbind result_bind] in Hbuild |- *.
  destruct (finish_totals_spec report1)
    as [report' [curr_avg' [prev_avg' [posts [impressions [clicks [avg
         [Hfin [Hc [Hp [Hcp [Hci [Hcc [Hca [Hpubs [Hchanges
           [T1 [T2 [T3 [T4 [T5 T6]]]]]]]]]]]]]]]]]]]]].
  assert (report' = report) as -> by congruence.
  destruct (current_aggregates_count table) as [C1 [C2 C3]].
  destruct (previous_aggregates_count table) as [P1 [P2 P3]].
  unfold report0 in H1, H2, H3, H4, H5, H6.
  cbn [Report.totals_current Report.totals_previous empty_totals
       Totals.posts Totals.impressions Totals.clicks] in H1, H2, H3, H4, H5, H6.
  rewrite Z.add_0_l in H1, H2, H3, H4, H5, H6.
  rewrite H1, C1 in Hcp, T1. rewrite H2, C2 in Hci, T2. rewrite H3, C3 in Hcc, T3.
  rewrite H4, P1 in Hcp, T4. rewrite H5, P2 in Hci, T5. rewrite H6, P3 in Hcc, T6.
  assert (Hrc : Totals.open_rates (Report.totals_current report1)
                = Totals.open_rates (Report.totals_current report)).
  { destruct (finish_totals_returns report1)
      as [r [a [b [Hr [_ [_ [_ [_ [_ [E1 _]]]]]]]]]].
    assert (r = report) as -> by congruence. symmetry. exact E1. }
  assert (Hrp : Totals.open_rates (Report.totals_previous report1)
                = Totals.open_rates (Report.totals_previous report)).
  { destruct (finish_totals_returns report1)
      as [r [a [b [Hr [_ [_ [_ [_ [_ [_ E2]]]]]]]]]].
    assert (r = report) as -> by congruence. symmetry. exact E2. }
  rewrite Hrc in Hc. rewrite Hrp in Hp.
  assert (curr_avg' = curr_avg) as -> by congruence.
  assert (prev_avg' = prev_avg) as -> by congruence.
  rewrite Hco in Hcm. rewrite Hpo in Hpm.
  exists report, curr_avg, prev_avg, posts, impressions, clicks, avg.
  split; [exact Hfin|].
  split; [exact T1|]. split; [exact T2|]. split; [exact T3|].
  split; [exact T4|]. split; [exact T5|]. split; [exact T6|].
  split; [exact Hcm|]. split; [exact Hpm|].
  split; [exact Hcp|]. split; [exact Hci|]. split; [exact Hcc|]. split; [exact Hca|].
  split; [exact Hchanges|]. split; [|exact Hposts].
  intros Hnodup pub curr_metrics Hin Hcurr. rewrite Hpubs.
  exact (loop_leaves_entry table Hnodup report0 report1 Hloop pub curr_metrics Hin Hcurr).
Qed.

End Whole.

Lemma previous_aggregates_nil (fetch : string -> Z -> Z -> list RawPost)
    (curr_start curr_end prev_start prev_end : Z) (table : list (string * PubInfo)) :
  flat_map (previous_posts fetch prev_start prev_end)
    (List.filter (has_current_posts fetch curr_start curr_end) table) = [] ->
  previous_aggregates fetch curr_start curr_end prev_start prev_end table = [].
Proof.
  induction table as [|pub table IH]; [reflexivity|].
  unfold previous_aggregates in *. cbn [List.filter omap list_omap].
  destruct (has_current_posts fetch curr_start curr_end pub); [|exact IH].
  cbn [flat_map]. intros H. apply app_eq_nil in H. destruct H as [H1 H2].
  rewrite H1, period_metrics_empty. exact (IH H2).
Qed.

(** The clicks of the normalised posts, each with its post's title, read off
    the raw posts. *)
Lemma titled_clicks_of_raw (posts : list RawPost) :
  flat_map (fun post => Post.top_clicks (with_post_title post)) (normalised posts)
  = flat_map (fun post =>
                map (fun raw =>
                       {| Click.url := Click.url (process_click raw);
                          Click.description := Click.description (process_click raw);
                          Click.clicks := Click.clicks (process_click raw);
                          Click.unique_clicks := Click.unique_clicks (process_click raw);
                          Click.post_title := Some (get (post_title post) "") |})
                    (take 5 (raw_clicks post)))
             posts.
Proof.
  pose proof (AggregatorMore.normalised_pointwise posts) as H.
  induction H as [|post m posts ms Hm _ IH]; [reflexivity|].
  cbn [flat_map]. rewrite IH. f_equal.
  destruct (process_post_counters post) as [m' [Hm' [_ [_ [Htitle Hclicks]]]]].
  assert (m' = m) as -> by congruence.
  cbn [with_post_title Post.top_clicks]. rewrite Hclicks, Htitle, map_map. reflexivity.
Qed.

Lemma descending_clicks (clicks : list Click.t) :
  StronglySorted (fun a b => (inject_Z (Click.clicks b) <= inject_Z (Click.clicks a))%Q)
    clicks ->
  StronglySorted (fun a b => Click.clicks b <= Click.clicks a) clicks.
Proof.
  induction 1 as [|x l _ IH Hx]; constructor; [exact IH|].
  eapply List.Forall_impl; [|exact Hx]. intros y Hy. rewrite Zle_Qle. exact Hy.
Qed.

(** ** The totals of the report *)

(** X11.  In the weekly and the monthly report the totals of the current
    period count every post fetched for it: their number, their impressions
    (opens plus web views) and their e-mail clicks.  The totals of the
    previous period count the previous posts of those publications only that
    have posts in the current period. *)
Theorem totals_count_the_posts_of_reported_publications
    (fetch : string -> Z -> Z -> list RawPost)
    (curr_start curr_end prev_start prev_end : Z) (current_label previous_label : string) :
  let current := flat_map (current_posts fetch curr_start curr_end) PUBLICATIONS in
  let previous :=
    flat_map (previous_posts fetch prev_start prev_end)
      (List.filter (has_current_posts fetch curr_start curr_end) PUBLICATIONS) in
  let impressions_of := fun posts : list RawPost =>
                          Zsum (map (fun post => raw_opens post + raw_web_views post) posts) in
  let clicks_of := fun posts : list RawPost => Zsum (map raw_email_clicks posts) in
  exists report : Report.t,
    generate_weekly_report fetch curr_start curr_end prev_start prev_end
      current_label previous_label = Ok report
    /\ generate_monthly_report fetch curr_start curr_end prev_start prev_end
         current_label previous_label = Ok report
    /\ Totals.posts (Report.totals_current report) = Z.of_nat (length current)
    /\ Totals.impressions (Report.totals_current report) = impressions_of current
    /\ Totals.clicks (Report.totals_current report) = clicks_of current
    /\ Totals.posts (Report.totals_previous report) = Z.of_nat (length previous)
    /\ Totals.impressions (Report.totals_previous report) = impressions_of previous
    /\ Totals.clicks (Report.totals_previous report) = clicks_of previous.
Proof.
  intros current previous impressions_of clicks_of.
  destruct (build_report_data_spelled_out fetch curr_start curr_end prev_start prev_end
              current_label previous_label PUBLICATIONS)
    as [report [_ [_ [_ [_ [_ [_ [Hbuild [T1 [T2 [T3 [T4 [T5 [T6 _]]]]]]]]]]]]]].
  exists report. split; [exact Hbuild|]. split; [exact Hbuild|].
  split; [exact T1|]. split; [exact T2|]. split; [exact T3|].
  split; [exact T4|]. split; [exact T5 | exact T6].
Qed.

(** X12.  The changes of the totals have the four keys [posts], [impressions],
    [clicks] and [avg_open_rate]; and when no publication with current posts
    has a post in the previous period, all four are "not applicable". *)
Theorem totals_changes_without_previous_posts
    (fetch : string -> Z -> Z -> list RawPost)
    (curr_start curr_end prev_start prev_end : Z) (current_label previous_label : string) :
  let previous :=
    flat_map (previous_posts fetch prev_start prev_end)
      (List.filter (has_current_posts fetch curr_start curr_end) PUBLICATIONS) in
  let keys := ["posts"; "impressions"; "clicks"; "avg_open_rate"] in
  exists report : Report.t,
    generate_weekly_report fetch curr_start curr_end prev_start prev_end
      current_label previous_label = Ok report
    /\ generate_monthly_report fetch curr_start curr_end prev_start prev_end
         current_label previous_label = Ok report
    /\ (forall key, is_Some (Report.totals_changes report !! key) <-> In key keys)
    /\ (previous = [] ->
        forall key, In key keys -> Report.totals_changes report !! key = Some not_applicable).
Proof.
  intros previous keys.
  destruct (build_report_data_spelled_out fetch curr_start curr_end prev_start prev_end
              current_label previous_label PUBLICATIONS)
    as [report [curr_avg [prev_avg [posts [impressions [clicks [avg
         [Hbuild [_ [_ [_ [_ [_ [_ [_ [Hpm [Hcp [Hci [Hcc [Hca [Hchanges _]]]]]]]]]]]]]]]]]]]]].
  exists report. split; [exact Hbuild|]. split; [exact Hbuild|]. rewrite Hchanges. split.
  - intros key. unfold keys. cbn [In].
    destruct (decide ("avg_open_rate" = key)) as [<-|N1];
      [rewrite lookup_insert_eq; split; [tauto | eauto]|].
    rewrite lookup_insert_ne by exact N1.
    destruct (decide ("clicks" = key)) as [<-|N2];
      [rewrite lookup_insert_eq; split; [tauto | eauto]|].
    rewrite lookup_insert_ne by exact N2.
    destruct (decide ("impressions" = key)) as [<-|N3];
      [rewrite lookup_insert_eq; split; [tauto | eauto]|].
    rewrite lookup_insert_ne by exact N3.
    destruct (decide ("posts" = key)) as [<-|N4];
      [rewrite lookup_insert_eq; split; [tauto | eauto]|].
    rewrite lookup_insert_ne by exact N4. rewrite lookup_empty. split.
    + intros [x Hx]. discriminate.
    + intros [H|[H|[H|[H|[]]]]]; congruence.
  - intros Hnone. fold previous in Hcp, Hci, Hcc. rewrite Hnone in Hcp, Hci, Hcc.
    rewrite (previous_aggregates_nil _ _ _ _ _ _ Hnone) in Hpm.
    cbn [map mean_or_zero mret result_ret] in Hpm. injection Hpm as <-.
    rewrite Comparator.calc_change_not_applicable in Hcp, Hci, Hcc, Hca by reflexivity.
    injection Hcp as <-. injection Hci as <-. injection Hcc as <-. injection Hca as <-.
    intros key [<-|[<-|[<-|[<-|[]]]]]; reflexivity.
Qed.

(** A week in which the second publication has a post and no publication
    with current posts had one before: the four changes are "N/A". *)
Lemma totals_changes_without_previous_posts_witness :
  exists report : Report.t,
    generate_weekly_report Samples.lopsided_fetch 100 199 0 99 "now" "before" = Ok report
    /\ display <$> Report.totals_changes report !! "posts" = Some "N/A"
    /\ display <$> Report.totals_changes report !! "avg_open_rate" = Some "N/A".
Proof.
  destruct (totals_changes_without_previous_posts
              Samples.lopsided_fetch 100 199 0 99 "now" "before")
    as [report [Hw [_ [_ Hna]]]].
  exists report. split; [exact Hw|].
  split; rewrite Hna; try reflexivity; cbn [In]; tauto.
Defined.

(** ** The top clicks of an entry *)

(** X13.  In the weekly and the monthly report, the [top_clicks] of a
    publication with current posts are taken from the first five links of each
    of its current posts, every one carrying the title of its post: they are
    the first five of these in descending order of clicks, so at most five,
    and no link left out has more clicks than one that is shown. *)
Theorem entry_top_clicks (fetch : string -> Z -> Z -> list RawPost)
    (curr_start curr_end prev_start prev_end : Z) (current_label previous_label : string)
    (pub_key : string) (pub_info : PubInfo) :
  In (pub_key, pub_info) PUBLICATIONS ->
  fetch (id pub_info) curr_start curr_end <> [] ->
  let candidates :=
    flat_map (fun post =>
                map (fun raw =>
                       {| Click.url := Click.url (process_click raw);
                          Click.description := Click.description (process_click raw);
                          Click.clicks := Click.clicks (process_click raw);
                          Click.unique_clicks := Click.unique_clicks (process_click raw);
                          Click.post_title := Some (get (post_title post) "") |})
                    (take 5 (raw_clicks post)))
             (fetch (id pub_info) curr_start curr_end) in
  exists (report : Report.t) (entry : Entry.t) (others : list Click.t),
    generate_weekly_report fetch curr_start curr_end prev_start prev_end
      current_label previous_label = Ok report
    /\ generate_monthly_report fetch curr_start curr_end prev_start prev_end
         current_label previous_label = Ok report
    /\ Report.publications report !! pub_key = Some entry
    /\ Permutation candidates (Entry.top_clicks entry ++ others)
    /\ length (Entry.top_clicks entry) = Nat.min 5 (length candidates)
    /\ StronglySorted (fun a b => Click.clicks b <= Click.clicks a) (Entry.top_clicks entry)
    /\ forall top other,
         In top (Entry.top_clicks entry) -> In other others ->
         Click.clicks other <= Click.clicks top.
Proof.
  intros Hin Hcurr candidates.
  destruct (build_report_data_spelled_out fetch curr_start curr_end prev_start prev_end
              current_label previous_label PUBLICATIONS)
    as [report [_ [_ [_ [_ [_ [_ [Hbuild [_ [_ [_ [_ [_ [_ [_ [_ [_ [_ [_ [_ [_
         [Hentry _]]]]]]]]]]]]]]]]]]]]]].
  destruct (fetch (id pub_info) curr_start curr_end) as [|post posts] eqn:Hposts;
    [congruence|].
  destruct (period_metrics_nonempty post posts) as [curr_metrics Hm].
  destruct (Hentry publications_keys_distinct (pub_key, pub_info) curr_metrics Hin)
    as [changes [_ He]].
  { unfold current_posts. cbn [snd]. rewrite Hposts. exact Hm. }
  cbn [fst] in He. unfold current_posts in He. cbn [snd] in He. rewrite Hposts in He.
  rewrite titled_clicks_of_raw in He. fold candidates in He.
  destruct (take_sorted_reverse (fun x => inject_Z (Click.clicks x)) 5 candidates)
    as [Hperm [Hlen [Hsorted Htop]]].
  eexists. eexists. exists (drop 5 (sorted_reverse (fun x => inject_Z (Click.clicks x))
                                      candidates)).
  split; [exact Hbuild|]. split; [exact Hbuild|]. split; [exact He|].
  cbn [Entry.top_clicks]. split; [exact Hperm|]. split; [exact Hlen|].
  split; [apply descending_clicks; exact Hsorted|].
  intros top other H1 H2. rewrite Zle_Qle. exact (Htop top other H1 H2).
Qed.

(** A post with links of 1 to 6 clicks, in that order, and a post with links
    of 9 and 3 clicks: the entry shows 9, 5, 4, 3, 3; the link with 6 clicks
    is its post's sixth and is not among the candidates. *)
Lemma entry_top_clicks_witness :
  exists (report : Report.t) (entry : Entry.t),
    generate_weekly_report Samples.linked_fetch 100 199 0 99 "now" "before" = Ok report
    /\ Report.publications report !! "ETL Daily" = Some entry
    /\ map Click.clicks (Entry.top_clicks entry) = [9; 5; 4; 3; 3]
    /\ map Click.post_title (Entry.top_clicks entry)
       = [Some "Two links"; Some "Six links"; Some "Six links"; Some "Six links";
          Some "Two links"].
Proof.
  destruct (entry_top_clicks Samples.linked_fetch 100 199 0 99 "now" "before" "ETL Daily"
              {| id := "pub_88b8ccea-c311-4381-a49c-91848583ba9e";
                 display_name := "El Tiempo Latino"; color := "#1a73e8" |})
    as [report [entry [others [Hw [_ [He _]]]]]].
  - left. reflexivity.
  - discriminate.
  - exists report, entry. split; [exact Hw|]. split; [exact He|].
    vm_compute in Hw. injection Hw as <-. vm_compute in He. injection He as <-.
    split; reflexivity.
Defined.

End BuildersMore.

(* ===================================================================== *)
(** * The comparison tables of the HTML report                            *)
(* ===================================================================== *)

Module Rendering.
Import GenerateReport PyFacts Builders.

Local Open Scope Z_scope.

Ltac known_key := unfold change_keys, count_keys, rate_keys; cbn [app In]; tauto.

(** The table is filled whenever [changes] has the nine keys. *)
Lemma table_rows_returns (pub_data : Entry.t) :
  (forall key, In key change_keys -> is_Some (Entry.changes pub_data !! key)) ->
  exists rows : list TableRow.t,
    table_rows pub_data = Ok rows
    /\ map TableRow.metric_name rows = metric_names.
Proof.
  intros H. unfold table_rows, getitem_dict.
  destruct (H "posts_sent" ltac:(known_key)) as [c1 ->].
  destruct (H "avg_sent" ltac:(known_key)) as [c2 ->].
  destruct (H "impressions" ltac:(known_key)) as [c3 ->].
  destruct (H "avg_unique_opens" ltac:(known_key)) as [c4 ->].
  destruct (H "avg_open_rate" ltac:(known_key)) as [c5 ->].
  destruct (H "total_clicks" ltac:(known_key)) as [c6 ->].
  destruct (H "avg_click_rate" ltac:(known_key)) as [c7 ->].
  destruct (H "unsubscribes" ltac:(known_key)) as [c8 ->].
  cbn [mbind result_bind mret result_ret]. eexists. split; reflexivity.
Qed.

(** The table of an entry without a previous aggregate. *)
Lemma table_rows_no_previous (pub_data : Entry.t) :
  Entry.previous pub_data = None ->
  (forall key, In key change_keys -> Entry.changes pub_data !! key = Some not_applicable) ->
  exists rows : list TableRow.t,
    table_rows pub_data = Ok rows
    /\ map TableRow.metric_name rows = metric_names
    /\ map TableRow.previous rows = repeat "-" 8
    /\ map TableRow.change_display rows = repeat "N/A" 8
    /\ map TableRow.change_class rows = repeat "change-positive" 7 ++ ["change-negative"].
Proof.
  intros Hprev H. unfold table_rows, getitem_dict.
  rewrite (H "posts_sent" ltac:(known_key)), (H "avg_sent" ltac:(known_key)),
    (H "impressions" ltac:(known_key)), (H "avg_unique_opens" ltac:(known_key)),
    (H "avg_open_rate" ltac:(known_key)), (H "total_clicks" ltac:(known_key)),
    (H "avg_click_rate" ltac:(known_key)), (H "unsubscribes" ltac:(known_key)), Hprev.
  cbn [mbind result_bind mret result_ret]. eexists. repeat split; reflexivity.
Qed.

Section Sections.

Variable fetch : string -> Z -> Z -> list RawPost.
Variables curr_start curr_end prev_start prev_end : Z.
Variables current_label previous_label : string.

Let has_posts := has_current_posts fetch curr_start curr_end.

(** What the HTML loop finds under the key of a publication of the table. *)
Lemma section_of_publication (report : Report.t) (pub : string * PubInfo) :
  build_report_data fetch curr_start curr_end prev_start prev_end
    current_label previous_label PUBLICATIONS = Ok report ->
  In pub PUBLICATIONS ->
  match Report.publications report !! pub.1 with
  | None => has_posts pub = false
  | Some pub_data =>
      has_posts pub = true
      /\ Entry.previous pub_data = period_metrics (previous_posts fetch prev_start prev_end pub)
      /\ (forall key, In key change_keys -> is_Some (Entry.changes pub_data !! key))
      /\ (Entry.previous pub_data = None ->
          forall key, In key change_keys ->
                      Entry.changes pub_data !! key = Some not_applicable)
  end.
Proof.
  intros Hbuild Hin.
  destruct (BuildersMore.build_report_data_spelled_out fetch curr_start curr_end
              prev_start prev_end current_label previous_label PUBLICATIONS)
    as [report' [_ [_ [_ [_ [_ [_ [Hbuild' [_ [_ [_ [_ [_ [_ [_ [_ [_ [_ [_ [_ [_
         [Hentry Hposts]]]]]]]]]]]]]]]]]]]]]].
  assert (report' = report) as -> by congruence.
  destruct (build_report_data_returns fetch curr_start curr_end prev_start prev_end
              current_label previous_label PUBLICATIONS)
    as [report' [_ [_ [Hbuild'' [_ [Hna _]]]]]].
  assert (report' = report) as -> by congruence.
  destruct (period_metrics (current_posts fetch curr_start curr_end pub))
    as [curr_metrics|] eqn:Ecurr.
  - destruct (Hentry publications_keys_distinct pub curr_metrics Hin Ecurr)
      as [changes [Hchanges He]].
    rewrite He. cbn [Entry.previous Entry.changes]. split; [|split; [reflexivity|split]].
    + unfold has_posts.
      destruct (has_current_posts fetch curr_start curr_end pub) eqn:E; [reflexivity|].
      apply has_current_posts_metrics in E. congruence.
    + intros key Hkey.
      apply (BuildersMore.calc_changes_domain _ _ _ Hchanges). exact Hkey.
    + intros Hnone key Hkey. exact (Hna pub.1 _ He Hnone key Hkey).
  - apply has_current_posts_metrics in Ecurr.
    destruct (Report.publications report !! pub.1) as [entry|] eqn:E; [|exact Ecurr].
    exfalso. destruct (Hposts pub.1) as [info' [Hin' Hhas]].
    + rewrite E. eexists. reflexivity.
    + destruct pub as [pub_key pub_info]. cbn [fst] in *.
      assert (info' = pub_info) as ->
        by exact (distinct_keys_same_value _ _ _ _ publications_keys_distinct Hin' Hin).
      congruence.
Qed.

End Sections.

(** X14.  The comparison tables of the HTML page are those of the publications
    with posts in the current period, in the order of the publication table;
    filling them never fails on a missing key, and each has the eight rows
    from "Posts Sent" to "Unsubscribes". *)
Theorem html_sections_show_the_reported_publications
    (fetch : string -> Z -> Z -> list RawPost)
    (curr_start curr_end prev_start prev_end : Z) (current_label previous_label : string) :
  exists (report : Report.t) (sections : list (string * list TableRow.t)),
    generate_weekly_report fetch curr_start curr_end prev_start prev_end
      current_label previous_label = Ok report
    /\ generate_monthly_report fetch curr_start curr_end prev_start prev_end
         current_label previous_label = Ok report
    /\ html_sections report = Ok sections
    /\ map fst sections
       = map fst (List.filter (has_current_posts fetch curr_start curr_end) PUBLICATIONS)
    /\ Forall (fun section => map TableRow.metric_name section.2 = metric_names) sections.
Proof.
  destruct (build_report_data_returns fetch curr_start curr_end prev_start prev_end
              current_label previous_label PUBLICATIONS)
    as [report [_ [_ [Hbuild _]]]].
  exists report.
  pose proof (fun pub => section_of_publication fetch curr_start curr_end prev_start
                           prev_end current_label previous_label report pub Hbuild) as Hsec.
  unfold PUBLICATIONS. unfold PUBLICATIONS in Hsec.
  match type of Hsec with
  | forall pub, In pub [?p1; ?p2] -> _ =>
      pose proof (Hsec p1 ltac:(left; reflexivity)) as H1;
      pose proof (Hsec p2 ltac:(right; left; reflexivity)) as H2
  end.
  clear Hsec. cbn [fst] in H1, H2. unfold html_sections. cbn [for_each List.filter].
  destruct (Report.publications report !! "ETL Daily") as [e1|].
  - destruct H1 as [-> [_ [D1 _]]]. destruct (table_rows_returns e1 D1) as [rows1 [-> N1]].
    cbn [mbind result_bind mret result_ret app].
    destruct (Report.publications report !! "EP Daily") as [e2|].
    + destruct H2 as [-> [_ [D2 _]]]. destruct (table_rows_returns e2 D2) as [rows2 [-> N2]].
      cbn [mbind result_bind mret result_ret app]. eexists.
      split; [exact Hbuild|]. split; [exact Hbuild|]. split; [reflexivity|].
      split; [reflexivity|]. repeat constructor; assumption.
    + rewrite H2. cbn [mbind result_bind mret result_ret]. eexists.
      split; [exact Hbuild|]. split; [exact Hbuild|]. split; [reflexivity|].
      split; [reflexivity|]. repeat constructor; assumption.
  - rewrite H1. cbn [mbind result_bind mret result_ret].
    destruct (Report.publications report !! "EP Daily") as [e2|].
    + destruct H2 as [-> [_ [D2 _]]]. destruct (table_rows_returns e2 D2) as [rows2 [-> N2]].
      cbn [mbind result_bind mret result_ret app]. eexists.
      split; [exact Hbuild|]. split; [exact Hbuild|]. split; [reflexivity|].
      split; [reflexivity|]. repeat constructor; assumption.
    + rewrite H2. cbn [mbind result_bind mret result_ret]. eexists.
      split; [exact Hbuild|]. split; [exact Hbuild|]. split; [reflexivity|].
      split; [reflexivity|]. constructor.
Qed.

(** The loop over the two keys, for a report whose entries can be filled in. *)
Lemma html_sections_returns (report : Report.t) :
  (forall pub_key pub_data,
     In pub_key ["ETL Daily"; "EP Daily"] ->
     Report.publications report !! pub_key = Some pub_data ->
     exists rows, table_rows pub_data = Ok rows) ->
  exists sections : list (string * list TableRow.t),
    html_sections report = Ok sections
    /\ forall pub_key pub_data rows,
         In pub_key ["ETL Daily"; "EP Daily"] ->
         Report.publications report !! pub_key = Some pub_data ->
         table_rows pub_data = Ok rows -> In (pub_key, rows) sections.
Proof.
  intros H. unfold html_sections. cbn [for_each].
  destruct (Report.publications report !! "ETL Daily") as [e1|] eqn:E1;
    destruct (Report.publications report !! "EP Daily") as [e2|] eqn:E2;
    try (destruct (H "ETL Daily" e1 ltac:(cbn [In]; tauto) E1) as [rows1 R1]; rewrite R1);
    cbn [mbind result_bind mret result_ret app]; rewrite ?E2;
    try (destruct (H "EP Daily" e2 ltac:(cbn [In]; tauto) E2) as [rows2 R2]; rewrite R2);
    cbn [mbind result_bind mret result_ret app];
    (eexists; split; [reflexivity|]);
    intros pub_key pub_data rows [<-|[<-|[]]] He Hr; cbn [In];
    try congruence.
  - left. congruence.
  - right. left. congruence.
  - left. congruence.
  - left. congruence.
Qed.

(** X15.  In the weekly and the monthly report, the table of a publication
    with posts in the current period and none in the previous one shows a dash
    in every cell of its previous column and "N/A" in every cell of its change
    column; the changes are styled as positive, except the one of the
    unsubscribes row, which is styled as negative. *)
Theorem table_of_a_publication_without_previous_posts
    (fetch : string -> Z -> Z -> list RawPost)
    (curr_start curr_end prev_start prev_end : Z) (current_label previous_label : string)
    (pub_key : string) (pub_info : PubInfo) :
  In (pub_key, pub_info) PUBLICATIONS ->
  fetch (id pub_info) curr_start curr_end <> [] ->
  fetch (id pub_info) prev_start prev_end = [] ->
  exists (report : Report.t) (sections : list (string * list TableRow.t))
         (rows : list TableRow.t),
    generate_weekly_report fetch curr_start curr_end prev_start prev_end
      current_label previous_label = Ok report
    /\ generate_monthly_report fetch curr_start curr_end prev_start prev_end
         current_label previous_label = Ok report
    /\ html_sections report = Ok sections
    /\ In (pub_key, rows) sections
    /\ map TableRow.metric_name rows = metric_names
    /\ map TableRow.previous rows = repeat "-" 8
    /\ map TableRow.change_display rows = repeat "N/A" 8
    /\ map TableRow.change_class rows = repeat "change-positive" 7 ++ ["change-negative"].
Proof.
  intros Hin Hcurr Hprev.
  destruct (build_report_data_returns fetch curr_start curr_end prev_start prev_end
              current_label previous_label PUBLICATIONS)
    as [report [_ [_ [Hbuild _]]]].
  pose proof (fun pub => section_of_publication fetch curr_start curr_end prev_start
                           prev_end current_label previous_label report pub Hbuild) as Hsec.
  destruct (html_sections_returns report) as [sections [Hsections Hshown]].
  { intros k e Hk He.
    assert (Hpub : exists info, In (k, info) PUBLICATIONS).
    { destruct Hk as [<-|[<-|[]]]; eexists; [left | right; left]; reflexivity. }
    destruct Hpub as [info Hinfo]. pose proof (Hsec (k, info) Hinfo) as Hk'.
    cbn [fst] in Hk'. rewrite He in Hk'. destruct Hk' as [_ [_ [D _]]].
    destruct (table_rows_returns e D) as [rows [Hrows _]]. exists rows. exact Hrows. }
  pose proof (Hsec (pub_key, pub_info) Hin) as Hpub. cbn [fst] in Hpub.
  destruct (Report.publications report !! pub_key) as [pub_data|] eqn:He.
  - destruct Hpub as [_ [Hp [_ Hna]]].
    unfold previous_posts in Hp. cbn [snd] in Hp. rewrite Hprev, period_metrics_empty in Hp.
    destruct (table_rows_no_previous pub_data Hp (Hna Hp))
      as [rows [Hrows [N1 [N2 [N3 N4]]]]].
    exists report, sections, rows.
    split; [exact Hbuild|]. split; [exact Hbuild|]. split; [exact Hsections|].
    split; [|repeat split; assumption].
    apply (Hshown pub_key pub_data rows); [|exact He | exact Hrows].
    destruct Hin as [H|[H|[]]]; injection H as <- _; cbn [In]; tauto.
  - exfalso. unfold has_current_posts, current_posts in Hpub. cbn [snd] in Hpub.
    destruct (fetch (id pub_info) curr_start curr_end); [congruence | discriminate].
Qed.

(** The second publication has one post now and none before. *)
Lemma table_of_a_publication_without_previous_posts_witness :
  exists (report : Report.t) (sections : list (string * list TableRow.t))
         (rows : list TableRow.t),
    generate_weekly_report Samples.lopsided_fetch 100 199 0 99 "now" "before" = Ok report
    /\ html_sections report = Ok sections
    /\ sections = [("EP Daily", rows)]
    /\ map TableRow.current rows = ["1"; "10"; "5"; "5"; "50.00%"; "0"; "0.00%"; "0"]
    /\ map TableRow.previous rows = repeat "-" 8.
Proof.
  destruct (table_of_a_publication_without_previous_posts
              Samples.lopsided_fetch 100 199 0 99 "now" "before" "EP Daily"
              {| id := "pub_2dd3324c-fa75-40a2-acf2-df2acff63d10";
                 display_name := "El Planeta"; color := "#ea4335" |})
    as [report [sections [rows [Hw [_ [Hs [Hin [_ [Hp _]]]]]]]]].
  - right. left. reflexivity.
  - discriminate.
  - reflexivity.
  - exists report, sections, rows. split; [exact Hw|]. split; [exact Hs|].
    vm_compute in Hw. injection Hw as <-. vm_compute in Hs. injection Hs as <-.
    destruct Hin as [Hin|[]]. injection Hin as <-.
    split; [reflexivity|]. split; reflexivity.
Defined.

(** ** The style of a change *)

(** X16.  Against a previous count above zero, a change is styled as positive
    exactly when the count did not go down; the unsubscribes row inverts the
    style, so its change is styled as positive exactly when the count went
    down, and an unchanged count is styled as negative. *)
Theorem unsubscribes_style_is_inverted (current previous : Z) :
  0 < previous ->
  exists change : ChangeResult,
    calc_change (PyInt current) (PyInt previous) false = Ok change
    /\ (chg_class change false = "change-positive" <-> previous <= current)
    /\ (chg_class change true = "change-positive" <-> current < previous)
    /\ (chg_class change true = "change-negative" <-> previous <= current).
Proof.
  intros Hp.
  assert (Hpq : (0 < inject_Z previous)%Q).
  { change 0%Q with (inject_Z 0). rewrite <- Zlt_Qlt. exact Hp. }
  assert (Hnz : ~ (py_Q (PyInt previous) == 0)%Q) by (cbn [py_Q]; lra).
  unfold calc_change, py_eq.
  assert (E : Qeq_bool (py_Q (PyInt previous)) (py_Q (PyInt 0)) = false)
    by (apply Qeq_bool_false; exact Hnz).
  destruct (Comparator.relative_change_returns (PyInt current) (PyInt previous) Hnz)
    as [quotient [Hq [_ [Hpos _]]]].
  rewrite E, Hq. cbn [mbind result_bind mret result_ret].
  eexists. split; [reflexivity|].
  unfold chg_class. cbn [positive].
  match goal with |- context [py_ge ?x ?y] => set (flag := py_ge x y) end.
  assert (Hflag : flag = true <-> previous <= current).
  { unfold flag, py_ge. rewrite Qle_bool_iff. change (py_Q (PyInt 0)) with 0%Q.
    rewrite Hpos. cbn [py_Q]. rewrite Zle_Qle.
    destruct (Qdiv_sign_pos (inject_Z current - inject_Z previous) (inject_Z previous) Hpq)
      as [Hsign _].
    rewrite Hsign. split; intros H; lra. }
  clearbody flag. destruct flag; cbn [negb].
  - assert (previous <= current) by (apply Hflag; reflexivity).
    repeat split; intros; try lia; try reflexivity; try discriminate.
  - assert (~ previous <= current) by (intros H; apply Hflag in H; discriminate).
    repeat split; intros; try lia; try reflexivity; try discriminate.
Qed.

(** Unsubscribes going from 11 to 9: a change of -18.2%, styled as positive
    in the unsubscribes row and as negative in any other. *)
Lemma unsubscribes_style_is_inverted_witness :
  exists change : ChangeResult,
    calc_change (PyInt 9) (PyInt 11) false = Ok change
    /\ display change = "-18.2%"
    /\ chg_class change true = "change-positive"
    /\ chg_class change false = "change-negative".
Proof.
  destruct (unsubscribes_style_is_inverted 9 11) as [change [Hc _]]; [lia|].
  exists change. vm_compute in Hc. injection Hc as <-. repeat split; reflexivity.
Defined.

(** ** The combined totals of the HTML page *)

Lemma totals_items_returns (report : Report.t) (avg : pynum)
    (posts impressions clicks avg_open_rate : ChangeResult) :
  Totals.avg_open_rate (Report.totals_current report) = Some avg ->
  Report.totals_changes report
  = <["avg_open_rate" := avg_open_rate]>
      (<["clicks" := clicks]> (<["impressions" := impressions]> (<["posts" := posts]> ∅))) ->
  exists items : list TotalItem.t,
    totals_items report = Ok items
    /\ map TotalItem.label items
       = ["Total Posts"; "Total Impressions"; "Avg Open Rate"; "Total Clicks"]
    /\ map TotalItem.value items
       = [py_str (Totals.posts (Report.totals_current report));
          format_thousands (Totals.impressions (Report.totals_current report));
          format_plain 1 avg +:+ "%";
          format_thousands (Totals.clicks (Report.totals_current report))]
    /\ map TotalItem.change_display items
       = [display posts; display impressions; display avg_open_rate; display clicks].
Proof.
  intros Havg Hchanges. unfold totals_items, tot_chg_class, getitem_dict.
  rewrite Havg, Hchanges.
  assert (H1 : (<["avg_open_rate" := avg_open_rate]>
                  (<["clicks" := clicks]>
                     (<["impressions" := impressions]> (<["posts" := posts]> ∅)))
                : gmap string ChangeResult) !! "posts" = Some posts).
  { rewrite !lookup_insert_ne by discriminate. apply lookup_insert_eq. }
  assert (H2 : (<["avg_open_rate" := avg_open_rate]>
                  (<["clicks" := clicks]>
                     (<["impressions" := impressions]> (<["posts" := posts]> ∅)))
                : gmap string ChangeResult) !! "impressions" = Some impressions).
  { rewrite !lookup_insert_ne by discriminate. apply lookup_insert_eq. }
  assert (H3 : (<["avg_open_rate" := avg_open_rate]>
                  (<["clicks" := clicks]>
                     (<["impressions" := impressions]> (<["posts" := posts]> ∅)))
                : gmap string ChangeResult) !! "avg_open_rate" = Some avg_open_rate).
  { apply lookup_insert_eq. }
  assert (H4 : (<["avg_open_rate" := avg_open_rate]>
                  (<["clicks" := clicks]>
                     (<["impressions" := impressions]> (<["posts" := posts]> ∅)))
                : gmap string ChangeResult) !! "clicks" = Some clicks).
  { rewrite lookup_insert_ne by discriminate. apply lookup_insert_eq. }
  rewrite H1, H2, H3, H4. cbn [mbind result_bind mret result_ret].
  eexists. repeat split; reflexivity.
Qed.

(** X17.  The Combined Totals grid of the HTML page built from a weekly or
    monthly report never fails on a missing key; it shows, in this order, the
    number of posts fetched for the current period, their impressions with
    thousands separators, the combined average open rate with one decimal and
    a percent sign, and their e-mail clicks with thousands separators. *)
Theorem combined_totals_block (fetch : string -> Z -> Z -> list RawPost)
    (curr_start curr_end prev_start prev_end : Z) (current_label previous_label : string) :
  let current := flat_map (current_posts fetch curr_start curr_end) PUBLICATIONS in
  exists (report : Report.t) (items : list TotalItem.t) (avg : pynum),
    generate_weekly_report fetch curr_start curr_end prev_start prev_end
      current_label previous_label = Ok report
    /\ generate_monthly_report fetch curr_start curr_end prev_start prev_end
         current_label previous_label = Ok report
    /\ totals_items report = Ok items
    /\ mean_or_zero (map Metrics.avg_open_rate
                       (current_aggregates fetch curr_start curr_end PUBLICATIONS)) = Ok avg
    /\ map TotalItem.label items
       = ["Total Posts"; "Total Impressions"; "Avg Open Rate"; "Total Clicks"]
    /\ map TotalItem.value items
       = [py_str (Z.of_nat (length current));
          format_thousands
            (Zsum (map (fun post => raw_opens post + raw_web_views post) current));
          format_plain 1 avg +:+ "%";
          format_thousands (Zsum (map raw_email_clicks current))].
Proof.
  intros current.
  destruct (BuildersMore.build_report_data_spelled_out fetch curr_start curr_end
              prev_start prev_end current_label previous_label PUBLICATIONS)
    as [report [curr_avg [prev_avg [posts [impressions [clicks [avg
         [Hbuild [T1 [T2 [T3 [_ [_ [_ [Hcm [_ [_ [_ [_ [_ [Hchanges _]]]]]]]]]]]]]]]]]]]]].
  destruct (build_report_data_returns fetch curr_start curr_end prev_start prev_end
              current_label previous_label PUBLICATIONS)
    as [report' [curr_avg' [prev_avg' [Hbuild' [_ [_ [_ [_ [Hco [_ [Hca [_ [Hcm' _]]]]]]]]]]]]].
  assert (report' = report) as -> by congruence.
  rewrite Hco in Hcm'. assert (curr_avg' = curr_avg) as -> by congruence.
  destruct (totals_items_returns report curr_avg posts impressions clicks avg Hca Hchanges)
    as [items [Hitems [Hlabels [Hvalues _]]]].
  exists report, items, curr_avg.
  split; [exact Hbuild|]. split; [exact Hbuild|]. split; [exact Hitems|].
  split; [exact Hcm|]. split; [exact Hlabels|].
  rewrite Hvalues, T1, T2, T3. reflexivity.
Qed.

(** X18.  When nothing was fetched for the current period, the report has no
    entry, the HTML page has no comparison table, and its Combined Totals show
    0 posts, 0 impressions, an open rate of 0.0% and 0 clicks, each with "N/A"
    as its change, styled as positive. *)
Theorem report_without_posts (fetch : string -> Z -> Z -> list RawPost)
    (curr_start curr_end prev_start prev_end : Z) (current_label previous_label : string) :
  (forall pub_key pub_info,
     In (pub_key, pub_info) PUBLICATIONS -> fetch (id pub_info) curr_start curr_end = []) ->
  exists (report : Report.t) (items : list TotalItem.t),
    generate_weekly_report fetch curr_start curr_end prev_start prev_end
      current_label previous_label = Ok report
    /\ generate_monthly_report fetch curr_start curr_end prev_start prev_end
         current_label previous_label = Ok report
    /\ Report.publications report = ∅
    /\ html_sections report = Ok []
    /\ totals_items report = Ok items
    /\ map TotalItem.value items = ["0"; "0"; "0.0%"; "0"]
    /\ map TotalItem.change_display items = repeat "N/A" 4
    /\ map TotalItem.change_class items = repeat "change-positive" 4.
Proof.
  intros Hnone.
  destruct (build_report_data_returns fetch curr_start curr_end prev_start prev_end
              current_label previous_label PUBLICATIONS)
    as [report [_ [_ [Hbuild [Hfiltered _]]]]].
  assert (Hfilter : List.filter (has_current_posts fetch curr_start curr_end) PUBLICATIONS
                    = []).
  { unfold PUBLICATIONS in *. cbn [List.filter].
    unfold has_current_posts, current_posts. cbn [snd].
    rewrite (Hnone "ETL Daily" _ ltac:(left; reflexivity)).
    rewrite (Hnone "EP Daily" _ ltac:(right; left; reflexivity)). reflexivity. }
  rewrite Hfilter in Hfiltered. vm_compute in Hfiltered. injection Hfiltered as <-.
  eexists. eexists. split; [exact Hbuild|]. split; [exact Hbuild|].
  split; [reflexivity|]. split; [reflexivity|]. split; [reflexivity|].
  repeat split; reflexivity.
Qed.

Lemma report_without_posts_witness :
  exists (report : Report.t) (items : list TotalItem.t),
    generate_weekly_report Samples.empty_fetch 100 199 0 99 "now" "before" = Ok report
    /\ html_sections report = Ok []
    /\ totals_items report = Ok items
    /\ map TotalItem.value items = ["0"; "0"; "0.0%"; "0"].
Proof.
  destruct (report_without_posts Samples.empty_fetch 100 199 0 99 "now" "before")
    as [report [items [Hw [_ [_ [Hs [Hi [Hv _]]]]]]]].
  - reflexivity.
  - exists report, items. repeat split; assumption.
Defined.

(** ** The Slack message *)

Lemma finish_totals_labels (report report' : Report.t) :
  finish_totals report = Ok report' ->
  Report.current_period report' = Report.current_period report
  /\ Report.previous_period report' = Report.previous_period report.
Proof.
  unfold finish_totals. intros H.
  repeat match type of H with
         | (?m ≫= _) = Ok _ =>
             destruct m eqn:?; [cbn [mbind result_bind] in H | discriminate]
         end.
  cbn [mret result_ret] in H. injection H as <-. split; reflexivity.
Qed.

Lemma loop_labels (fetch : string -> Z -> Z -> list RawPost)
    (curr_start curr_end prev_start prev_end : Z) (table : list (string * PubInfo)) :
  forall report report' : Report.t,
    for_each (publication_step fetch curr_start curr_end prev_start prev_end) table report
    = Ok report' ->
    Report.current_period report' = Report.current_period report
    /\ Report.previous_period report' = Report.previous_period report.
Proof.
  induction table as [|pub table IH]; intros report report' H.
  - simpl in H. injection H as <-. split; reflexivity.
  - simpl in H.
    destruct (publication_step_returns fetch curr_start curr_end prev_start prev_end
                report pub) as [report1 [Hstep Hspec]].
    rewrite Hstep in H. cbn [mbind result_bind] in H.
    destruct (IH report1 report' H) as [-> ->].
    destruct (period_metrics (current_posts fetch curr_start curr_end pub));
      [|subst report1; split; reflexivity].
    destruct Hspec as [changes [top [_ [_ [_ [_ [_ [-> ->]]]]]]]]. split; reflexivity.
Qed.

Lemma build_report_data_labels (fetch : string -> Z -> Z -> list RawPost)
    (curr_start curr_end prev_start prev_end : Z) (current_label previous_label : string)
    (table : list (string * PubInfo)) (report : Report.t) :
  build_report_data fetch curr_start curr_end prev_start prev_end
    current_label previous_label table = Ok report ->
  Report.current_period report = current_label
  /\ Report.previous_period report = previous_label.
Proof.
  unfold build_report_data. intros H.
  match type of H with
  | (?m ≫= _) = Ok _ => destruct m as [report1|e] eqn:Hloop; [|discriminate]
  end.
  cbn [mbind result_bind] in H.
  destruct (finish_totals_labels report1 report H) as [-> ->].
  destruct (loop_labels _ _ _ _ _ _ _ _ Hloop) as [-> ->]. split; reflexivity.
Qed.

Lemma slack_summary_returns (pub_key : string) (pub_data : Entry.t) :
  (forall key, In key change_keys -> is_Some (Entry.changes pub_data !! key)) ->
  exists summary : SlackSummary.t,
    slack_summary pub_key pub_data = Ok summary
    /\ SlackSummary.name summary = display_name_of pub_key
    /\ SlackSummary.blue summary = py_in "ETL" pub_key.
Proof.
  intros H. unfold slack_summary, getitem_dict.
  destruct (H "posts_sent" ltac:(known_key)) as [c1 ->].
  destruct (H "impressions" ltac:(known_key)) as [c2 ->].
  destruct (H "avg_open_rate" ltac:(known_key)) as [c3 ->].
  destruct (H "total_clicks" ltac:(known_key)) as [c4 ->].
  cbn [mbind result_bind mret result_ret]. eexists. repeat split; reflexivity.
Qed.

(** X19.  Posting to Slack is optional and never breaks a run.  Without a
    webhook URL [post_to_slack] posts nothing and returns [False].  With one,
    for a weekly or monthly report, it makes exactly one post, to that URL,
    and returns [True] exactly when the answer has status 200; an exception
    raised by the post gives [False].  The message names the two periods and
    the report file, and has one section for each publication with posts in
    the current period, in the order of the publication table, the first
    publication marked blue and the second red. *)
Theorem slack_post_is_optional (fetch : string -> Z -> Z -> list RawPost)
    (curr_start curr_end prev_start prev_end : Z) (current_label previous_label : string)
    (requests_post : string -> SlackMessage.t -> option Z)
    (html_file_path report_type : string) :
  let reported :=
    List.filter (has_current_posts fetch curr_start curr_end) PUBLICATIONS in
  exists report : Report.t,
    generate_weekly_report fetch curr_start curr_end prev_start prev_end
      current_label previous_label = Ok report
    /\ generate_monthly_report fetch curr_start curr_end prev_start prev_end
         current_label previous_label = Ok report
    /\ post_to_slack "" requests_post report html_file_path report_type = Ok ([], false)
    /\ forall url : string,
         url <> "" ->
         exists message : SlackMessage.t,
           post_to_slack url requests_post report html_file_path report_type
           = Ok ([(url, message)],
                 match requests_post url message with
                 | Some status_code => status_code =? 200
                 | None => false
                 end)
           /\ SlackMessage.weekly message = String.eqb report_type "weekly"
           /\ SlackMessage.current_period message = current_label
           /\ SlackMessage.previous_period message = previous_label
           /\ SlackMessage.full_report message = html_file_path
           /\ map SlackSummary.name (SlackMessage.summaries message)
              = map (fun pub : string * PubInfo => display_name pub.2) reported
           /\ map SlackSummary.blue (SlackMessage.summaries message)
              = map (fun pub : string * PubInfo => String.eqb pub.1 "ETL Daily") reported.
Proof.
  intros reported.
  destruct (build_report_data_returns fetch curr_start curr_end prev_start prev_end
              current_label previous_label PUBLICATIONS)
    as [report [_ [_ [Hbuild _]]]].
  destruct (build_report_data_labels _ _ _ _ _ _ _ _ _ Hbuild) as [Lc Lp].
  exists report. split; [exact Hbuild|]. split; [exact Hbuild|]. split; [reflexivity|].
  intros url Hurl. unfold post_to_slack.
  assert (E : String.eqb url "" = false) by (apply String.eqb_neq; exact Hurl).
  rewrite E.
  pose proof (fun pub => section_of_publication fetch curr_start curr_end prev_start
                           prev_end current_label previous_label report pub Hbuild) as Hsec.
  unfold reported, PUBLICATIONS. unfold PUBLICATIONS in Hsec.
  match type of Hsec with
  | forall pub, In pub [?p1; ?p2] -> _ =>
      pose proof (Hsec p1 ltac:(left; reflexivity)) as H1;
      pose proof (Hsec p2 ltac:(right; left; reflexivity)) as H2
  end.
  clear Hsec. cbn [fst] in H1, H2. cbn [for_each List.filter].
  destruct (Report.publications report !! "ETL Daily") as [e1|];
    [destruct H1 as [-> [_ [D1 _]]];
     destruct (slack_summary_returns "ETL Daily" e1 D1) as [s1 [-> [N1 B1]]]
    | rewrite H1];
    cbn [mbind result_bind mret result_ret app];
    (destruct (Report.publications report !! "EP Daily") as [e2|];
     [destruct H2 as [-> [_ [D2 _]]];
      destruct (slack_summary_returns "EP Daily" e2 D2) as [s2 [-> [N2 B2]]]
     | rewrite H2]);
    cbn [mbind result_bind mret result_ret app];
    match goal with
    | |- context [requests_post url ?m] =>
        exists m; split; [destruct (requests_post url m); reflexivity|]
    end;
    cbn [SlackMessage.weekly SlackMessage.current_period SlackMessage.previous_period
         SlackMessage.full_report SlackMessage.summaries map snd fst display_name];
    rewrite ?N1, ?N2, ?B1, ?B2, Lc, Lp; repeat split; reflexivity.
Qed.

(** A week with posts of both publications: a webhook answering 200 gives
    [True], one answering 500 or raising gives [False], and each is posted to
    once. *)
Lemma slack_post_is_optional_witness :
  exists (report : Report.t) (m m' m'' : SlackMessage.t),
    generate_weekly_report Samples.linked_fetch 100 199 0 99 "now" "before" = Ok report
    /\ post_to_slack "https://hooks.example/T" (Samples.answering 200) report
         "weekly_report.html" "weekly" = Ok ([("https://hooks.example/T", m)], true)
    /\ post_to_slack "https://hooks.example/T" (Samples.answering 500) report
         "weekly_report.html" "weekly" = Ok ([("https://hooks.example/T", m')], false)
    /\ post_to_slack "https://hooks.example/T" Samples.unreachable report
         "weekly_report.html" "weekly" = Ok ([("https://hooks.example/T", m'')], false)
    /\ post_to_slack "" (Samples.answering 200) report "weekly_report.html" "weekly"
       = Ok ([], false).
Proof.
  destruct (slack_post_is_optional Samples.linked_fetch 100 199 0 99 "now" "before"
              (Samples.answering 200) "weekly_report.html" "weekly")
    as [report [Hw [_ [Hoff Hon]]]].
  destruct (slack_post_is_optional Samples.linked_fetch 100 199 0 99 "now" "before"
              (Samples.answering 500) "weekly_report.html" "weekly")
    as [report' [Hw' [_ [_ Hon']]]].
  destruct (slack_post_is_optional Samples.linked_fetch 100 199 0 99 "now" "before"
              Samples.unreachable "weekly_report.html" "weekly")
    as [report'' [Hw'' [_ [_ Hon'']]]].
  assert (report' = report) as -> by congruence.
  assert (report'' = report) as -> by congruence.
  destruct (Hon "https://hooks.example/T") as [m [Hp _]]; [discriminate|].
  destruct (Hon' "https://hooks.example/T") as [m' [Hp' _]]; [discriminate|].
  destruct (Hon'' "https://hooks.example/T") as [m'' [Hp'' _]]; [discriminate|].
  exists report, m, m', m''. split; [exact Hw|].
  split; [exact Hp|]. split; [exact Hp'|]. split; [exact Hp'' | exact Hoff].
Defined.

End Rendering.

(* ===================================================================== *)
(** * More on the CSV and console script                                  *)
(* ===================================================================== *)

Module NewsletterMore.
Import NewsletterReport PyFacts.

Local Open Scope Q_scope.

(** ** The Change column of the monthly summary *)

(** The sign bit of [current - previous] against a previous value above 0. *)
Lemma difference_sign (current previous : pynum) :
  0 < py_Q previous ->
  (py_sign (py_sub current previous) = true <-> py_Q current < py_Q previous).
Proof.
  intros Hp. destruct (Qeq_dec (py_Q current) (py_Q previous)) as [He|Hne].
  - rewrite Comparator.py_sub_zero_sign by (try exact He; lra).
    split; [discriminate | intros H; lra].
  - rewrite Comparator.py_sign_negative by (rewrite py_Q_sub; lra).
    rewrite py_Q_sub. split; intros H; lra.
Qed.

(** The sign bit of the relative change against a previous value above 0. *)
Lemma relative_change_sign_bit (current previous : pynum) :
  0 < py_Q previous ->
  exists quotient : pynum,
    float_truediv (float_sub current previous) previous = Ok quotient
    /\ (py_sign (float_mul quotient (PyInt 100)) = true <-> py_Q current < py_Q previous)
    /\ (py_ge (float_mul quotient (PyInt 100)) (PyInt 0) = true
        <-> py_Q previous <= py_Q current).
Proof.
  intros Hp.
  assert (Hnz : ~ py_Q previous == 0) by lra.
  destruct (Comparator.relative_change_returns current previous Hnz)
    as [quotient [Hq [_ [Hpos [_ Hsign]]]]].
  destruct (Qdiv_sign_pos (py_Q current - py_Q previous) (py_Q previous) Hp) as [Hdiv _].
  exists quotient. split; [exact Hq|]. split.
  - rewrite Hsign. split.
    + intros [Hlt | [_ Hlt]]; [|lra].
      apply Qnot_le_lt. intros Hle.
      assert (H0 : 0 <= (py_Q current - py_Q previous) / py_Q previous)
        by (apply Hdiv; lra).
      lra.
    + intros Hlt. left. apply Qnot_le_lt. intros Hle. apply Hdiv in Hle. lra.
  - unfold py_ge. rewrite Qle_bool_iff. change (py_Q (PyInt 0)) with 0.
    rewrite Hpos, Hdiv. split; intros H; lra.
Qed.

(** X20.  Against a previous value that is not below zero, the Change column
    of the monthly console summary shows what the HTML report displays for the
    same two values: "N/A" against zero, else the signed relative change with
    one decimal and [%], or the signed difference with two decimals and [pp].
    (Below zero the two differ: the console drops the plus sign of a
    difference, or prints it before a minus sign.) *)
Theorem fmt_change_agrees_with_calc_change (curr_val prev_val : pynum) (is_pct : bool) :
  0 <= py_Q prev_val ->
  exists change : GenerateReport.ChangeResult,
    GenerateReport.calc_change curr_val prev_val is_pct = Ok change
    /\ fmt_change curr_val prev_val is_pct = Ok (GenerateReport.display change).
Proof.
  intros Hp. destruct (Qeq_dec (py_Q prev_val) 0) as [Hz|Hnz].
  - exists not_applicable. split; [apply Comparator.calc_change_not_applicable; exact Hz|].
    unfold fmt_change, py_eq.
    assert (E : Qeq_bool (py_Q prev_val) (py_Q (PyInt 0)) = true)
      by (apply Qeq_bool_iff; exact Hz).
    rewrite E. reflexivity.
  - assert (Hpos : 0 < py_Q prev_val) by lra.
    unfold GenerateReport.calc_change, fmt_change, py_eq.
    assert (E : Qeq_bool (py_Q prev_val) (py_Q (PyInt 0)) = false)
      by (apply Qeq_bool_false; exact Hnz).
    rewrite E.
    destruct (relative_change_sign_bit curr_val prev_val Hpos) as [quotient [Hq [Hs Hge]]].
    rewrite Hq.
    pose proof (difference_sign curr_val prev_val Hpos) as Hd.
    cbn [mbind result_bind mret result_ret].
    destruct is_pct; (eexists; split; [reflexivity|]); cbn [GenerateReport.display];
      unfold format_plain, format_signed.
    + destruct (py_sign (py_sub curr_val prev_val)) eqn:E1;
        destruct (py_ge (float_mul quotient (PyInt 100)) (PyInt 0)) eqn:E2;
        try reflexivity; exfalso.
      * assert (py_Q curr_val < py_Q prev_val) by (apply Hd; reflexivity).
        assert (py_Q prev_val <= py_Q curr_val) by (apply Hge; reflexivity). lra.
      * assert (N1 : ~ py_Q curr_val < py_Q prev_val)
          by (intros N; apply Hd in N; discriminate).
        assert (N2 : ~ py_Q prev_val <= py_Q curr_val)
          by (intros N; apply Hge in N; discriminate).
        lra.
    + destruct (py_sign (float_mul quotient (PyInt 100))) eqn:E1;
        destruct (py_ge (float_mul quotient (PyInt 100)) (PyInt 0)) eqn:E2;
        try reflexivity; exfalso.
      * assert (py_Q curr_val < py_Q prev_val) by (apply Hs; reflexivity).
        assert (py_Q prev_val <= py_Q curr_val) by (apply Hge; reflexivity). lra.
      * assert (N1 : ~ py_Q curr_val < py_Q prev_val)
          by (intros N; apply Hs in N; discriminate).
        assert (N2 : ~ py_Q prev_val <= py_Q curr_val)
          by (intros N; apply Hge in N; discriminate).
        lra.
Qed.

(** An average open rate going from 45.22 to 46.47. *)
Lemma fmt_change_agrees_with_calc_change_witness :
  fmt_change (float_lit (4647 # 100)) (float_lit (4522 # 100)) true = Ok "+1.25pp"
  /\ fmt_change (PyInt 50) (PyInt 100) false = Ok "-50.0%".
Proof.
  split.
  - destruct (fmt_change_agrees_with_calc_change
                (float_lit (4647 # 100)) (float_lit (4522 # 100)) true)
      as [change [Hc Hf]]; [vm_compute; discriminate|].
    vm_compute in Hc. injection Hc as <-. exact Hf.
  - destruct (fmt_change_agrees_with_calc_change (PyInt 50) (PyInt 100) false)
      as [change [Hc Hf]]; [vm_compute; discriminate|].
    vm_compute in Hc. injection Hc as <-. exact Hf.
Defined.

(** Below zero the two differ: for a difference of 2 points against -1 the
    console prints no plus sign, and for equal values of -5 it prints the
    plus sign before the minus sign of the negative zero. *)
Lemma fmt_change_below_zero :
  fmt_change (PyInt 1) (PyInt (-1)) true = Ok "2.00pp"
  /\ GenerateReport.calc_change (PyInt 1) (PyInt (-1)) true
     = Ok {| GenerateReport.value := PyInt 2;
             GenerateReport.display := "+2.00pp";
             GenerateReport.positive := true |}
  /\ fmt_change (PyInt (-5)) (PyInt (-5)) false = Ok "+-0.0%".
Proof. repeat split; reflexivity. Qed.

(** ** The monthly summary *)

Lemma average_or_zero_returns (total : pynum) (count : Z) :
  exists avg : pynum, average_or_zero total count = Ok avg.
Proof.
  unfold average_or_zero. destruct (count =? 0)%Z eqn:E; cbn [negb].
  - eexists. reflexivity.
  - apply Z.eqb_neq in E. rewrite py_truediv_nonzero; [eexists; reflexivity|].
    cbn [py_Q]. unfold Qeq. simpl. lia.
Qed.

Lemma monthly_calc_metrics_returns (posts_list : list Row.t) :
  exists metrics : MonthMetrics.t,
    monthly_calc_metrics posts_list = Ok metrics
    /\ MonthMetrics.posts metrics = Z.of_nat (length posts_list)
    /\ MonthMetrics.impressions metrics = Zsum (map Row.impressions posts_list)
    /\ MonthMetrics.total_clicks metrics = Zsum (map Row.clicks posts_list)
    /\ MonthMetrics.unsubscribes metrics = Zsum (map Row.unsubscribes posts_list).
Proof.
  unfold monthly_calc_metrics.
  repeat match goal with
         | |- context [average_or_zero ?t ?c] =>
             let avg := fresh "avg" in
             destruct (average_or_zero_returns t c) as [avg ->];
             cbn [mbind result_bind]
         end.
  cbn [mret result_ret]. eexists. split; [reflexivity|].
  cbn [MonthMetrics.posts MonthMetrics.impressions MonthMetrics.total_clicks
       MonthMetrics.unsubscribes].
  rewrite !sum_int_Zsum. repeat split; reflexivity.
Qed.

Lemma fmt_change_returns (curr_val prev_val : pynum) (is_pct : bool) :
  exists shown : string, fmt_change curr_val prev_val is_pct = Ok shown.
Proof.
  unfold fmt_change, py_eq.
  destruct (Qeq_bool (py_Q prev_val) (py_Q (PyInt 0))) eqn:E; [eexists; reflexivity|].
  apply Qeq_bool_false in E.
  destruct (Comparator.relative_change_returns curr_val prev_val E) as [quotient [Hq _]].
  rewrite Hq. cbn [mbind result_bind]. destruct is_pct; eexists; reflexivity.
Qed.

Lemma print_monthly_summary_returns (posts : list Row.t)
    (current_month_str prev_month_str : string) :
  let rows_of := fun (pub_name month : string) =>
                   List.filter (fun p => String.eqb (Row.publication p) pub_name
                                         && String.eqb (Row.month p) month) posts in
  let has_rows := fun (pub_name month : string) =>
                    match rows_of pub_name month with [] => false | _ :: _ => true end in
  exists blocks : list MonthBlock.t,
    print_monthly_summary posts current_month_str prev_month_str = Ok blocks
    /\ map MonthBlock.pub_name blocks
       = List.filter (fun pub_name => has_rows pub_name current_month_str
                                      && has_rows pub_name prev_month_str)
           (map fst PUBLICATIONS)
    /\ Forall (fun block =>
                 MonthMetrics.posts (MonthBlock.curr block)
                 = Z.of_nat (length (rows_of (MonthBlock.pub_name block) current_month_str))
                 /\ MonthMetrics.posts (MonthBlock.prev block)
                    = Z.of_nat (length (rows_of (MonthBlock.pub_name block) prev_month_str))
                 /\ length (MonthBlock.change_column block) = 8%nat)
         blocks.
Proof.
  intros rows_of has_rows. unfold print_monthly_summary.
  match goal with |- context [for_each ?f _ _] => set (body := f) end.
  assert (Hstep : forall printed pub_name,
    exists blocks : list MonthBlock.t,
      body printed pub_name = Ok (printed ++ blocks)
      /\ map MonthBlock.pub_name blocks
         = (if has_rows pub_name current_month_str && has_rows pub_name prev_month_str
            then [pub_name] else [])
      /\ Forall (fun block =>
                   MonthMetrics.posts (MonthBlock.curr block)
                   = Z.of_nat (length (rows_of (MonthBlock.pub_name block)
                                         current_month_str))
                   /\ MonthMetrics.posts (MonthBlock.prev block)
                      = Z.of_nat (length (rows_of (MonthBlock.pub_name block)
                                            prev_month_str))
                   /\ length (MonthBlock.change_column block) = 8%nat)
           blocks).
  { intros printed pub_name. unfold body, has_rows. cbv zeta.
    fold (rows_of pub_name current_month_str). fold (rows_of pub_name prev_month_str).
    destruct (monthly_calc_metrics_returns (rows_of pub_name current_month_str))
      as [curr [Hcurr [Hc _]]].
    destruct (monthly_calc_metrics_returns (rows_of pub_name prev_month_str))
      as [prev [Hprev [Hp _]]].
    destruct (rows_of pub_name current_month_str) as [|c cs] eqn:Ec.
    { exists []. rewrite app_nil_r. split; [reflexivity|]. split; [reflexivity|constructor]. }
    destruct (rows_of pub_name prev_month_str) as [|q qs] eqn:Ep.
    { exists []. rewrite app_nil_r. split; [reflexivity|]. split; [reflexivity|constructor]. }
    rewrite Hcurr, Hprev. cbn [mbind result_bind].
    repeat match goal with
           | |- context [fmt_change ?c ?p ?b] =>
               let shown := fresh "shown" in
               destruct (fmt_change_returns c p b) as [shown ->];
               cbn [mbind result_bind]
           end.
    cbn [mret result_ret andb]. eexists [_]. split; [reflexivity|].
    split; [reflexivity|]. constructor; [|constructor].
    cbn [MonthBlock.curr MonthBlock.prev MonthBlock.pub_name MonthBlock.change_column].
    rewrite Ec, Ep. split; [exact Hc|]. split; [exact Hp | reflexivity]. }
  clearbody body. cbn [map fst PUBLICATIONS for_each List.filter].
  destruct (Hstep [] "ETL Daily") as [blocks1 [H1 [N1 F1]]].
  rewrite H1. cbn [mbind result_bind app].
  destruct (Hstep blocks1 "EP Daily") as [blocks2 [H2 [N2 F2]]].
  rewrite H2.
  exists (blocks1 ++ blocks2). split; [reflexivity|]. split.
  - rewrite map_app, N1, N2.
    destruct (has_rows "ETL Daily" current_month_str && has_rows "ETL Daily" prev_month_str);
      destruct (has_rows "EP Daily" current_month_str && has_rows "EP Daily" prev_month_str);
      reflexivity.
  - apply Forall_app. split; assumption.
Qed.

(** X21.  The monthly console summary never fails and prints a publication
    exactly when the rows hold posts of it in both months, the current and the
    comparison one; the printed publications come in the order of the
    publication table; a printed block counts the publication's rows of each
    month and has the eight entries of the Change column. *)
Theorem monthly_summary_needs_both_months (posts : list Row.t)
    (current_month_str prev_month_str : string) :
  let rows_of := fun (pub_name month : string) =>
                   List.filter (fun p => String.eqb (Row.publication p) pub_name
                                         && String.eqb (Row.month p) month) posts in
  exists blocks : list MonthBlock.t,
    print_monthly_summary posts current_month_str prev_month_str = Ok blocks
    /\ (forall pub_name,
          In pub_name (map MonthBlock.pub_name blocks)
          <-> In pub_name (map fst PUBLICATIONS)
              /\ rows_of pub_name current_month_str <> []
              /\ rows_of pub_name prev_month_str <> [])
    /\ map MonthBlock.pub_name blocks
       = List.filter (fun pub_name =>
                        match rows_of pub_name current_month_str with
                        | [] => false
                        | _ :: _ => true
                        end
                        && match rows_of pub_name prev_month_str with
                           | [] => false
                           | _ :: _ => true
                           end)
           (map fst PUBLICATIONS)
    /\ Forall (fun block =>
                 MonthMetrics.posts (MonthBlock.curr block)
                 = Z.of_nat (length (rows_of (MonthBlock.pub_name block) current_month_str))
                 /\ MonthMetrics.posts (MonthBlock.prev block)
                    = Z.of_nat (length (rows_of (MonthBlock.pub_name block) prev_month_str))
                 /\ length (MonthBlock.change_column block) = 8%nat)
         blocks.
Proof.
  intros rows_of.
  destruct (print_monthly_summary_returns posts current_month_str prev_month_str)
    as [blocks [Hprint [Hnames Hblocks]]].
  fold rows_of in Hnames, Hblocks.
  exists blocks. split; [exact Hprint|]. split; [|split; [|exact Hblocks]].
  - intros pub_name. rewrite Hnames, List.filter_In, andb_true_iff.
    assert (Hne : forall rows : list Row.t,
              match rows with [] => false | _ :: _ => true end = true <-> rows <> []).
    { intros [|r rows]; split; intros H; try reflexivity; try discriminate; congruence. }
    rewrite !Hne. reflexivity.
  - exact Hnames.
Qed.

(** ** The two normalisers *)

Lemma map_take {A B : Type} (f : A -> B) (n : nat) (xs : list A) :
  map f (take n xs) = take n (map f xs).
Proof.
  revert xs. induction n as [|n IH]; intros [|x xs]; simpl; try reflexivity.
  rewrite IH. reflexivity.
Qed.

(** The counters and the rates of the row and of the normalised post. *)
Lemma row_and_post_fields (strftime : string -> Z -> string) (post : RawPost)
    (publication_name : string) (m : GenerateReport.Post.t) (row : Row.t) :
  GenerateReport.process_post post = Ok m ->
  process_post_data strftime post publication_name = Ok row ->
  Row.recipients row = GenerateReport.Post.recipients m
  /\ Row.unique_opens row = GenerateReport.Post.unique_opens m
  /\ Row.unique_clicks row = GenerateReport.Post.unique_clicks m
  /\ Row.impressions row = GenerateReport.Post.impressions m
  /\ Row.clicks row = GenerateReport.Post.clicks m
  /\ Row.unsubscribes row = GenerateReport.Post.unsubscribes m
  /\ Row.open_rate row = py_round (GenerateReport.Post.open_rate m) 2
  /\ Row.click_rate row = py_round (GenerateReport.Post.click_rate m) 2.
Proof.
  unfold GenerateReport.process_post, process_post_data.
  set (email := get (stats_email (get (post_stats post) empty_stats)) empty_email).
  destruct (Normalizer.rate_returns (get (email_unique_opens email) 0%Z)
              (get (email_recipients email) 0%Z)) as [x [-> _]].
  destruct (Normalizer.rate_returns (get (email_unique_clicks email) 0%Z)
              (get (email_recipients email) 0%Z)) as [y [-> _]].
  cbn [mbind result_bind mret result_ret].
  intros Hm Hrow. injection Hm as <-. injection Hrow as <-.
  repeat split; reflexivity.
Qed.

(** X22.  The two scripts normalise a post alike: the CSV row and the post of
    the HTML report have the same title and the same counters, the row's two
    rates are the report's rounded to two decimals, and the report's links are
    the first five of the rows of the clicks CSV. *)
Theorem normalisers_agree (strftime : string -> Z -> string) (post : RawPost)
    (publication_name : string) :
  exists (m : GenerateReport.Post.t) (row : Row.t),
    GenerateReport.process_post post = Ok m
    /\ process_post_data strftime post publication_name = Ok row
    /\ Row.title row = GenerateReport.Post.title m
    /\ Row.recipients row = GenerateReport.Post.recipients m
    /\ Row.opens row = GenerateReport.Post.opens m
    /\ Row.unique_opens row = GenerateReport.Post.unique_opens m
    /\ Row.clicks row = GenerateReport.Post.clicks m
    /\ Row.unique_clicks row = GenerateReport.Post.unique_clicks m
    /\ Row.unsubscribes row = GenerateReport.Post.unsubscribes m
    /\ Row.web_views row = GenerateReport.Post.web_views m
    /\ Row.impressions row = GenerateReport.Post.impressions m
    /\ Row.open_rate row = py_round (GenerateReport.Post.open_rate m) 2
    /\ Row.click_rate row = py_round (GenerateReport.Post.click_rate m) 2
    /\ GenerateReport.Post.top_clicks m
       = take 5 (map (fun c => {| GenerateReport.Click.url := ClickRow.link_url c;
                                  GenerateReport.Click.description :=
                                    ClickRow.link_description c;
                                  GenerateReport.Click.clicks := ClickRow.clicks c;
                                  GenerateReport.Click.unique_clicks :=
                                    ClickRow.unique_clicks c;
                                  GenerateReport.Click.post_title := None |})
                     (process_clicks_data post publication_name)).
Proof.
  unfold GenerateReport.process_post, process_post_data, process_clicks_data.
  set (email := get (stats_email (get (post_stats post) empty_stats)) empty_email).
  destruct (Normalizer.rate_returns (get (email_unique_opens email) 0%Z)
              (get (email_recipients email) 0%Z)) as [x [-> _]].
  destruct (Normalizer.rate_returns (get (email_unique_clicks email) 0%Z)
              (get (email_recipients email) 0%Z)) as [y [-> _]].
  cbn [mbind result_bind mret result_ret].
  eexists. eexists. split; [reflexivity|]. split; [reflexivity|].
  cbn [Row.title Row.recipients Row.opens Row.unique_opens Row.clicks Row.unique_clicks
       Row.unsubscribes Row.web_views Row.impressions Row.open_rate Row.click_rate
       GenerateReport.Post.title GenerateReport.Post.recipients GenerateReport.Post.opens
       GenerateReport.Post.unique_opens GenerateReport.Post.clicks
       GenerateReport.Post.unique_clicks GenerateReport.Post.unsubscribes
       GenerateReport.Post.web_views GenerateReport.Post.impressions
       GenerateReport.Post.open_rate GenerateReport.Post.click_rate
       GenerateReport.Post.top_clicks].
  repeat (split; [reflexivity|]).
  rewrite map_map, map_take. reflexivity.
Qed.

(** ** Sorting by a string key *)

Lemma ltb_asym (a b : string) : String.ltb a b = true -> String.ltb b a = false.
Proof.
  unfold String.ltb. rewrite (String.compare_antisym a b).
  destruct (String.compare b a); simpl; congruence.
Qed.

Lemma string_lt_trans (a b c : string) :
  String.compare a b = Lt -> String.compare b c = Lt -> String.compare a c = Lt.
Proof.
  intros H1 H2.
  exact (@StrictOrder_Transitive _ _ String_as_OT.lt_strorder a b c H1 H2).
Qed.

(** [a <= b] and [b <= c] give [a <= c], where [x <= y] is "not [y < x]". *)
Lemma not_ltb_trans (a b c : string) :
  String.ltb b a = false -> String.ltb c b = false -> String.ltb c a = false.
Proof.
  unfold String.ltb. intros H1 H2.
  destruct (String.compare c a) eqn:Eca; try reflexivity. exfalso.
  destruct (String.compare b a) eqn:Eba; try discriminate.
  - apply String.compare_eq_iff in Eba. subst b. rewrite Eca in H2. discriminate.
  - assert (Eab : String.compare a b = Lt).
    { rewrite String.compare_antisym, Eba. reflexivity. }
    rewrite (string_lt_trans c a b Eca Eab) in H2. discriminate.
Qed.

Section Ascending.

Context {A : Type}.
Variable key : A -> string.

(** [a] may stand before [b] in an ascending list. *)
Let asc (a b : A) : Prop := String.ltb (key b) (key a) = false.

Lemma insert_asc_permutation (x : A) (xs : list A) :
  Permutation (insert_asc key x xs) (x :: xs).
Proof.
  induction xs as [|y xs IH]; simpl; [reflexivity|].
  destruct (String.ltb (key y) (key x)); [|reflexivity].
  rewrite IH. apply perm_swap.
Qed.

Lemma insert_asc_sorted (x : A) (xs : list A) :
  StronglySorted asc xs -> StronglySorted asc (insert_asc key x xs).
Proof.
  induction xs as [|y xs IH]; intros Hs; simpl.
  - constructor; constructor.
  - apply StronglySorted_inv in Hs. destruct Hs as [Hs Hy].
    destruct (String.ltb (key y) (key x)) eqn:E.
    + constructor; [apply IH; exact Hs|].
      apply (Permutation_Forall (Permutation_sym (insert_asc_permutation x xs))).
      constructor; [apply ltb_asym; exact E | exact Hy].
    + constructor; [constructor; assumption|].
      constructor; [exact E|].
      eapply List.Forall_impl; [|exact Hy]. intros z Hz. unfold asc in *.
      exact (not_ltb_trans (key x) (key y) (key z) E Hz).
Qed.

Lemma insert_asc_stable (k : string) (x : A) (xs : list A) :
  List.filter (fun a => String.eqb (key a) k) (insert_asc key x xs)
  = List.filter (fun a => String.eqb (key a) k) (x :: xs).
Proof.
  induction xs as [|y xs IH]; [reflexivity|].
  cbn [insert_asc]. destruct (String.ltb (key y) (key x)) eqn:E; [|reflexivity].
  cbn [List.filter] in *. rewrite IH.
  destruct (String.eqb (key x) k) eqn:Ex; [|reflexivity].
  destruct (String.eqb (key y) k) eqn:Ey; [|reflexivity].
  exfalso. apply String.eqb_eq in Ex, Ey. rewrite Ex, Ey in E.
  unfold String.ltb in E.
  assert (Hk : String.compare k k = Eq).
  { pose proof (String.compare_antisym k k) as H.
    destruct (String.compare k k); simpl in H; congruence. }
  rewrite Hk in E. discriminate.
Qed.

Lemma sorted_by_string_permutation (xs : list A) : Permutation (sorted_by_string key xs) xs.
Proof.
  induction xs as [|x xs IH]; [reflexivity|].
  unfold sorted_by_string in *. simpl. rewrite insert_asc_permutation.
  apply perm_skip. exact IH.
Qed.

Lemma sorted_by_string_sorted (xs : list A) : StronglySorted asc (sorted_by_string key xs).
Proof.
  induction xs as [|x xs IH]; [constructor|].
  unfold sorted_by_string in *. simpl. apply insert_asc_sorted. exact IH.
Qed.

Lemma sorted_by_string_stable (k : string) (xs : list A) :
  List.filter (fun a => String.eqb (key a) k) (sorted_by_string key xs)
  = List.filter (fun a => String.eqb (key a) k) xs.
Proof.
  induction xs as [|x xs IH]; [reflexivity|].
  unfold sorted_by_string in *. simpl fold_right. rewrite insert_asc_stable.
  cbn [List.filter]. rewrite IH. reflexivity.
Qed.

End Ascending.

(** ** The rows of the weekly CSV files *)

Lemma descending_click_rows (clicks : list ClickRow.t) :
  StronglySorted
    (fun a b => inject_Z (ClickRow.clicks b) <= inject_Z (ClickRow.clicks a)) clicks ->
  StronglySorted (fun a b => (ClickRow.clicks b <= ClickRow.clicks a)%Z) clicks.
Proof.
  induction 1 as [|x l _ IH Hx]; constructor; [exact IH|].
  eapply List.Forall_impl; [|exact Hx]. intros y Hy. rewrite Zle_Qle. exact Hy.
Qed.

Lemma Qeq_bool_inject_Z (a b : Z) : Qeq_bool (inject_Z a) (inject_Z b) = (a =? b)%Z.
Proof.
  destruct (a =? b)%Z eqn:E.
  - apply Z.eqb_eq in E. subst b. apply Qeq_bool_iff. reflexivity.
  - apply Z.eqb_neq in E. apply Qeq_bool_false. intros H. apply E.
    unfold Qeq in H. simpl in H. lia.
Qed.

(** X23.  Computing the rows of the weekly CSV report never fails.  The posts
    file gets one row for each post fetched, over both publications, in
    ascending order of the date string, rows of equal date in fetch order.
    The clicks file gets one row for every link of every post fetched, none
    left out, in descending order of clicks, rows of equal clicks in fetch
    order. *)
Theorem weekly_csv_rows (strftime : string -> Z -> string)
    (fetch : string -> Z -> Z -> list RawPost) (start_date end_date : Z) :
  let fetched :=
    flat_map (fun pub : string * string =>
                map (fun post => (pub.1, post)) (fetch pub.2 start_date end_date))
             PUBLICATIONS in
  let links :=
    flat_map (fun named : string * RawPost => process_clicks_data named.2 named.1)
             fetched in
  exists (rows unsorted : list Row.t) (clicks : list ClickRow.t),
    generate_weekly_report strftime fetch start_date end_date = Ok (rows, clicks)
    /\ Forall2 (fun (named : string * RawPost) row =>
                  process_post_data strftime named.2 named.1 = Ok row) fetched unsorted
    /\ Permutation rows unsorted
    /\ StronglySorted (fun a b => String.ltb (Row.date b) (Row.date a) = false) rows
    /\ (forall date, List.filter (fun r => String.eqb (Row.date r) date) rows
                     = List.filter (fun r => String.eqb (Row.date r) date) unsorted)
    /\ Permutation clicks links
    /\ StronglySorted (fun a b => (ClickRow.clicks b <= ClickRow.clicks a)%Z) clicks
    /\ (forall k : Z, List.filter (fun c => (ClickRow.clicks c =? k)%Z) clicks
                      = List.filter (fun c => (ClickRow.clicks c =? k)%Z) links).
Proof.
  intros fetched links. unfold generate_weekly_report.
  match goal with |- context [for_each ?f PUBLICATIONS _] => set (outer := f) end.
  pose (inner := fun (name : string) (acc : list Row.t * list ClickRow.t)
                      (post : RawPost) =>
                  post_data ← process_post_data strftime post name;
                  let clicks_data := process_clicks_data post name in
                  mret (acc.1 ++ [post_data], acc.2 ++ clicks_data)).
  assert (Hinner : forall (name : string) (posts : list RawPost)
                          (acc : list Row.t * list ClickRow.t),
    exists rows : list Row.t,
      for_each (inner name) posts acc
      = Ok (acc.1 ++ rows,
            acc.2 ++ flat_map (fun named : string * RawPost =>
                                 process_clicks_data named.2 named.1)
                       (map (fun post => (name, post)) posts))
      /\ Forall2 (fun (named : string * RawPost) row =>
                    process_post_data strftime named.2 named.1 = Ok row)
           (map (fun post => (name, post)) posts) rows).
  { intros name posts. induction posts as [|post posts IH]; intros acc.
    - exists []. rewrite !app_nil_r. destruct acc. split; [reflexivity | constructor].
    - cbn [for_each].
      destruct (Normalizer.process_post_data_returns strftime post name)
        as [row [x [y [Hrow _]]]].
      assert (Hs : inner name acc post
                   = Ok (acc.1 ++ [row], acc.2 ++ process_clicks_data post name))
        by (unfold inner; rewrite Hrow; reflexivity).
      rewrite Hs. cbn [mbind result_bind].
      destruct (IH (acc.1 ++ [row], acc.2 ++ process_clicks_data post name))
        as [rows [Hr HF]].
      exists (row :: rows). rewrite Hr. cbn [fst snd map flat_map].
      rewrite <- !app_assoc. split; [reflexivity|]. constructor; [exact Hrow | exact HF]. }
  assert (Houter : forall (table : list (string * string))
                          (acc : list Row.t * list ClickRow.t),
    exists rows : list Row.t,
      for_each outer table acc
      = Ok (acc.1 ++ rows,
            acc.2 ++ flat_map (fun named : string * RawPost =>
                                 process_clicks_data named.2 named.1)
                       (flat_map (fun pub : string * string =>
                                    map (fun post => (pub.1, post))
                                        (fetch pub.2 start_date end_date)) table))
      /\ Forall2 (fun (named : string * RawPost) row =>
                    process_post_data strftime named.2 named.1 = Ok row)
           (flat_map (fun pub : string * string =>
                        map (fun post => (pub.1, post))
                            (fetch pub.2 start_date end_date)) table) rows).
  { induction table as [|pub table IH]; intros acc.
    - exists []. rewrite !app_nil_r. destruct acc. split; [reflexivity | constructor].
    - cbn [for_each].
      destruct (Hinner pub.1 (fetch pub.2 start_date end_date) acc) as [rows1 [H1 F1]].
      match type of H1 with _ = ?r =>
        assert (Hs : outer acc pub = r) by exact H1 end.
      rewrite Hs. cbn [mbind result_bind].
      match goal with |- context [for_each outer table ?a] =>
        destruct (IH a) as [rows2 [H2 F2]] end.
      exists (rows1 ++ rows2). rewrite H2. cbn [fst snd flat_map].
      rewrite flat_map_app, <- !app_assoc. split; [reflexivity|].
      apply Forall2_app; assumption. }
  clearbody outer.
  destruct (Houter PUBLICATIONS ([], [])) as [unsorted [Hloop HF]].
  rewrite Hloop. cbn [mbind result_bind mret result_ret fst snd app].
  fold fetched in HF |- *. fold links.
  eexists. exists unsorted. eexists. split; [reflexivity|].
  split; [exact HF|].
  split; [apply sorted_by_string_permutation|].
  split; [apply sorted_by_string_sorted|].
  split; [intros date; apply sorted_by_string_stable|].
  split; [apply Sorting.sorted_reverse_permutation|].
  split; [apply descending_click_rows, Sorting.sorted_reverse_sorted|].
  intros k.
  pose proof (Sorting.sorted_reverse_stable (fun x => inject_Z (ClickRow.clicks x))
                (inject_Z k) links) as H.
  rewrite !(List.filter_ext _ _ (fun c => Qeq_bool_inject_Z (ClickRow.clicks c) k)) in H.
  exact H.
Qed.

(** ** The week of the two weekly reports *)

(** X24.  The week of the weekly reports: the current window runs from the
    midnight that starts the given day to the last second of the sixth day
    after it; in the HTML script the previous window has the same length and
    ends one second before the current one starts; and the CSV script, called
    without an end date, fetches the same current window. *)
Theorem weekly_bounds_are_adjacent_weeks (start_day : Z) :
  let '(curr_start, curr_end, prev_start, prev_end) :=
    GenerateReport.weekly_bounds start_day in
  curr_start = (start_day * 86400)%Z
  /\ curr_end = (curr_start + 7 * 86400 - 1)%Z
  /\ prev_start = (curr_start - 7 * 86400)%Z
  /\ prev_end = (curr_start - 1)%Z
  /\ weekly_end (strptime_date start_day) None = curr_end.
Proof.
  unfold GenerateReport.weekly_bounds, weekly_end, strptime_date, timedelta_days,
    replace_235959.
  cbv zeta.
  assert (H1 : ((start_day * 86400 + 6 * 86400) mod 86400 = 0)%Z).
  { rewrite <- Z.mul_add_distr_r. apply Z.mod_mul. lia. }
  assert (H2 : ((start_day * 86400 - 7 * 86400 + 6 * 86400) mod 86400 = 0)%Z).
  { replace (start_day * 86400 - 7 * 86400 + 6 * 86400)%Z
      with ((start_day - 1) * 86400)%Z by lia.
    apply Z.mod_mul. lia. }
  rewrite H1, H2. repeat split; lia.
Qed.

(** ** The two aggregators *)

(** [int(x)] is the value of [x] cut toward zero. *)
Lemma py_int_trunc (x : pynum) :
  py_int x = if Qlt_bool (py_Q x) 0 then (- Qfloor (- py_Q x))%Z else Qfloor (py_Q x).
Proof.
  destruct x as [z|f].
  - cbn [py_int py_Q]. destruct (Qlt_bool (inject_Z z) 0).
    + rewrite <- inject_Z_opp, Qfloor_Z. lia.
    + symmetry. apply Qfloor_Z.
  - cbn [py_int py_Q]. unfold float_Q.
    pose proof (Qabs_nonneg (fmag f)) as Hm. fold (magnitude f) in Hm.
    destruct (fneg f).
    + destruct (Qlt_bool (- magnitude f) 0) eqn:E.
      * rewrite Qopp_involutive. reflexivity.
      * assert (H0 : magnitude f == 0).
        { apply Qle_antisym; [|exact Hm]. apply Qnot_lt_le. intros H.
          assert (Hlt : - magnitude f < 0) by lra.
          apply Qlt_bool_iff in Hlt. congruence. }
        rewrite H0. reflexivity.
    + destruct (Qlt_bool (magnitude f) 0) eqn:E; [|reflexivity].
      apply Qlt_bool_iff in E. lra.
Qed.

Lemma py_int_comp (x y : pynum) : py_Q x == py_Q y -> py_int x = py_int y.
Proof.
  intros H. rewrite !py_int_trunc.
  destruct (Qlt_bool (py_Q x) 0) eqn:Ex; destruct (Qlt_bool (py_Q y) 0) eqn:Ey.
  - rewrite H. reflexivity.
  - exfalso. apply Qlt_bool_iff in Ex. rewrite H in Ex. apply Qlt_bool_iff in Ex. congruence.
  - exfalso. apply Qlt_bool_iff in Ey. rewrite <- H in Ey. apply Qlt_bool_iff in Ey.
    congruence.
  - rewrite H. reflexivity.
Qed.

(** The mean of integers, cut toward zero, is the integer quotient. *)
Lemma py_int_mean (x : pynum) (xs : list Z) :
  xs <> [] ->
  py_Q x == mean (map inject_Z xs) ->
  py_int x = (Zsum xs ÷ Z.of_nat (length xs))%Z.
Proof.
  intros Hne Hx.
  assert (Hn : (0 < Z.of_nat (length xs))%Z) by (destruct xs; [congruence | simpl; lia]).
  rewrite <- (py_int_quotient false _ _ Hn). apply py_int_comp.
  rewrite Hx. cbn [py_Q]. rewrite exact_Q. unfold mean.
  rewrite length_map, Qsum_inject_Z. reflexivity.
Qed.

Lemma Qsum_close (e : Q) (xs ys : list Q) :
  Forall2 (fun x y => Qabs (x - y) <= e) xs ys ->
  Qabs (Qsum xs - Qsum ys) <= inject_Z (Z.of_nat (length xs)) * e.
Proof.
  induction 1 as [|x y xs ys Hxy _ IH].
  - simpl. rewrite Qmult_0_l. discriminate.
  - cbn [Qsum fold_right length]. fold (Qsum xs). fold (Qsum ys).
    rewrite Nat2Z.inj_succ. unfold Z.succ. rewrite inject_Z_plus.
    change (inject_Z 1) with 1.
    apply Qabs_Qle_condition in Hxy. apply Qabs_Qle_condition in IH.
    apply Qabs_Qle_condition. destruct Hxy, IH. split; lra.
Qed.

(** Lists that are close entry by entry have close means. *)
Lemma mean_close (e : Q) (xs ys : list Q) :
  xs <> [] ->
  Forall2 (fun x y => Qabs (x - y) <= e) xs ys ->
  Qabs (mean xs - mean ys) <= e.
Proof.
  intros Hne H. pose proof (Qsum_close e xs ys H) as Hsum.
  assert (Hlen : length ys = length xs).
  { clear -H. induction H; simpl; congruence. }
  unfold mean. rewrite Hlen.
  set (n := inject_Z (Z.of_nat (length xs))) in *.
  assert (Hn : 0 < n).
  { unfold n. destruct xs; [congruence|]. unfold Qlt; simpl. lia. }
  assert (Hd : Qsum xs / n - Qsum ys / n == (Qsum xs - Qsum ys) / n) by (field; lra).
  rewrite Hd. apply Qabs_Qle_condition in Hsum. destruct Hsum as [Hlo Hhi].
  apply Qabs_Qle_condition. split.
  - apply Qle_shift_div_l; [exact Hn | lra].
  - apply Qle_shift_div_r; [exact Hn | lra].
Qed.

(** The rows and the normalised posts of the same fetched posts. *)
Lemma rows_and_posts (strftime : string -> Z -> string) (publication_name : string)
    (posts : list RawPost) (rows : list Row.t) :
  Forall2 (fun post row => process_post_data strftime post publication_name = Ok row)
    posts rows ->
  Forall2 (fun row (m : GenerateReport.Post.t) =>
             Row.recipients row = GenerateReport.Post.recipients m
             /\ Row.unique_opens row = GenerateReport.Post.unique_opens m
             /\ Row.unique_clicks row = GenerateReport.Post.unique_clicks m
             /\ Row.impressions row = GenerateReport.Post.impressions m
             /\ Row.clicks row = GenerateReport.Post.clicks m
             /\ Row.unsubscribes row = GenerateReport.Post.unsubscribes m
             /\ Row.open_rate row = py_round (GenerateReport.Post.open_rate m) 2
             /\ Row.click_rate row = py_round (GenerateReport.Post.click_rate m) 2)
    rows (normalised posts).
Proof.
  intros H. pose proof (AggregatorMore.normalised_pointwise posts) as Hn.
  revert rows H. induction Hn as [|post m posts ms Hm _ IH]; intros rows H.
  - inversion H. constructor.
  - inversion H as [|post' row posts' rows' Hrow Hrest]; subst.
    constructor; [|apply IH; exact Hrest].
    exact (row_and_post_fields strftime post publication_name m row Hm Hrow).
Qed.

(** X25.  The console summary of the CSV script and the aggregate of the HTML
    script, computed from the same posts of a publication, agree: the same
    post count, impressions, clicks and unsubscribes; the aggregate's count
    averages are the summary's cut to an integer; and the two average rates
    differ by at most 0.005, the summary averaging rates that were rounded to
    two decimals. *)
Theorem aggregators_agree (strftime : string -> Z -> string) (publication_name : string)
    (posts : list RawPost) (rows : list Row.t) :
  posts <> [] ->
  Forall2 (fun post row => process_post_data strftime post publication_name = Ok row)
    posts rows ->
  exists (processed : list GenerateReport.Post.t) (summary : Summary.t)
         (metrics : GenerateReport.Metrics.t),
    comprehension GenerateReport.process_post posts = Ok processed
    /\ GenerateReport.calc_metrics processed = Ok (Some metrics)
    /\ weekly_summary_metrics rows = Ok (Some summary)
    /\ Summary.post_count summary = GenerateReport.Metrics.posts_sent metrics
    /\ Summary.total_impressions summary = GenerateReport.Metrics.impressions metrics
    /\ Summary.total_clicks summary = GenerateReport.Metrics.total_clicks metrics
    /\ Summary.total_unsubs summary = GenerateReport.Metrics.unsubscribes metrics
    /\ py_int (Summary.avg_sent summary) = GenerateReport.Metrics.avg_sent metrics
    /\ py_int (Summary.avg_unique_opens summary)
       = GenerateReport.Metrics.avg_unique_opens metrics
    /\ py_int (Summary.avg_unique_clicks summary)
       = GenerateReport.Metrics.avg_unique_clicks metrics
    /\ Qabs (py_Q (Summary.avg_open_rate summary)
             - py_Q (GenerateReport.Metrics.avg_open_rate metrics)) <= 1 # 200
    /\ Qabs (py_Q (Summary.avg_click_rate summary)
             - py_Q (GenerateReport.Metrics.avg_click_rate metrics)) <= 1 # 200.
Proof.
  intros Hne Hrows.
  pose proof (rows_and_posts strftime publication_name posts rows Hrows) as Hagree.
  destruct (Builders.normalised_returns posts) as [Hnorm Hlen].
  set (processed := normalised posts) in *.
  assert (Hlen' : length rows = length processed).
  { clear -Hagree. induction Hagree; simpl; congruence. }
  assert (Hpne : processed <> []).
  { intros E. rewrite E in Hlen. destruct posts; [congruence | discriminate]. }
  assert (Hrne : rows <> []).
  { intros E. rewrite E in Hlen'. destruct processed; [congruence | discriminate]. }
  destruct (Aggregator.calc_metrics_returns processed Hpne)
    as [metrics [Hm [M1 [M2 [M3 [M4 [M5 [M6 [M7 [M8 M9]]]]]]]]]].
  destruct (Aggregator.weekly_summary_metrics_returns rows Hrne)
    as [summary [Hs [S1 [S2 [S3 [S4 [S5 [S6 [S7 [S8 S9]]]]]]]]]].
  assert (Hmaps :
    map Row.recipients rows = map GenerateReport.Post.recipients processed
    /\ map Row.unique_opens rows = map GenerateReport.Post.unique_opens processed
    /\ map Row.unique_clicks rows = map GenerateReport.Post.unique_clicks processed
    /\ map Row.impressions rows = map GenerateReport.Post.impressions processed
    /\ map Row.clicks rows = map GenerateReport.Post.clicks processed
    /\ map Row.unsubscribes rows = map GenerateReport.Post.unsubscribes processed).
  { clear -Hagree. induction Hagree as [|row m rows ms [A1 [A2 [A3 [A4 [A5 [A6 _]]]]]] _ IH].
    - repeat split; reflexivity.
    - destruct IH as [I1 [I2 [I3 [I4 [I5 I6]]]]]. cbn [map].
      rewrite A1, A2, A3, A4, A5, A6, I1, I2, I3, I4, I5, I6. repeat split; reflexivity. }
  destruct Hmaps as [E1 [E2 [E3 [E4 [E5 E6]]]]].
  assert (Hopen : Forall2 (fun x y => Qabs (x - y) <= 1 # 200)
                    (map (fun p => py_Q (Row.open_rate p)) rows)
                    (map (fun p => py_Q (GenerateReport.Post.open_rate p)) processed)).
  { clear -Hagree. induction Hagree as [|row m rows ms [_ [_ [_ [_ [_ [_ [A7 _]]]]]]] _ IH];
      [constructor|].
    cbn [map]. constructor; [|exact IH]. rewrite A7.
    exact (proj1 (NormalizerMore.py_round_2_near _)). }
  assert (Hclick : Forall2 (fun x y => Qabs (x - y) <= 1 # 200)
                     (map (fun p => py_Q (Row.click_rate p)) rows)
                     (map (fun p => py_Q (GenerateReport.Post.click_rate p)) processed)).
  { clear -Hagree. induction Hagree as [|row m rows ms [_ [_ [_ [_ [_ [_ [_ A8]]]]]]] _ IH];
      [constructor|].
    cbn [map]. constructor; [|exact IH]. rewrite A8.
    exact (proj1 (NormalizerMore.py_round_2_near _)). }
  assert (Hmne : forall f : Row.t -> Z, map f rows <> []).
  { intros f E. apply Hrne. destruct rows; [reflexivity | discriminate]. }
  exists processed, summary, metrics.
  split; [exact Hnorm|]. split; [exact Hm|]. split; [exact Hs|].
  split; [rewrite S1, M1, Hlen'; reflexivity|].
  split; [rewrite S7, M7, E4; reflexivity|].
  split; [rewrite S8, M8, E5; reflexivity|].
  split; [rewrite S9, M9, E6; reflexivity|].
  split.
  { rewrite (py_int_mean _ (map Row.recipients rows) (Hmne _)).
    - rewrite M2, E1, !length_map. reflexivity.
    - rewrite S2, map_map. reflexivity. }
  split.
  { rewrite (py_int_mean _ (map Row.unique_opens rows) (Hmne _)).
    - rewrite M3, E2, !length_map. reflexivity.
    - rewrite S3, map_map. reflexivity. }
  split.
  { rewrite (py_int_mean _ (map Row.unique_clicks rows) (Hmne _)).
    - rewrite M4, E3, !length_map. reflexivity.
    - rewrite S4, map_map. reflexivity. }
  split.
  - rewrite S5, M5. apply mean_close; [|exact Hopen].
    intros E. apply Hrne. destruct rows; [reflexivity | discriminate].
  - rewrite S6, M6. apply mean_close; [|exact Hclick].
    intros E. apply Hrne. destruct rows; [reflexivity | discriminate].
Qed.

(** The sample week: both scripts count 5 posts and 22051 impressions, and
    6732 is the console's average of recipients cut to an integer. *)
Lemma aggregators_agree_witness :
  exists (rows : list Row.t) (summary : Summary.t) (metrics : GenerateReport.Metrics.t),
    Forall2 (fun post row => process_post_data (fun _ _ => "2026-01") post "ETL Daily" = Ok row)
      Samples.sample_week rows
    /\ weekly_summary_metrics rows = Ok (Some summary)
    /\ GenerateReport.calc_metrics (normalised Samples.sample_week) = Ok (Some metrics)
    /\ Summary.post_count summary = 5%Z
    /\ Summary.total_impressions summary = 22051%Z
    /\ GenerateReport.Metrics.impressions metrics = 22051%Z
    /\ py_int (Summary.avg_sent summary) = 6732%Z.
Proof.
  destruct (comprehension (fun post => process_post_data (fun _ _ => "2026-01") post "ETL Daily")
              Samples.sample_week) as [rows|e] eqn:Hrows;
    [|vm_compute in Hrows; discriminate].
  assert (HF : Forall2 (fun post row =>
                          process_post_data (fun _ _ => "2026-01") post "ETL Daily" = Ok row)
                 Samples.sample_week rows).
  { vm_compute in Hrows. injection Hrows as <-. repeat constructor. }
  destruct (aggregators_agree (fun _ _ => "2026-01") "ETL Daily" Samples.sample_week rows)
    as [processed [summary [metrics [Hp [Hm [Hs [A1 [A2 [_ [_ [A5 _]]]]]]]]]]];
    [discriminate | exact HF |].
  exists rows, summary, metrics. split; [exact HF|]. split; [exact Hs|].
  assert (processed = normalised Samples.sample_week) as ->.
  { destruct (Builders.normalised_returns Samples.sample_week) as [Hn _]. congruence. }
  split; [exact Hm|].
  vm_compute in Hm. injection Hm as <-.
  rewrite A1, A2, A5. repeat split; reflexivity.
Defined.

(** ** The weekly console summary *)

(** X26.  The weekly console summary never fails; it prints a block for each
    publication of the table that has a row, in table order, and the block
    counts the rows of that publication. *)
Theorem weekly_summary_prints_publications_with_rows (posts : list Row.t) :
  let rows_of := fun pub_name : string =>
                   List.filter (fun p => String.eqb (Row.publication p) pub_name) posts in
  exists blocks : list (string * Summary.t),
    print_weekly_summary posts = Ok blocks
    /\ map fst blocks
       = List.filter (fun pub_name => match rows_of pub_name with
                                      | [] => false
                                      | _ :: _ => true
                                      end) (map fst PUBLICATIONS)
    /\ Forall (fun block : string * Summary.t =>
                 Summary.post_count block.2 = Z.of_nat (length (rows_of block.1))) blocks.
Proof.
  intros rows_of. unfold print_weekly_summary.
  match goal with |- context [for_each ?f _ _] => set (body := f) end.
  assert (Hstep : forall printed pub_name,
    exists blocks : list (string * Summary.t),
      body printed pub_name = Ok (printed ++ blocks)
      /\ map fst blocks
         = (if match rows_of pub_name with [] => false | _ :: _ => true end
            then [pub_name] else [])
      /\ Forall (fun block : string * Summary.t =>
                   Summary.post_count block.2 = Z.of_nat (length (rows_of block.1)))
           blocks).
  { intros printed pub_name. unfold body. cbv zeta. fold (rows_of pub_name).
    destruct (rows_of pub_name) as [|r rs] eqn:E.
    - exists []. rewrite app_nil_r. split; [reflexivity|]. split; [reflexivity | constructor].
    - destruct (Aggregator.weekly_summary_metrics_returns (r :: rs))
        as [summary [Hs [Hc _]]]; [discriminate|].
      rewrite Hs. cbn [mbind result_bind mret result_ret].
      exists [(pub_name, summary)]. split; [reflexivity|]. split; [reflexivity|].
      constructor; [|constructor]. cbn [fst snd]. rewrite E. exact Hc. }
  clearbody body. cbn [map fst PUBLICATIONS for_each List.filter].
  destruct (Hstep [] "ETL Daily") as [blocks1 [H1 [N1 F1]]].
  rewrite H1. cbn [mbind result_bind app].
  destruct (Hstep blocks1 "EP Daily") as [blocks2 [H2 [N2 F2]]].
  rewrite H2.
  exists (blocks1 ++ blocks2). split; [reflexivity|]. split.
  - rewrite map_app, N1, N2.
    destruct (rows_of "ETL Daily"); destruct (rows_of "EP Daily"); reflexivity.
  - apply Forall_app. split; assumption.
Qed.

(** ** The monthly CSV report *)

Lemma insert_asc_pair_permutation {A : Type} (key : A -> string * string) (x : A)
    (xs : list A) :
  Permutation (insert_asc_pair key x xs) (x :: xs).
Proof.
  induction xs as [|y xs IH]; simpl; [reflexivity|].
  destruct (pair_ltb (key y) (key x)); [|reflexivity].
  rewrite IH. apply perm_swap.
Qed.

Lemma sorted_by_pair_permutation {A : Type} (key : A -> string * string) (xs : list A) :
  Permutation (sorted_by_pair key xs) xs.
Proof.
  induction xs as [|x xs IH]; [reflexivity|].
  unfold sorted_by_pair in *. simpl. rewrite insert_asc_pair_permutation.
  apply perm_skip. exact IH.
Qed.

Lemma filter_permutation_length {A : Type} (f : A -> bool) (xs ys : list A) :
  Permutation xs ys -> length (List.filter f xs) = length (List.filter f ys).
Proof.
  induction 1 as [|x xs ys _ IH|x y xs|xs ys zs _ IH1 _ IH2]; simpl.
  - reflexivity.
  - destruct (f x); simpl; congruence.
  - destruct (f x), (f y); reflexivity.
  - congruence.
Qed.

(** The rows of a month and a publication, counted on the posts they come
    from. *)
Lemma rows_of_month (strftime : string -> Z -> string) (pub_name month : string)
    (fetched : list (string * RawPost)) (rows : list Row.t) :
  Forall2 (fun (named : string * RawPost) row =>
             process_post_data strftime named.2 named.1 = Ok row) fetched rows ->
  length (List.filter (fun p => String.eqb (Row.publication p) pub_name
                                && String.eqb (Row.month p) month) rows)
  = length (List.filter
              (fun named : string * RawPost =>
                 String.eqb named.1 pub_name
                 && String.eqb (strftime "%Y-%m" (get (post_publish_date named.2) 0%Z)) month)
              fetched).
Proof.
  induction 1 as [|named row fetched rows Hrow _ IH]; [reflexivity|].
  cbn [List.filter].
  assert (Hp : Row.publication row = named.1 /\
               Row.month row = strftime "%Y-%m" (get (post_publish_date named.2) 0%Z)).
  { unfold process_post_data in Hrow.
    repeat match type of Hrow with
           | (?m ≫= _) = Ok _ =>
               destruct m eqn:?; [cbn [mbind result_bind] in Hrow | discriminate]
           end.
    cbn [mret result_ret] in Hrow. injection Hrow as <-. split; reflexivity. }
  destruct Hp as [-> ->].
  destruct (String.eqb named.1 pub_name
            && String.eqb (strftime "%Y-%m" (get (post_publish_date named.2) 0%Z)) month);
    simpl; congruence.
Qed.

(** The posts of one publication and one month among the named posts of a
    fetch. *)
Lemma named_posts_of_month (strftime : string -> Z -> string)
    (pub_name name month month' : string) (posts : list RawPost) :
  Forall (fun post => strftime "%Y-%m" (get (post_publish_date post) 0%Z) = month') posts ->
  length (List.filter
            (fun named : string * RawPost =>
               String.eqb named.1 pub_name
               && String.eqb (strftime "%Y-%m" (get (post_publish_date named.2) 0%Z)) month)
            (map (fun post => (name, post)) posts))
  = if String.eqb name pub_name && String.eqb month' month then length posts else 0%nat.
Proof.
  induction 1 as [|post posts Hpost _ IH].
  - simpl. destruct (String.eqb name pub_name && String.eqb month' month); reflexivity.
  - cbn [map List.filter fst snd]. rewrite Hpost.
    destruct (String.eqb name pub_name && String.eqb month' month); simpl; congruence.
Qed.

(** X27.  When every post fetched for a month carries that month in its local
    publish date, and the two months differ, the monthly CSV report never
    fails, has one row for each post fetched, and its summary prints the
    publications with posts in both months, in table order, each block
    counting the posts fetched for the publication in either month. *)
Theorem monthly_report_counts_the_fetched_posts (strftime : string -> Z -> string)
    (fetch : string -> Z -> Z -> list RawPost)
    (current_start current_end prev_start prev_end : Z)
    (current_month_str prev_month_str : string) :
  let current_of := fun pub : string * string => fetch pub.2 current_start current_end in
  let prev_of := fun pub : string * string => fetch pub.2 prev_start prev_end in
  let month_of := fun post => strftime "%Y-%m" (get (post_publish_date post) 0%Z) in
  current_month_str <> prev_month_str ->
  (forall pub, In pub PUBLICATIONS ->
     Forall (fun post => month_of post = current_month_str) (current_of pub)) ->
  (forall pub, In pub PUBLICATIONS ->
     Forall (fun post => month_of post = prev_month_str) (prev_of pub)) ->
  exists (rows : list Row.t) (blocks : list MonthBlock.t),
    generate_monthly_report strftime fetch current_start current_end prev_start prev_end
      current_month_str prev_month_str = Ok (rows, blocks)
    /\ length rows
       = length (flat_map (fun pub => current_of pub ++ prev_of pub) PUBLICATIONS)
    /\ map MonthBlock.pub_name blocks
       = map fst (List.filter (fun pub => match current_of pub, prev_of pub with
                                          | [], _ | _, [] => false
                                          | _ :: _, _ :: _ => true
                                          end) PUBLICATIONS)
    /\ Forall (fun block =>
                 exists pub, In pub PUBLICATIONS /\ pub.1 = MonthBlock.pub_name block
                   /\ MonthMetrics.posts (MonthBlock.curr block)
                      = Z.of_nat (length (current_of pub))
                   /\ MonthMetrics.posts (MonthBlock.prev block)
                      = Z.of_nat (length (prev_of pub)))
         blocks.
Proof.
  intros current_of prev_of month_of Hdiff Hcur Hprev. unfold generate_monthly_report.
  match goal with |- context [for_each ?f PUBLICATIONS _] => set (outer := f) end.
  pose (inner := fun (name : string) (all_posts : list Row.t) (post : RawPost) =>
                   post_data ← process_post_data strftime post name;
                   mret (all_posts ++ [post_data])).
  assert (Hinner : forall (name : string) (posts : list RawPost) (acc : list Row.t),
    exists rows : list Row.t,
      for_each (inner name) posts acc = Ok (acc ++ rows)
      /\ Forall2 (fun (named : string * RawPost) row =>
                    process_post_data strftime named.2 named.1 = Ok row)
           (map (fun post => (name, post)) posts) rows).
  { intros name posts. induction posts as [|post posts IH]; intros acc.
    - exists []. rewrite app_nil_r. split; [reflexivity | constructor].
    - cbn [for_each].
      destruct (Normalizer.process_post_data_returns strftime post name)
        as [row [x [y [Hrow _]]]].
      assert (Hs : inner name acc post = Ok (acc ++ [row]))
        by (unfold inner; rewrite Hrow; reflexivity).
      rewrite Hs. cbn [mbind result_bind].
      destruct (IH (acc ++ [row])) as [rows [Hr HF]].
      exists (row :: rows). rewrite Hr, <- app_assoc. split; [reflexivity|].
      constructor; [exact Hrow | exact HF]. }
  assert (Hround : forall (pub : string * string) (acc : list Row.t),
    exists rows : list Row.t,
      outer acc pub = Ok (acc ++ rows)
      /\ Forall2 (fun (named : string * RawPost) row =>
                    process_post_data strftime named.2 named.1 = Ok row)
           (map (fun post => (pub.1, post)) (current_of pub ++ prev_of pub)) rows).
  { intros pub acc.
    destruct (Hinner pub.1 (current_of pub) acc) as [rows1 [H1 F1]].
    destruct (Hinner pub.1 (prev_of pub) (acc ++ rows1)) as [rows2 [H2 F2]].
    exists (rows1 ++ rows2). split.
    - unfold outer. cbv zeta.
      change (for_each (inner pub.1) (current_of pub) acc
              ≫= (fun all_posts => for_each (inner pub.1) (prev_of pub) all_posts)
              = Ok (acc ++ rows1 ++ rows2)).
      rewrite H1. cbn [mbind result_bind]. rewrite H2, <- app_assoc. reflexivity.
    - rewrite map_app. apply Forall2_app; assumption. }
  clearbody outer. unfold PUBLICATIONS at 1. cbn [for_each].
  set (etl := ("ETL Daily", "pub_88b8ccea-c311-4381-a49c-91848583ba9e")) in *.
  set (ep := ("EP Daily", "pub_2dd3324c-fa75-40a2-acf2-df2acff63d10")) in *.
  destruct (Hround etl []) as [rows1 [H1 F1]]. rewrite H1. cbn [mbind result_bind app].
  destruct (Hround ep rows1) as [rows2 [H2 F2]]. rewrite H2. cbn [mbind result_bind].
  set (unsorted := rows1 ++ rows2).
  set (rows := sorted_by_pair (fun x => (Row.publication x, Row.date x)) unsorted).
  assert (Hperm : Permutation rows unsorted) by apply sorted_by_pair_permutation.
  assert (HF : Forall2 (fun (named : string * RawPost) row =>
                          process_post_data strftime named.2 named.1 = Ok row)
                 (map (fun post => (etl.1, post)) (current_of etl ++ prev_of etl)
                  ++ map (fun post => (ep.1, post)) (current_of ep ++ prev_of ep))
                 unsorted)
    by (apply Forall2_app; assumption).
  assert (Hin1 : In etl PUBLICATIONS) by (left; reflexivity).
  assert (Hin2 : In ep PUBLICATIONS) by (right; left; reflexivity).
  assert (Hcount : forall (pub_name month : string),
    length (List.filter (fun p => String.eqb (Row.publication p) pub_name
                                  && String.eqb (Row.month p) month) rows)
    = ((if String.eqb etl.1 pub_name && String.eqb current_month_str month
        then length (current_of etl) else 0)
       + (if String.eqb etl.1 pub_name && String.eqb prev_month_str month
          then length (prev_of etl) else 0)
       + ((if String.eqb ep.1 pub_name && String.eqb current_month_str month
           then length (current_of ep) else 0)
          + (if String.eqb ep.1 pub_name && String.eqb prev_month_str month
             then length (prev_of ep) else 0)))%nat).
  { intros pub_name month.
    rewrite (filter_permutation_length _ _ _ Hperm).
    rewrite (rows_of_month strftime pub_name month _ _ HF).
    rewrite !map_app, !List.filter_app, !length_app.
    rewrite (named_posts_of_month strftime pub_name etl.1 month current_month_str _
               (Hcur etl Hin1)).
    rewrite (named_posts_of_month strftime pub_name etl.1 month prev_month_str _
               (Hprev etl Hin1)).
    rewrite (named_posts_of_month strftime pub_name ep.1 month current_month_str _
               (Hcur ep Hin2)).
    rewrite (named_posts_of_month strftime pub_name ep.1 month prev_month_str _
               (Hprev ep Hin2)).
    reflexivity. }
  assert (Ecc : String.eqb current_month_str current_month_str = true)
    by apply String.eqb_refl.
  assert (Epp : String.eqb prev_month_str prev_month_str = true) by apply String.eqb_refl.
  assert (Ecp : String.eqb current_month_str prev_month_str = false)
    by (apply String.eqb_neq; exact Hdiff).
  assert (Epc : String.eqb prev_month_str current_month_str = false)
    by (apply String.eqb_neq; intros E; apply Hdiff; symmetry; exact E).
  pose proof (Hcount "ETL Daily" current_month_str) as C1.
  pose proof (Hcount "ETL Daily" prev_month_str) as C2.
  pose proof (Hcount "EP Daily" current_month_str) as C3.
  pose proof (Hcount "EP Daily" prev_month_str) as C4.
  cbn [etl ep fst] in C1, C2, C3, C4.
  rewrite ?Ecc, ?Epp, ?Ecp, ?Epc in C1. rewrite ?Ecc, ?Epp, ?Ecp, ?Epc in C2.
  rewrite ?Ecc, ?Epp, ?Ecp, ?Epc in C3. rewrite ?Ecc, ?Epp, ?Ecp, ?Epc in C4.
  change (String.eqb "ETL Daily" "ETL Daily") with true in C1, C2, C3, C4.
  change (String.eqb "EP Daily" "EP Daily") with true in C1, C2, C3, C4.
  change (String.eqb "ETL Daily" "EP Daily") with false in C1, C2, C3, C4.
  change (String.eqb "EP Daily" "ETL Daily") with false in C1, C2, C3, C4.
  cbn [andb] in C1, C2, C3, C4.
  rewrite ?Nat.add_0_r, ?Nat.add_0_l in C1. rewrite ?Nat.add_0_r, ?Nat.add_0_l in C2.
  rewrite ?Nat.add_0_r, ?Nat.add_0_l in C3. rewrite ?Nat.add_0_r, ?Nat.add_0_l in C4.
  destruct (print_monthly_summary_returns rows current_month_str prev_month_str)
    as [blocks [Hprint [Hnames Hblocks]]].
  rewrite Hprint. cbn [mbind result_bind mret result_ret].
  exists rows, blocks. split; [reflexivity|]. split; [|split].
  - rewrite (Permutation_length Hperm). unfold unsorted. rewrite length_app.
    apply Forall2_length in F1, F2. rewrite <- F1, <- F2, !length_map.
    unfold PUBLICATIONS. cbn [flat_map]. fold etl ep.
    rewrite app_nil_r, !length_app. lia.
  - rewrite Hnames. unfold PUBLICATIONS. cbn [map fst List.filter]. fold etl ep.
    assert (Hhas : forall (xs : list Row.t) (posts : list RawPost),
              length xs = length posts ->
              match xs with [] => false | _ :: _ => true end
              = match posts with [] => false | _ :: _ => true end).
    { intros [|x xs] [|q qs] E; try reflexivity; discriminate. }
    rewrite (Hhas _ _ C1), (Hhas _ _ C2), (Hhas _ _ C3), (Hhas _ _ C4).
    destruct (current_of etl), (prev_of etl), (current_of ep), (prev_of ep); reflexivity.
  - assert (Hmember : Forall (fun block => MonthBlock.pub_name block = "ETL Daily"
                                           \/ MonthBlock.pub_name block = "EP Daily")
                        blocks).
    { apply List.Forall_forall. intros block Hb.
      assert (Hn : In (MonthBlock.pub_name block) (map MonthBlock.pub_name blocks))
        by (apply in_map; exact Hb).
      rewrite Hnames in Hn. apply List.filter_In in Hn. destruct Hn as [Hn _].
      cbn in Hn. destruct Hn as [Hn|[Hn|[]]]; [left | right]; symmetry; exact Hn. }
    rewrite List.Forall_forall in Hblocks, Hmember. apply List.Forall_forall.
    intros block Hb. destruct (Hblocks block Hb) as [B1 [B2 _]].
    destruct (Hmember block Hb) as [E|E]; rewrite E in B1, B2.
    + exists etl. split; [exact Hin1|]. split; [symmetry; exact E|].
      rewrite B1, B2, C1, C2. split; reflexivity.
    + exists ep. split; [exact Hin2|]. split; [symmetry; exact E|].
      rewrite B1, B2, C3, C4. split; reflexivity.
Qed.

(** The first publication has a post in each month, the second only in the
    current one: three rows, and one block, of one post against one. *)
Lemma monthly_report_counts_the_fetched_posts_witness :
  exists (rows : list Row.t) (blocks : list MonthBlock.t),
    generate_monthly_report Samples.two_months Samples.two_month_fetch 100 199 0 99
      "2026-01" "2025-12" = Ok (rows, blocks)
    /\ length rows = 3%nat
    /\ map MonthBlock.pub_name blocks = ["ETL Daily"]
    /\ map MonthBlock.change_column blocks
       = [["+0.0%"; "+25.0%"; "+25.0%"; "+10.00pp"; "N/A"; "N/A"; "N/A"; "N/A"]].
Proof.
  destruct (monthly_report_counts_the_fetched_posts Samples.two_months
              Samples.two_month_fetch 100 199 0 99 "2026-01" "2025-12")
    as [rows [blocks [Hr [Hlen [Hnames _]]]]].
  - discriminate.
  - intros pub [<-|[<-|[]]]; repeat constructor.
  - intros pub [<-|[<-|[]]]; repeat constructor.
  - exists rows, blocks. split; [exact Hr|]. split; [exact Hlen|]. split; [exact Hnames|].
    vm_compute in Hr. injection Hr as _ <-. reflexivity.
Defined.

End NewsletterMore.
